(** * SuperDesign: the agent orchestration core

    A shallow embedding of [src/core/llm-service.ts] (class [LLMService]) and
    [src/core/agent.ts] (classes [BaseAgent], [SuperDesignCodingAgent] and
    [ClaudeCodeAgentWrapper]), with the properties the specification states
    about them.

    Conventions of the embedding.
    - A JavaScript function that may throw (or an [async] function that may
      reject) returns an [Outcome]; mutable state is passed explicitly.
    - An optional property ([x?: T], or a value that may be [undefined]) is an
      [option]; the operator [||] is [js_or] / [or_default] over the
      JavaScript truthiness of the value.
    - Objects whose identity matters (sessions) live in a heap and are
      referred to by location.
    - The output channel of the host is an external collaborator. The code
      only calls its [appendLine]; a call returns or throws, and every call
      is kept at its place in the control flow. What the channel displays is
      not part of the state. *)

From Stdlib Require Import ZArith QArith Lia.
From stdpp Require Import gmap strings list fin_maps pretty.

Open Scope string_scope.
Open Scope list_scope.
Open Scope Z_scope.

(** ** JavaScript values, truthiness and exceptions *)

Module Js.

(** Truthiness of a defined value: [""], [0] are falsy. *)
Class Truthy (A : Type) := truthy : A -> bool.

#[export] Instance truthy_string : Truthy string :=
  fun s => negb (String.eqb s "").
#[export] Instance truthy_Z : Truthy Z :=
  fun z => negb (Z.eqb z 0).
#[export] Instance truthy_Q : Truthy Q :=
  fun q => negb (Qeq_bool q (0 # 1)).

(** Truthiness of a possibly undefined value. *)
Definition truthy_opt {A} `{Truthy A} (o : option A) : bool :=
  match o with
  | Some a => truthy a
  | None => false
  end.

(** [a || b] where both sides may be undefined. *)
Definition js_or {A} `{Truthy A} (a b : option A) : option A :=
  if truthy_opt a then a else b.

(** [a || d] where [d] is a defined value. *)
Definition or_default {A} `{Truthy A} (a : option A) (d : A) : A :=
  match a with
  | Some v => if truthy v then v else d
  | None => d
  end.

(** A thrown value: an [Error] object (with its [name] and [message]) or
    any other value, identified with its string conversion. *)
Inductive Thrown : Type :=
| ThrownError (name message : string)
| ThrownValue (text : string).

(** [new Error(message)] *)
Definition new_Error (message : string) : Thrown := ThrownError "Error" message.

(** The error of reading a property of [undefined]. *)
Definition reading_undefined (key : string) : Thrown :=
  ThrownError "TypeError"
    ("Cannot read properties of undefined (reading '" +:+ key +:+ "')").

(** [String(e)] / [`${e}`]: [Error.prototype.toString] for error objects. *)
Definition to_string (e : Thrown) : string :=
  match e with
  | ThrownError name message =>
      if String.eqb name "" then message
      else if String.eqb message "" then name
      else name +:+ ": " +:+ message
  | ThrownValue text => text
  end.

(** [error instanceof Error ? error.message : String(error)] *)
Definition message_of (e : Thrown) : string :=
  match e with
  | ThrownError _ message => message
  | ThrownValue text => text
  end.

Inductive Outcome (A : Type) : Type :=
| Returned (a : A)
| Raised (e : Thrown).
Arguments Returned {A} a.
Arguments Raised {A} e.

Definition returns {A} (o : Outcome A) : Prop :=
  match o with Returned _ => True | Raised _ => False end.

(** [[...new Set(l)]]: the distinct elements in order of first insertion. *)
Fixpoint set_insert (x : string) (seen : list string) : list string :=
  match seen with
  | [] => [x]
  | y :: seen' => if String.eqb x y then seen else y :: set_insert x seen'
  end.

Definition set_of_list (l : list string) : list string :=
  foldl (fun seen x => set_insert x seen) [] l.

(** The process environment [process.env]. Assigning [undefined] to a slot
    stores the string ["undefined"]. *)
Definition env_coerce (v : option string) : string := default "undefined" v.

(** [`${v}`] in a template, for a string that may be [undefined]. *)
Definition show (v : option string) : string := default "undefined" v.

End Js.
Export Js.

Abbreviation Env := (gmap string string).

(** ** Data model of the LLM service ([llm-service.ts]) *)

(** [LLMProvider]. The provider name reaches the service through an
    [as any] cast, so it is any string; [model] and [apiKey] may be missing. *)
Record LLMProvider := {
  prov_name : string;
  prov_model : option string;
  prov_apiKey : option string
}.

Inductive Role := RoleSystem | RoleUser | RoleAssistant.

(** [ConversationMessage] *)
Record ConversationMessage := {
  cm_role : Role;
  cm_content : string;
  cm_timestamp : option Z
}.

(** [CoreMessage] of the provider SDK, as [formatMessages] builds it. *)
Record CoreMessage := {
  core_role : Role;
  core_content : string
}.

(** A tool set: [any[] | { [name: string]: any }]. Only the entries' names
    are kept; the executors live behind the provider SDK. *)
Inductive ToolSet :=
| ToolArray (items : list string)
| ToolObject (keys : list string).

(** A tool call in one of the shapes the providers report. The object is
    an [any]: the properties the code reads are kept, and [tc_json] is the
    text [JSON.stringify(toolCall, null, 2)] gives for the whole object. *)
Record FunctionCall := {
  fn_name : option string;
  fn_arguments : option string
}.

Record ToolCall := {
  tc_toolName : option string;
  tc_function : option FunctionCall;
  tc_name : option string;
  tc_toolCallId : option string;
  tc_id : option string;
  tc_args : option string;
  tc_json : string
}.

Record ToolResult := {
  tr_toolCallId : option string;
  tr_toolName : option string;
  tr_result : string
}.

(** One step of a multi-step generation. *)
Record Step := {
  step_toolCalls : option (list ToolCall);
  step_toolResults : option (list ToolResult)
}.

Record Usage := {
  promptTokens : Z;
  completionTokens : Z
}.

(** [LLMResponse] *)
Record LLMResponse := {
  resp_content : string;
  resp_usage : option Usage;
  resp_finishReason : option string;
  resp_toolCalls : option (list ToolCall);
  resp_toolResults : option (list ToolResult);
  resp_steps : option (list Step)
}.

(** [LLMServiceConfig]. The interface requires [provider]; it is an option
    because the configuration [updateConfig] stores can have it
    [undefined]. *)
Record LLMServiceConfig := {
  cfg_provider : option LLMProvider;
  cfg_maxTokens : option Z;
  cfg_temperature : option Q;
  cfg_tools : option ToolSet;
  cfg_systemPrompt : option string
}.

(** [Partial<LLMServiceConfig>]: [None] is an absent key, [Some None] is a
    key present with the value [undefined]. *)
Record PartialConfig := {
  pc_provider : option (option LLMProvider);
  pc_maxTokens : option (option Z);
  pc_temperature : option (option Q);
  pc_tools : option (option ToolSet);
  pc_systemPrompt : option (option string)
}.

(** The options of [generateResponse] / [generateStreamingResponse]. *)
Record GenerateOptions := {
  go_maxTokens : option Z;
  go_temperature : option Q;
  go_tools : option ToolSet;
  go_maxSteps : option Z
}.

(** *** The provider SDK, an external collaborator *)

(** A model client as returned by a provider factory. *)
Record LanguageModel := {
  lm_provider : string;
  lm_modelId : option string;
  lm_credential : option string
}.

(** The parameters handed to [generateText] / [streamText]. *)
Record GenerateParams := {
  gp_model : LanguageModel;
  gp_messages : list CoreMessage;
  gp_maxTokens : Z;
  gp_temperature : Q;
  gp_maxSteps : Z;
  gp_tools : option ToolSet
}.

(** What [generateText] resolves to. *)
Record GenerateTextResult := {
  gt_text : string;
  gt_usage : option Usage;
  gt_finishReason : option string;
  gt_steps : option (list Step)
}.

(** The SDK entry points the service calls. A factory sees the process
    environment at the time of the call; [generateText] resolves or rejects
    after some elapsed time in milliseconds; [streamText] returns the text
    fragments of the stream. *)
Class ProviderSdk := {
  openai : Env -> option string -> Outcome LanguageModel;
  anthropic : Env -> option string -> Outcome LanguageModel;
  google : Env -> option string -> Outcome LanguageModel;
  openrouter_chat : option string -> option string -> Outcome LanguageModel;
  generateText : GenerateParams -> Outcome GenerateTextResult * Z;
  streamText : GenerateParams -> Outcome (list string)
}.

(** *** The output channel, an external collaborator *)

(** The [vscode.OutputChannel] the host hands to the service and to the
    agents (the agent passes its own on to the service it builds). The code
    only calls [appendLine(line)]: the call returns ([None]) or throws.
    Whether it throws is taken to depend on the line alone, as the answers
    of the other collaborators depend on their arguments alone. *)
Class OutputChannel := {
  appendLine : string -> option Thrown
}.

(** A statement [outputChannel.appendLine(line)] followed by the rest of a
    block: when the call throws, the block ends with [raise error]. *)
Definition logged `{channel : OutputChannel} {R : Type} (line : string)
    (raise : Thrown -> R) (next : R) : R :=
  match appendLine line with
  | Some error => raise error
  | None => next
  end.

(** ** Data model of the agents ([agent.ts]) *)

Inductive MessageType := TypeUser | TypeAssistant | TypeSystem | TypeResult.

(** [SDKMessage], the uniform message. The [message] payload ([any]) is kept
    as its JSON text. *)
Record SDKMessage := {
  sdk_type : MessageType;
  sdk_subtype : option string;
  sdk_message : option string;
  sdk_content : option string;
  sdk_session_id : option string;
  sdk_parent_tool_use_id : option string;
  sdk_duration_ms : option Z;
  sdk_total_cost_usd : option Q
}.

Record AbortController := {
  aborted : bool
}.

(** An [onMessage] callback: given the messages it has already received and
    the next one, it returns or throws. *)
Definition Callback := list SDKMessage -> SDKMessage -> option Thrown.

(** [AgentOptions] *)
Record AgentOptions := {
  ao_maxTurns : option Z;
  ao_temperature : option Q;
  ao_maxTokens : option Z;
  ao_maxSteps : option Z;
  ao_systemPrompt : option string;
  ao_abortController : option AbortController;
  ao_onMessage : option Callback;
  ao_sessionId : option string
}.

(** [TaskResult] *)
Record TaskResult := {
  task_success : bool;
  task_messages : list SDKMessage;
  task_finalMessage : option string;
  task_toolsUsed : list string;
  task_duration : Z;
  task_totalCost : option Q;
  task_error : option string
}.

(** [AgentResponse] *)
Record AgentResponse := {
  ar_messages : list SDKMessage;
  ar_isComplete : bool;
  ar_suggestedActions : option (list string);
  ar_context : gmap string string
}.

(** [ConversationTurn] *)
Record ConversationTurn := {
  turn_id : string;
  turn_timestamp : Z;
  turn_userMessage : string;
  turn_agentResponse : AgentResponse;
  turn_toolResults : list ToolResult
}.

(** [AgentSession] *)
Record AgentSession := {
  sess_id : string;
  sess_startTime : Z;
  sess_lastActivity : Z;
  sess_projectPath : string;
  sess_turns : list ConversationTurn;
  sess_context : gmap string string
}.

(** A session object is referred to by its location in the heap. *)
Abbreviation loc := nat.

(** The part of the process the code reads and writes outside the agent's
    own fields: the clock behind [Date.now()] and [new Date()], the process
    environment, the heap of session objects, and the messages delivered to
    [onMessage] callbacks so far. *)
Record World := {
  clock : Z;
  env : Env;
  heap : list AgentSession;
  delivered : list SDKMessage
}.

Definition set_env (e : Env) (w : World) : World :=
  {| clock := clock w; env := e; heap := heap w; delivered := delivered w |}.

Definition advance (dt : Z) (w : World) : World :=
  {| clock := clock w + dt; env := env w; heap := heap w; delivered := delivered w |}.

Definition set_heap (h : list AgentSession) (w : World) : World :=
  {| clock := clock w; env := env w; heap := h; delivered := delivered w |}.

Definition deliver (m : SDKMessage) (w : World) : World :=
  {| clock := clock w; env := env w; heap := heap w; delivered := delivered w ++ [m] |}.

(** The world after messages have been delivered to a callback. *)
Definition hears (messages : list SDKMessage) (w : World) : World :=
  {| clock := clock w; env := env w; heap := heap w;
     delivered := delivered w ++ messages |}.

(** Allocation of a fresh object. *)
Definition alloc (s : AgentSession) (w : World) : loc * World :=
  (length (heap w), set_heap (heap w ++ [s]) w).

(** ** [LLMService] *)

Module LLMService.
Section WithCollaborators.
Context `{sdk : ProviderSdk} `{channel : OutputChannel}.

(** The service object: its configuration. Its output channel is the
    collaborator [channel]. *)
Record t := {
  config : LLMServiceConfig
}.

(** [`${this.config.provider.name}/${this.config.provider.model}`], which
    the diagnostic lines contain. *)
Definition providerLabel (this : t) : Outcome string :=
  match cfg_provider (config this) with
  | None => Raised (reading_undefined "name")
  | Some provider => Returned (prov_name provider +:+ "/" +:+ show (prov_model provider))
  end.

(** [validateConfig] *)
Definition validateConfig (this : t) : Outcome unit :=
  match cfg_provider (config this) with
  | None => Raised (reading_undefined "apiKey")
  | Some provider =>
      if negb (truthy_opt (prov_apiKey provider)) then
        Raised (new_Error ("API key is required for " +:+ prov_name provider +:+ " provider"))
      else if negb (truthy_opt (prov_model provider)) then
        Raised (new_Error ("Model is required for " +:+ prov_name provider +:+ " provider"))
      else
        logged ("LLMService initialized with " +:+ prov_name provider +:+ "/" +:+
                show (prov_model provider))
          Raised (Returned tt)
  end.

(** [constructor(config, outputChannel)] *)
Definition new (cfg : LLMServiceConfig) : Outcome t :=
  let this := {| config := cfg |} in
  match validateConfig this with
  | Returned _ => Returned this
  | Raised e => Raised e
  end.

(** The pattern [getModel] repeats for openai, anthropic and google: save
    the slot, overwrite it with the configured key, build the client, then
    put the saved value back if it is truthy and delete the slot otherwise.
    When the factory throws the slot is left overwritten. *)
Definition with_env_key (slot : string)
    (factory : Env -> option string -> Outcome LanguageModel)
    (provider : LLMProvider) (e : Env) : Outcome LanguageModel * Env :=
  let original := e !! slot in
  let e1 := <[slot := env_coerce (prov_apiKey provider)]> e in
  match factory e1 (prov_model provider) with
  | Raised err => (Raised err, e1)
  | Returned model =>
      (Returned model,
       match original with
       | Some key => if truthy key then <[slot := key]> e1 else delete slot e1
       | None => delete slot e1
       end)
  end.

(** The [switch] of [getModel] on the name of a provider. *)
Definition modelFor (provider : LLMProvider) (e : Env) : Outcome LanguageModel * Env :=
  let name := prov_name provider in
  if String.eqb name "openai" then
    with_env_key "OPENAI_API_KEY" openai provider e
  else if String.eqb name "anthropic" then
    with_env_key "ANTHROPIC_API_KEY" anthropic provider e
  else if String.eqb name "google" then
    with_env_key "GOOGLE_GENERATIVE_AI_API_KEY" google provider e
  else if String.eqb name "openrouter" then
    (openrouter_chat (prov_apiKey provider) (prov_model provider), e)
  else (Raised (new_Error ("Unsupported provider: " +:+ name)), e).

(** [getModel] *)
Definition getModel (this : t) (e : Env) : Outcome LanguageModel * Env :=
  match cfg_provider (config this) with
  | None => (Raised (reading_undefined "name"), e)
  | Some provider => modelFor provider e
  end.

(** [formatMessages] *)
Definition formatMessages (messages : list ConversationMessage) : list CoreMessage :=
  map (fun msg => {| core_role := cm_role msg; core_content := cm_content msg |}) messages.

(** The history sent to the provider: the formatted messages, with the
    system prompt put in front when one is configured. *)
Definition withSystemPrompt (this : t) (formatted : list CoreMessage) : list CoreMessage :=
  match cfg_systemPrompt (config this) with
  | Some prompt =>
      if truthy prompt
      then {| core_role := RoleSystem; core_content := prompt |} :: formatted
      else formatted
  | None => formatted
  end.

(** [options?.tools || this.config.tools]: an array or an object is truthy,
    also when it is empty. *)
Definition requestedTools (this : t) (options : option GenerateOptions) : option ToolSet :=
  match options ≫= go_tools with
  | Some tools => Some tools
  | None => cfg_tools (config this)
  end.

(** A tool set is handed on only when it has an entry. *)
Definition toolsIfAny (tools : option ToolSet) : option ToolSet :=
  match tools with
  | Some (ToolArray items) => if (0 <? Z.of_nat (length items)) then tools else None
  | Some (ToolObject keys) => if (0 <? Z.of_nat (length keys)) then tools else None
  | None => None
  end.

(** [generateParams] / [streamParams] *)
Definition buildParams (this : t) (model : LanguageModel)
    (messages : list ConversationMessage) (options : option GenerateOptions)
    : GenerateParams :=
  {| gp_model := model;
     gp_messages := withSystemPrompt this (formatMessages messages);
     gp_maxTokens :=
       or_default (js_or (options ≫= go_maxTokens) (cfg_maxTokens (config this))) 4000;
     gp_temperature :=
       or_default (js_or (options ≫= go_temperature) (cfg_temperature (config this))) (7 # 10);
     gp_maxSteps := or_default (options ≫= go_maxSteps) 25;
     gp_tools := toolsIfAny (requestedTools this options) |}.

(** The diagnostic line about the tool set: [typeof tools],
    [Array.isArray(tools)] and [Object.keys(tools).join(', ')] (the indices
    of an array), or ["none"] when there is no tool set. *)
Definition toolsLine (tools : option ToolSet) : string :=
  "[DEBUG] Tools type: " +:+
  match tools with Some _ => "object" | None => "undefined" end +:+
  ", isArray: " +:+
  match tools with Some (ToolArray _) => "true" | _ => "false" end +:+
  ", keys: " +:+
  match tools with
  | Some (ToolArray items) => String.concat ", " (map pretty (seq 0 (length items)))
  | Some (ToolObject keys) => String.concat ", " keys
  | None => "none"
  end.

(** One iteration of the loop over [result.steps]: the step's calls and
    results are pushed onto the two flat arrays. *)
Definition collectStep (acc : list ToolCall * list ToolResult) (step : Step)
    : list ToolCall * list ToolResult :=
  (match step_toolCalls step with
   | Some calls => acc.1 ++ calls
   | None => acc.1
   end,
   match step_toolResults step with
   | Some results => acc.2 ++ results
   | None => acc.2
   end).

Definition collectSteps (steps : option (list Step)) : list ToolCall * list ToolResult :=
  match steps with
  | Some steps => foldl collectStep ([], []) steps
  | None => ([], [])
  end.

(** The object [generateResponse] returns for a resolved [generateText]. *)
Definition toResponse (result : GenerateTextResult) : LLMResponse :=
  let flat := collectSteps (gt_steps result) in
  {| resp_content := gt_text result;
     resp_usage :=
       match gt_usage result with
       | Some u => Some {| promptTokens := promptTokens u;
                           completionTokens := completionTokens u |}
       | None => None
       end;
     resp_finishReason := gt_finishReason result;
     resp_toolCalls := Some flat.1;
     resp_toolResults := Some flat.2;
     resp_steps := Some (default [] (gt_steps result)) |}.

(** The [try] block of [generateResponse]. It ends with the response or with
    what was thrown, by the channel, by [getModel] or by [generateText]. *)
Definition generateBody (this : t) (messages : list ConversationMessage)
    (options : option GenerateOptions) (w : World) : Outcome LLMResponse * World :=
  match providerLabel this with
  | Raised error => (Raised error, w)
  | Returned label =>
      logged ("Generating response with " +:+ label) (fun error => (Raised error, w))
        match getModel this (env w) with
        | (Raised error, e1) => (Raised error, set_env e1 w)
        | (Returned model, e1) =>
            let w1 := set_env e1 w in
            let params := buildParams this model messages options in
            logged (toolsLine (requestedTools this options))
              (fun error => (Raised error, w1))
              (logged ("[DEBUG] MaxSteps: " +:+ pretty (gp_maxSteps params))
                 (fun error => (Raised error, w1))
                 match generateText params with
                 | (Raised error, dt) => (Raised error, advance dt w1)
                 | (Returned result, dt) =>
                     let w2 := advance dt w1 in
                     let flat := collectSteps (gt_steps result) in
                     logged ("Response generated: " +:+
                             pretty (String.length (gt_text result)) +:+ " characters")
                       (fun error => (Raised error, w2))
                       (logged ("Tools executed: " +:+ pretty (length flat.1) +:+
                                " calls, " +:+ pretty (length flat.2) +:+ " results")
                          (fun error => (Raised error, w2))
                          (Returned (toResponse result), w2))
                 end)
        end
  end.

(** [generateResponse]: the [try] block, and the [catch] clause, which
    writes a line and then throws
    [Error("Failed to generate response: ...")]. *)
Definition generateResponse (this : t) (messages : list ConversationMessage)
    (options : option GenerateOptions) (w : World) : Outcome LLMResponse * World :=
  match generateBody this messages options w with
  | (Returned response, w') => (Returned response, w')
  | (Raised error, w') =>
      logged ("Error generating response: " +:+ to_string error)
        (fun thrown => (Raised thrown, w'))
        (Raised (new_Error ("Failed to generate response: " +:+ to_string error)), w')
  end.

(** [StreamingLLMResponse]: the text fragments; [usage] is [undefined]. *)
Record StreamingLLMResponse := {
  stream : list string;
  stream_usage : option Usage
}.

(** The [try] block of [generateStreamingResponse]. *)
Definition streamingBody (this : t) (messages : list ConversationMessage)
    (options : option GenerateOptions) (w : World)
    : Outcome StreamingLLMResponse * World :=
  match providerLabel this with
  | Raised error => (Raised error, w)
  | Returned label =>
      logged ("Starting streaming response with " +:+ label)
        (fun error => (Raised error, w))
        match getModel this (env w) with
        | (Raised error, e1) => (Raised error, set_env e1 w)
        | (Returned model, e1) =>
            let w1 := set_env e1 w in
            match streamText (buildParams this model messages options) with
            | Raised error => (Raised error, w1)
            | Returned fragments =>
                (Returned {| stream := fragments; stream_usage := None |}, w1)
            end
        end
  end.

(** [generateStreamingResponse] *)
Definition generateStreamingResponse (this : t) (messages : list ConversationMessage)
    (options : option GenerateOptions) (w : World)
    : Outcome StreamingLLMResponse * World :=
  match streamingBody this messages options w with
  | (Returned response, w') => (Returned response, w')
  | (Raised error, w') =>
      logged ("Error starting streaming response: " +:+ to_string error)
        (fun thrown => (Raised thrown, w'))
        (Raised (new_Error ("Failed to start streaming response: " +:+ to_string error)),
         w')
  end.

(** [{ ...this.config, ...newConfig }]: every key present in [newConfig]
    replaces the configured value, also when its value is [undefined]. *)
Definition mergeConfig (cfg : LLMServiceConfig) (newConfig : PartialConfig)
    : LLMServiceConfig :=
  {| cfg_provider := default (cfg_provider cfg) (pc_provider newConfig);
     cfg_maxTokens := default (cfg_maxTokens cfg) (pc_maxTokens newConfig);
     cfg_temperature := default (cfg_temperature cfg) (pc_temperature newConfig);
     cfg_tools := default (cfg_tools cfg) (pc_tools newConfig);
     cfg_systemPrompt := default (cfg_systemPrompt cfg) (pc_systemPrompt newConfig) |}.

(** [updateConfig]: the merged configuration is stored before it is
    validated. *)
Definition updateConfig (newConfig : PartialConfig) (this : t) : Outcome unit * t :=
  let this' := {| config := mergeConfig (config this) newConfig |} in
  (validateConfig this', this').

(** [getConfig] *)
Definition getConfig (this : t) : LLMServiceConfig := config this.

End WithCollaborators.
End LLMService.

(** ** [MessageAdapter] *)

(** The argument of [createToolCallMessage]. *)
Record ToolCallInfo := {
  tci_toolCallId : option string;
  tci_toolName : string;
  tci_args : option string
}.

(** Modelled from the spec: the module [utils/message-adapter] that
    [agent.ts] imports is not among the sources. The specification (4.2)
    describes it as pure, stateless and total conversions into uniform
    messages, each tagged with a session id, and fixes the shape of one
    result: [createErrorMessage] "accepts an error object or string, always
    produces a result-typed message with an error subtype". The conversions
    are taken as an interface carrying that one law; [calculateTotalCost]
    "returns undefined if none present". The error argument ([Error | string])
    is a [Thrown]: an error object or a plain text. *)
Class MessageAdapter := {
  createUserMessage : string -> string -> SDKMessage;
  createAssistantMessage : string -> string -> Z -> SDKMessage;
  createErrorMessage : Thrown -> string -> SDKMessage;
  createToolCallMessage : ToolCallInfo -> string -> SDKMessage;
  createToolResultMessage : ToolResult -> string -> SDKMessage;
  calculateTotalCost : list SDKMessage -> option Q;
  createErrorMessage_result : forall error sessionId,
    sdk_type (createErrorMessage error sessionId) = TypeResult /\
    sdk_subtype (createErrorMessage error sessionId) = Some "error"
}.

(** A uniform message that reports a failure. *)
Definition is_error_result (m : SDKMessage) : Prop :=
  sdk_type m = TypeResult /\ sdk_subtype m = Some "error".

(** ** The tool registry, an external collaborator *)

(** [ExecutionContext]; its [outputChannel] is the collaborator
    [OutputChannel]. *)
Record ExecutionContext := {
  ec_workingDirectory : string;
  ec_sessionId : string
}.

Record ToolRegistry := {
  getAllTools : list string;
  getVercelAITools : ExecutionContext -> ToolSet
}.

(** ** The agents *)

Record LlmSettings := {
  ls_provider : string;
  ls_model : option string;
  ls_apiKey : option string;
  ls_maxTokens : option Z;
  ls_temperature : option Q
}.

Record SystemPrompts := {
  sp_default : string;
  sp_design : string;
  sp_coding : string
}.

Record Security := {
  allowedPaths : list string;
  restrictToWorkspace : bool
}.

(** [AgentConfig]; its [outputChannel] is the collaborator
    [OutputChannel]. *)
Record AgentConfig := {
  workingDirectory : string;
  toolRegistry : ToolRegistry;
  llmConfig : LlmSettings;
  systemPrompts : SystemPrompts;
  security : Security
}.

(** The fields of an agent object: those of [BaseAgent] followed by those
    [SuperDesignCodingAgent] adds. [sessions] maps a session id to the
    session object stored under it. *)
Record Agent := {
  config : AgentConfig;
  sessions : gmap string loc;
  isInitializedFlag : bool;
  llmService : LLMService.t;
  conversationHistory : gmap string (list ConversationMessage)
}.

Definition set_sessions (s : gmap string loc) (this : Agent) : Agent :=
  {| config := config this; sessions := s;
     isInitializedFlag := isInitializedFlag this;
     llmService := llmService this;
     conversationHistory := conversationHistory this |}.

Definition set_config (c : AgentConfig) (this : Agent) : Agent :=
  {| config := c; sessions := sessions this;
     isInitializedFlag := isInitializedFlag this;
     llmService := llmService this;
     conversationHistory := conversationHistory this |}.

Definition set_history (h : gmap string (list ConversationMessage)) (this : Agent) : Agent :=
  {| config := config this; sessions := sessions this;
     isInitializedFlag := isInitializedFlag this;
     llmService := llmService this;
     conversationHistory := h |}.

(** [{ ...options }] of an absent [options]. *)
Definition noOptions : AgentOptions :=
  {| ao_maxTurns := None; ao_temperature := None; ao_maxTokens := None;
     ao_maxSteps := None; ao_systemPrompt := None; ao_abortController := None;
     ao_onMessage := None; ao_sessionId := None |}.

(** [{ ...options, sessionId }] *)
Definition withSessionId (options : option AgentOptions) (sessionId : string)
    : AgentOptions :=
  let o := default noOptions options in
  {| ao_maxTurns := ao_maxTurns o; ao_temperature := ao_temperature o;
     ao_maxTokens := ao_maxTokens o; ao_maxSteps := ao_maxSteps o;
     ao_systemPrompt := ao_systemPrompt o;
     ao_abortController := ao_abortController o;
     ao_onMessage := ao_onMessage o; ao_sessionId := Some sessionId |}.

(** [{ ...options, sessionId, abortController, onMessage }] *)
Definition withQueryArguments (options : option AgentOptions) (sessionId : string)
    (abortController : option AbortController) (onMessage : option Callback)
    : AgentOptions :=
  let o := default noOptions options in
  {| ao_maxTurns := ao_maxTurns o; ao_temperature := ao_temperature o;
     ao_maxTokens := ao_maxTokens o; ao_maxSteps := ao_maxSteps o;
     ao_systemPrompt := ao_systemPrompt o;
     ao_abortController := abortController;
     ao_onMessage := onMessage; ao_sessionId := Some sessionId |}.

(** [`session-${Date.now()}`] *)
Definition freshSessionId (w : World) : string := "session-" +:+ pretty (clock w).

(** The signature of [executeTaskWithStreaming]. *)
Definition ExecuteTask (S : Type) : Type :=
  string -> option AgentOptions -> S -> World -> Outcome TaskResult * S * World.

(** *** Project analysis: JSON values and the file system *)

(** A value produced by [JSON.parse]. The members of an object are kept in
    the order of the text; when a key occurs twice the later member is the
    one the object has. *)
#[local] Unset Elimination Schemes.
Inductive Json :=
| JNull
| JBool (b : bool)
| JNumber (n : Q)
| JString (s : string)
| JArray (items : list Json)
| JObject (members : list (string * Json)).
#[local] Set Elimination Schemes.

(** Truthiness of a JSON value: [null], [false], [0] and [""] are falsy;
    arrays and objects are truthy. *)
#[export] Instance truthy_Json : Truthy Json :=
  fun v =>
    match v with
    | JNull => false
    | JBool b => b
    | JNumber n => truthy n
    | JString s => truthy s
    | JArray _ => true
    | JObject _ => true
    end.

(** The member an object has under a key. *)
Definition member (key : string) (members : list (string * Json)) : option Json :=
  snd <$> find (fun entry => String.eqb entry.1 key) (reverse members).

(** [value.key] for one of the keys [dependencies], [devDependencies] and
    [scripts], which no prototype defines: reading it from [null] throws a
    [TypeError], from an object gives the member, from anything else gives
    [undefined]. *)
Definition property (value : Json) (key : string) : Outcome (option Json) :=
  match value with
  | JNull =>
      Raised (ThrownError "TypeError"
                ("Cannot read properties of null (reading '" +:+ key +:+ "')"))
  | JObject members => Returned (member key members)
  | _ => Returned None
  end.

(** The elements of an array or the characters of a string (one per
    character of an ASCII text) with their indices as keys. *)
Fixpoint indexed (i : nat) (items : list Json) : list (string * Json) :=
  match items with
  | [] => []
  | item :: rest => (pretty i, item) :: indexed (S i) rest
  end.

Fixpoint characters (s : string) : list Json :=
  match s with
  | EmptyString => []
  | String c rest => JString (String c EmptyString) :: characters rest
  end.

(** The own enumerable properties [{ ...value }] copies, in order:
    nothing for [undefined], [null], a boolean or a number. *)
Definition spread (value : option Json) : list (string * Json) :=
  match value with
  | Some (JObject members) => members
  | Some (JArray items) => indexed 0 items
  | Some (JString s) => indexed 0 (characters s)
  | _ => []
  end.

(** Copying properties into an object: a later property replaces an earlier
    one with the same key. *)
Definition assign (target : gmap string Json) (properties : list (string * Json))
    : gmap string Json :=
  foldl (fun object entry => <[entry.1 := entry.2]> object) target properties.

Record ProjectStructure := {
  directories : list string;
  files : list string;
  entryPoints : list string
}.

(** [ProjectAnalysis]. The package file is not checked against the declared
    types, so [dependencies] and [scripts] hold whatever JSON it has. *)
Record ProjectAnalysis := {
  projectType : string;
  techStack : list string;
  structure : ProjectStructure;
  dependencies : gmap string Json;
  scripts : Json;
  supportsTypeScript : bool;
  hasTests : bool;
  buildSystem : string
}.

(** What [analyzeCodbase] uses of Node: [path.join], [fs.existsSync],
    [fs.readFileSync(_, 'utf8')] and [JSON.parse]. *)
Class NodeFs := {
  path_join : string -> string -> string;
  existsSync : string -> bool;
  readFileSync : string -> Outcome string;
  JSON_parse : string -> Outcome Json
}.

(** *** [BaseAgent] *)

Module BaseAgent.
Section Abstract.

(** The abstract method the concrete methods call through [this]. *)
Variable executeTaskWithStreaming : ExecuteTask Agent.

(** [session.lastActivity = date] *)
Definition touch (date : Z) (s : AgentSession) : AgentSession :=
  {| sess_id := sess_id s; sess_startTime := sess_startTime s;
     sess_lastActivity := date; sess_projectPath := sess_projectPath s;
     sess_turns := sess_turns s; sess_context := sess_context s |}.

(** [session.turns.push(turn)] *)
Definition pushTurn (turn : ConversationTurn) (s : AgentSession) : AgentSession :=
  {| sess_id := sess_id s; sess_startTime := sess_startTime s;
     sess_lastActivity := sess_lastActivity s;
     sess_projectPath := sess_projectPath s;
     sess_turns := sess_turns s ++ [turn]; sess_context := sess_context s |}.

(** Update of the object at a location. *)
Definition update (session : loc) (f : AgentSession -> AgentSession) (w : World) : World :=
  set_heap (alter f session (heap w)) w.

(** [continueConversation] *)
Definition continueConversation (message conversationId : string)
    (options : option AgentOptions) (this : Agent) (w : World)
    : Outcome AgentResponse * Agent * World :=
  match sessions this !! conversationId with
  | None =>
      (Raised (new_Error ("Session " +:+ conversationId +:+ " not found")), this, w)
  | Some session =>
      let w1 := update session (touch (clock w)) w in
      match executeTaskWithStreaming message
              (Some (withSessionId options conversationId)) this w1 with
      | (Raised error, this2, w2) => (Raised error, this2, w2)
      | (Returned result, this2, w2) =>
          let response :=
            {| ar_messages := task_messages result;
               ar_isComplete := task_success result;
               ar_suggestedActions :=
                 Some (if task_success result then [] else ["retry"; "clarify"]);
               ar_context := from_option sess_context ∅ (heap w2 !! session) |} in
          let turn :=
            {| turn_id := "turn-" +:+ pretty (clock w2);
               turn_timestamp := clock w2;
               turn_userMessage := message;
               turn_agentResponse := response;
               turn_toolResults := [] |} in
          (Returned response, this2, update session (pushTurn turn) w2)
      end
  end.

(** [getSession] *)
Definition getSession (sessionId projectPath : string) (this : Agent) (w : World)
    : loc * Agent * World :=
  match sessions this !! sessionId with
  | Some session => (session, this, w)
  | None =>
      let '(session, w1) :=
        alloc {| sess_id := sessionId; sess_startTime := clock w;
                 sess_lastActivity := clock w; sess_projectPath := projectPath;
                 sess_turns := []; sess_context := ∅ |} w in
      (session, set_sessions (<[sessionId := session]> (sessions this)) this, w1)
  end.

(** The test [now - session.lastActivity.getTime() > maxAge]. *)
Definition expired (now maxAge : Z) (w : World) (session : loc) : bool :=
  match heap w !! session with
  | Some s => maxAge <? now - sess_lastActivity s
  | None => false
  end.

(** One iteration of the loop of [cleanupSessions]. *)
Definition sweep (now maxAge : Z) (w : World) (store : gmap string loc)
    (entry : string * loc) : gmap string loc :=
  if expired now maxAge w entry.2 then delete entry.1 store else store.

(** [cleanupSessions]; an absent [maxAge] is [24 * 60 * 60 * 1000]. *)
Definition cleanupSessions (maxAge : option Z) (this : Agent) (w : World) : Agent :=
  let maxAge := default (24 * 60 * 60 * 1000) maxAge in
  let now := clock w in
  set_sessions
    (foldl (sweep now maxAge w) (sessions this) (map_to_list (sessions this)))
    this.

(** [getAvailableTools] *)
Definition getAvailableTools (this : Agent) : list string :=
  getAllTools (toolRegistry (config this)).

(** [isReady], [waitForInitialization], [isInitialized] *)
Definition isReady (this : Agent) : bool := isInitializedFlag this.
Definition waitForInitialization (this : Agent) : bool := isInitializedFlag this.
Definition isInitialized (this : Agent) : bool := isInitializedFlag this.

(** [getWorkingDirectory] *)
Definition getWorkingDirectory (this : Agent) : string :=
  workingDirectory (config this).

(** [setWorkingDirectory] *)
Definition setWorkingDirectory (path : string) (this : Agent) : Agent :=
  set_config
    {| workingDirectory := path; toolRegistry := toolRegistry (config this);
       llmConfig := llmConfig (config this);
       systemPrompts := systemPrompts (config this);
       security := security (config this) |} this.

(** [setInitialized] *)
Definition setInitialized (value : bool) (this : Agent) : Agent :=
  {| config := config this; sessions := sessions this;
     isInitializedFlag := value;
     llmService := llmService this;
     conversationHistory := conversationHistory this |}.

Section Analysis.
Context `{fs : NodeFs} `{channel : OutputChannel}.

(** The analysis [analyzeCodbase] starts from. *)
Definition unknownProject : ProjectAnalysis :=
  {| projectType := "unknown"; techStack := [];
     structure := {| directories := []; files := []; entryPoints := [] |};
     dependencies := ∅; scripts := JObject [];
     supportsTypeScript := false; hasTests := false; buildSystem := "unknown" |}.

(** [if (analysis.dependencies[key]) analysis.techStack.push(name)] *)
Definition detect (key name : string) (deps : gmap string Json) (stack : list string)
    : list string :=
  if truthy_opt (deps !! key) then stack ++ [name] else stack.

(** The statements under [if (fs.existsSync(packageJsonPath))], applied to
    the parsed package file. Reading [dependencies] is the only step that
    can throw, and it comes before the first assignment. *)
Definition readPackage (packageJson : Json) (analysis : ProjectAnalysis)
    : option Thrown * ProjectAnalysis :=
  match property packageJson "dependencies" with
  | Raised error => (Some error, analysis)
  | Returned deps =>
      match property packageJson "devDependencies" with
      | Raised error => (Some error, analysis)
      | Returned devDeps =>
          match property packageJson "scripts" with
          | Raised error =>
              (Some error,
               {| projectType := projectType analysis; techStack := techStack analysis;
                  structure := structure analysis;
                  dependencies := assign (assign ∅ (spread deps)) (spread devDeps);
                  scripts := scripts analysis;
                  supportsTypeScript := supportsTypeScript analysis;
                  hasTests := hasTests analysis;
                  buildSystem := buildSystem analysis |})
          | Returned declared =>
              let merged := assign (assign ∅ (spread deps)) (spread devDeps) in
              let stack :=
                detect "typescript" "TypeScript" merged
                  (detect "angular" "Angular" merged
                     (detect "vue" "Vue" merged
                        (detect "react" "React" merged (techStack analysis)))) in
              (None,
               {| projectType := "node"; techStack := stack;
                  structure := structure analysis;
                  dependencies := merged;
                  scripts := or_default declared (JObject []);
                  supportsTypeScript :=
                    if truthy_opt (merged !! "typescript") then true
                    else supportsTypeScript analysis;
                  hasTests := hasTests analysis;
                  buildSystem := buildSystem analysis |})
          end
      end
  end.

(** The [try] block of [analyzeCodbase]: the package file if there is one,
    then the test directories. *)
Definition analysisBody (projectPath : string) (analysis : ProjectAnalysis)
    : option Thrown * ProjectAnalysis :=
  let packageJsonPath := path_join projectPath "package.json" in
  let '(thrown, analysis1) :=
    if existsSync packageJsonPath then
      match readFileSync packageJsonPath with
      | Raised error => (Some error, analysis)
      | Returned text =>
          match JSON_parse text with
          | Raised error => (Some error, analysis)
          | Returned packageJson => readPackage packageJson analysis
          end
      end
    else (None, analysis) in
  match thrown with
  | Some error => (Some error, analysis1)
  | None =>
      (None,
       {| projectType := projectType analysis1; techStack := techStack analysis1;
          structure := structure analysis1;
          dependencies := dependencies analysis1;
          scripts := scripts analysis1;
          supportsTypeScript := supportsTypeScript analysis1;
          hasTests :=
            existsSync (path_join projectPath "test") ||
            existsSync (path_join projectPath "tests") ||
            existsSync (path_join projectPath "__tests__");
          buildSystem := buildSystem analysis1 |})
  end.

(** [analyzeCodbase]: when the [try] block throws, the [catch] clause writes
    a line and the analysis is returned as it is at that point. *)
Definition analyzeCodbase (projectPath : string) : Outcome ProjectAnalysis :=
  match analysisBody projectPath unknownProject with
  | (Some error, analysis) =>
      logged ("[Agent] Error analyzing project: " +:+ to_string error)
        Raised (Returned analysis)
  | (None, analysis) => Returned analysis
  end.

End Analysis.

End Abstract.
End BaseAgent.

(** *** [SuperDesignCodingAgent] *)

Module SuperDesignCodingAgent.
Section WithCollaborators.
Context `{sdk : ProviderSdk} `{adapter : MessageAdapter} `{channel : OutputChannel}.

(** The text [getSystemPrompt] falls back to when no design prompt is
    configured (the template, trimmed). *)
Definition defaultSystemPrompt (tools : list string) : string :=
  "# SuperDesign Coding Agent

You are a senior front-end designer and developer working with SuperDesign.
You pay close attention to every pixel, spacing, font, color.

## Available Tools:
" +:+ String.concat "
" (map (fun tool => "- " +:+ tool) tools) +:+ "

## Core Principles:
1. Always understand before acting - analyze existing code patterns
2. Follow project conventions and coding standards  
3. Use tools systematically: analyze → plan → implement → verify
4. Provide clear explanations of your actions
5. Focus on elegant, modern UI design with perfect balance between minimalism and functionality

## SuperDesign Workflow:
1. Create design files in .superdesign/design_iterations/ directory
2. Use naming convention: {design_name}_{variation}.html
3. Generate 3 variations when creating designs
4. Use soft, refreshing gradient colors
5. Implement responsive, accessible designs

## Tool Usage:
- Use 'read' to examine existing files and patterns
- Use 'write' to create new design files
- Use 'edit' to modify existing designs
- Use 'multiedit' for creating multiple design variations
- Use 'ls', 'grep', 'glob' to explore project structure
- Use 'bash' for running commands and tests

Always start by understanding the project context, then plan your approach, implement changes, and verify results.".

(** [getSystemPrompt] *)
Definition getSystemPrompt (cfg : AgentConfig) : string :=
  or_default (Some (sp_design (systemPrompts cfg)))
    (defaultSystemPrompt (getAllTools (toolRegistry cfg))).

(** [constructor(config)]: it fails when the [LLMService] rejects the
    configuration; the service gets the agent's output channel. *)
Definition new (cfg : AgentConfig) : Outcome Agent :=
  let llmConfig : LLMServiceConfig :=
    {| cfg_provider :=
         Some {| prov_name := ls_provider (llmConfig cfg);
                 prov_model := ls_model (llmConfig cfg);
                 prov_apiKey := ls_apiKey (llmConfig cfg) |};
       cfg_maxTokens := Some (or_default (ls_maxTokens (llmConfig cfg)) 4000);
       cfg_temperature := Some (or_default (ls_temperature (llmConfig cfg)) (7 # 10));
       cfg_tools := Some (ToolArray []);
       cfg_systemPrompt := Some (getSystemPrompt cfg) |} in
  match LLMService.new llmConfig with
  | Raised error => Raised error
  | Returned service =>
      logged "[SuperDesignAgent] Initialized with tool integration" Raised
        (Returned {| config := cfg; sessions := ∅; isInitializedFlag := true;
                     llmService := service; conversationHistory := ∅ |})
  end.

(** [createToolSchemas] *)
Definition createToolSchemas (this : Agent) (sessionId : string) : ToolSet :=
  getVercelAITools (toolRegistry (config this))
    {| ec_workingDirectory := workingDirectory (config this);
       ec_sessionId := sessionId |}.

(** What [generateWithTools] resolves to. *)
Record ToolResponse := {
  tr_content : string;
  tr_toolCalls : list ToolCall;
  tr_toolResults : list ToolResult;
  tr_steps : list Step
}.

(** [generateWithTools]: when the service throws, the [catch] clause writes
    a line and rethrows the error. *)
Definition generateWithTools (this : Agent) (history : list ConversationMessage)
    (maxTokens : option Z) (temperature : option Q) (maxSteps : option Z)
    (sessionId : string) (w : World) : Outcome ToolResponse * World :=
  match LLMService.generateResponse (llmService this) history
          (Some {| go_maxTokens := maxTokens;
                   go_temperature := temperature;
                   go_tools := Some (createToolSchemas this sessionId);
                   go_maxSteps := Some (or_default maxSteps 25) |}) w with
  | (Returned response, w1) =>
      (Returned {| tr_content := resp_content response;
                   tr_toolCalls := default [] (resp_toolCalls response);
                   tr_toolResults := default [] (resp_toolResults response);
                   tr_steps := default [] (resp_steps response) |}, w1)
  | (Raised error, w1) =>
      logged ("[SuperDesignAgent] Error generating response: " +:+ to_string error)
        (fun thrown => (Raised thrown, w1)) (Raised error, w1)
  end.

(** The two arrays [executeTaskWithStreaming] fills while it runs; they are
    declared before the [try] and are still in scope in the [catch]. *)
Record Locals := {
  messages : list SDKMessage;
  toolsUsed : list string
}.

(** [if (options?.onMessage) options.onMessage(message)] *)
Definition notify (onMessage : option Callback) (message : SDKMessage) (w : World)
    : option Thrown * World :=
  match onMessage with
  | Some callback => (callback (delivered w) message, deliver message w)
  | None => (None, w)
  end.

(** [toolCall.toolName || toolCall.function?.name || toolCall.name || 'unknown'] *)
Definition resolveToolName (toolCall : ToolCall) : string :=
  or_default
    (js_or (tc_toolName toolCall)
       (js_or (tc_function toolCall ≫= fn_name) (tc_name toolCall)))
    "unknown".

(** The message built for one tool call. *)
Definition toolCallMessage (sessionId : string) (toolCall : ToolCall) : SDKMessage :=
  createToolCallMessage
    {| tci_toolCallId := js_or (tc_toolCallId toolCall) (tc_id toolCall);
       tci_toolName := resolveToolName toolCall;
       tci_args := js_or (tc_args toolCall) (tc_function toolCall ≫= fn_arguments) |}
    sessionId.

(** A [for ... of] loop over an array, with a body that may throw. The result
    is the exception that ended the loop early, if any, with the two arrays
    as they were at that point. *)
Fixpoint forEach {A : Type}
    (body : A -> Locals -> World -> option Thrown * Locals * World)
    (items : list A) (l : Locals) (w : World) : option Thrown * Locals * World :=
  match items with
  | [] => (None, l, w)
  | item :: rest =>
      match body item l w with
      | (Some error, l1, w1) => (Some error, l1, w1)
      | (None, l1, w1) => forEach body rest l1 w1
      end
  end.

(** The diagnostic line written for a tool call. *)
Definition toolCallLine (toolCall : ToolCall) : string :=
  "[DEBUG] Tool call structure: " +:+ tc_json toolCall.

(** The body of the loop over [step.toolCalls]: a line is written, the tool
    name and the message are pushed, then the callback is called. *)
Definition onToolCall (onMessage : option Callback) (sessionId : string)
    (toolCall : ToolCall) (l : Locals) (w : World) : option Thrown * Locals * World :=
  logged (toolCallLine toolCall) (fun error => (Some error, l, w))
    (let message := toolCallMessage sessionId toolCall in
     let l1 := {| messages := messages l ++ [message];
                  toolsUsed := toolsUsed l ++ [resolveToolName toolCall] |} in
     let '(thrown, w1) := notify onMessage message w in
     (thrown, l1, w1)).

(** The body of the loop over [step.toolResults]. *)
Definition onToolResult (onMessage : option Callback) (sessionId : string)
    (toolResult : ToolResult) (l : Locals) (w : World)
    : option Thrown * Locals * World :=
  let message := createToolResultMessage toolResult sessionId in
  let l1 := {| messages := messages l ++ [message]; toolsUsed := toolsUsed l |} in
  let '(thrown, w1) := notify onMessage message w in
  (thrown, l1, w1).

(** The body of the loop over [llmResponse.steps]: the step's tool calls,
    then its tool results. *)
Definition onStep (onMessage : option Callback) (sessionId : string)
    (step : Step) (l : Locals) (w : World) : option Thrown * Locals * World :=
  match forEach (onToolCall onMessage sessionId)
          (default [] (step_toolCalls step)) l w with
  | (Some error, l1, w1) => (Some error, l1, w1)
  | (None, l1, w1) =>
      forEach (onToolResult onMessage sessionId)
        (default [] (step_toolResults step)) l1 w1
  end.

(** The loop over [llmResponse.steps]. *)
Definition processSteps (onMessage : option Callback) (sessionId : string)
    (steps : list Step) (l : Locals) (w : World) : option Thrown * Locals * World :=
  forEach (onStep onMessage sessionId) steps l w.

(** [m.type === 'assistant' && !m.subtype] *)
Definition plainAssistant (m : SDKMessage) : bool :=
  match sdk_type m with
  | TypeAssistant => negb (truthy_opt (sdk_subtype m))
  | _ => false
  end.

(** The final text of a successful task. *)
Definition finalMessageOf (content : string) (messages : list SDKMessage) : string :=
  if truthy content then content
  else or_default (find plainAssistant (reverse messages) ≫= sdk_content)
         "Task completed".

(** The session id a task runs under. *)
Definition sessionIdOf (options : option AgentOptions) (w : World) : string :=
  or_default (options ≫= ao_sessionId) (freshSessionId w).

(** The line written when the steps have been processed. *)
Definition completedLine (duration : Z) (toolsUsed : list string) : string :=
  "[SuperDesignAgent] Task completed in " +:+ pretty duration +:+ "ms using " +:+
  pretty (length toolsUsed) +:+ " tools".

(** The line the [catch] clause writes. *)
Definition failedLine (errorMessage : string) : string :=
  "[SuperDesignAgent] Task failed: " +:+ errorMessage.

(** The body of the [try] block of [executeTaskWithStreaming]. It ends either
    with the response of the service or with the exception that was thrown;
    in both cases the arrays, the agent and the world are as the statements
    executed so far have left them. *)
Definition taskBody (request : string) (options : option AgentOptions)
    (this : Agent) (w : World) : Outcome ToolResponse * Locals * Agent * World :=
  let startTime := clock w in
  let sessionId := sessionIdOf options w in
  let userMessage :=
    {| cm_role := RoleUser; cm_content := request; cm_timestamp := Some (clock w) |} in
  let history := default [] (conversationHistory this !! sessionId) ++ [userMessage] in
  let this1 := set_history (<[sessionId := history]> (conversationHistory this)) this in
  let l1 := {| messages := [createUserMessage request sessionId]; toolsUsed := [] |} in
  match generateWithTools this1 history (options ≫= ao_maxTokens)
          (options ≫= ao_temperature) (Some (or_default (options ≫= ao_maxSteps) 25))
          sessionId w with
  | (Raised error, w1) => (Raised error, l1, this1, w1)
  | (Returned llmResponse, w1) =>
      let content := tr_content llmResponse in
      let '(l2, this2) :=
        if truthy content then
          ({| messages :=
                messages l1 ++
                [createAssistantMessage content sessionId (clock w1 - startTime)];
              toolsUsed := toolsUsed l1 |},
           set_history
             (<[sessionId :=
                  history ++ [{| cm_role := RoleAssistant; cm_content := content;
                                 cm_timestamp := Some (clock w1) |}]]>
                (conversationHistory this1)) this1)
        else (l1, this1) in
      match processSteps (options ≫= ao_onMessage) sessionId
              (tr_steps llmResponse) l2 w1 with
      | (Some error, l3, w2) => (Raised error, l3, this2, w2)
      | (None, l3, w2) =>
          logged (completedLine (clock w2 - startTime) (toolsUsed l3))
            (fun error => (Raised error, l3, this2, w2))
            (Returned llmResponse, l3, this2, w2)
      end
  end.

(** [executeTaskWithStreaming]: the [try] block followed by the [return] of
    the successful case or by the [catch] clause, which writes a line before
    it builds the result. *)
Definition executeTaskWithStreaming : ExecuteTask Agent :=
  fun request options this w =>
  let startTime := clock w in
  let sessionId := sessionIdOf options w in
  match taskBody request options this w with
  | (Returned llmResponse, l, this', w') =>
      (Returned {| task_success := true;
                   task_messages := messages l;
                   task_finalMessage :=
                     Some (finalMessageOf (tr_content llmResponse) (messages l));
                   task_toolsUsed := set_of_list (toolsUsed l);
                   task_duration := clock w' - startTime;
                   task_totalCost := calculateTotalCost (messages l);
                   task_error := None |}, this', w')
  | (Raised error, l, this', w') =>
      let errorMessage := message_of error in
      logged (failedLine errorMessage) (fun thrown => (Raised thrown, this', w'))
        (Returned {| task_success := false;
                     task_messages :=
                       messages l ++
                       [createErrorMessage (ThrownValue errorMessage) sessionId];
                     task_finalMessage := Some errorMessage;
                     task_toolsUsed := set_of_list (toolsUsed l);
                     task_duration := clock w' - startTime;
                     task_totalCost := None;
                     task_error := Some errorMessage |}, this', w')
  end.

(** [executeTask] *)
Definition executeTask (request projectPath : string) (options : option AgentOptions)
    (this : Agent) (w : World) : Outcome TaskResult * Agent * World :=
  let this1 :=
    if String.eqb projectPath (workingDirectory (config this)) then this
    else BaseAgent.setWorkingDirectory projectPath this in
  executeTaskWithStreaming request options this1 w.

(** [error instanceof Error ? error : new Error(String(error))] *)
Definition asError (error : Thrown) : Thrown :=
  match error with
  | ThrownError _ _ => error
  | ThrownValue text => new_Error text
  end.

(** The lines [query] writes: in its [try] block, with the first 100
    characters of the prompt, and in its [catch] clause. *)
Definition queryLine (prompt : string) : string :=
  "[SuperDesignAgent] Processing query: " +:+ String.substring 0 100 prompt +:+ "...".

Definition queryErrorLine (error : Thrown) : string :=
  "[SuperDesignAgent] Error in query: " +:+ to_string error.

(** The [catch] clause of [query]: a line is written, then the error is
    turned into the one message that is returned. *)
Definition queryCatch (sessionId : string) (error : Thrown) (this : Agent) (w : World)
    : Outcome (list SDKMessage) * Agent * World :=
  logged (queryErrorLine error) (fun thrown => (Raised thrown, this, w))
    (Returned [createErrorMessage (asError error) sessionId], this, w).

(** [query], with the method it reaches through
    [this.executeTaskWithStreaming] as a parameter. *)
Definition queryVia (execute : ExecuteTask Agent) (prompt : string)
    (options : option AgentOptions) (abortController : option AbortController)
    (onMessage : option Callback) (this : Agent) (w : World)
    : Outcome (list SDKMessage) * Agent * World :=
  let sessionId := sessionIdOf options w in
  logged (queryLine prompt) (fun error => queryCatch sessionId error this w)
    match execute prompt
            (Some (withQueryArguments options sessionId abortController onMessage))
            this w with
    | (Returned result, this', w') => (Returned (task_messages result), this', w')
    | (Raised error, this', w') => queryCatch sessionId error this' w'
    end.

(** [query] of a [SuperDesignCodingAgent]. *)
Definition query := queryVia executeTaskWithStreaming.

(** [continueConversation], inherited from [BaseAgent]. *)
Definition continueConversation :=
  BaseAgent.continueConversation executeTaskWithStreaming.

End WithCollaborators.
End SuperDesignCodingAgent.

(** *** [ClaudeCodeAgentWrapper] *)

(** The external Claude Code service the wrapper delegates to: its [query]
    resolves to a message list or rejects, and may act on the world. *)
Class ClaudeCodeService := {
  service_query :
    string -> option AgentOptions -> option AbortController -> option Callback ->
    World -> Outcome (list SDKMessage) * World
}.

Module ClaudeCodeAgentWrapper.

(** The fields of the wrapper besides the service and the output channel,
    which are the collaborators [ClaudeCodeService] and [OutputChannel]. *)
Record t := {
  workingDirectory : string;
  isInitializedFlag : bool
}.

Section WithService.
Context `{service : ClaudeCodeService} `{channel : OutputChannel}.

(** [constructor(claudeCodeService, outputChannel, workingDirectory = '')] *)
Definition new (workingDirectory : option string) : Outcome t :=
  logged "[ClaudeCodeWrapper] Initialized wrapper for Claude Code service" Raised
    (Returned {| workingDirectory := default "" workingDirectory;
                 isInitializedFlag := true |}).

(** The lines [query] writes. *)
Definition queryLine (prompt : string) : string :=
  "[ClaudeCodeWrapper] Delegating query to Claude Code: " +:+
  String.substring 0 100 prompt +:+ "...".

Definition queryErrorLine (error : Thrown) : string :=
  "[ClaudeCodeWrapper] Error in Claude Code query: " +:+ to_string error.

(** The [catch] clause of [query]: a line is written and the error is
    rethrown. *)
Definition queryCatch (error : Thrown) (this : t) (w : World)
    : Outcome (list SDKMessage) * t * World :=
  logged (queryErrorLine error) (fun thrown => (Raised thrown, this, w))
    (Raised error, this, w).

(** [query]: the service's answer. *)
Definition query (prompt : string) (options : option AgentOptions)
    (abortController : option AbortController) (onMessage : option Callback)
    (this : t) (w : World) : Outcome (list SDKMessage) * t * World :=
  logged (queryLine prompt) (fun error => queryCatch error this w)
    match service_query prompt options abortController onMessage w with
    | (Returned messages, w1) => (Returned messages, this, w1)
    | (Raised error, w1) => queryCatch error this w1
    end.

(** [executeTaskWithStreaming] *)
Definition executeTaskWithStreaming : ExecuteTask t :=
  fun request options this w =>
  match query request options (options ≫= ao_abortController)
          (options ≫= ao_onMessage) this w with
  | (Raised error, this1, w1) => (Raised error, this1, w1)
  | (Returned messages, this1, w1) =>
      (Returned {| task_success := true;
                   task_messages := messages;
                   task_finalMessage := last messages ≫= sdk_content;
                   task_toolsUsed := [];
                   task_duration := 0;
                   task_totalCost := None;
                   task_error := None |}, this1, w1)
  end.

(** [setWorkingDirectory] *)
Definition setWorkingDirectory (path : string) (this : t) : t :=
  {| workingDirectory := path; isInitializedFlag := isInitializedFlag this |}.

(** [getWorkingDirectory] *)
Definition getWorkingDirectory (this : t) : string := workingDirectory this.

(** [executeTask] *)
Definition executeTask (request projectPath : string) (options : option AgentOptions)
    (this : t) (w : World) : Outcome TaskResult * t * World :=
  let this1 :=
    if String.eqb projectPath (workingDirectory this) then this
    else setWorkingDirectory projectPath this in
  executeTaskWithStreaming request options this1 w.

(** [continueConversation] *)
Definition continueConversation (message conversationId : string)
    (options : option AgentOptions) (this : t) (w : World)
    : Outcome AgentResponse * t * World :=
  match executeTaskWithStreaming message
          (Some (withSessionId options conversationId)) this w with
  | (Raised error, this1, w1) => (Raised error, this1, w1)
  | (Returned result, this1, w1) =>
      (Returned {| ar_messages := task_messages result;
                   ar_isComplete := task_success result;
                   ar_suggestedActions :=
                     Some (if task_success result then [] else ["retry"; "clarify"]);
                   ar_context := ∅ |}, this1, w1)
  end.

(** [getSession]: a new session object at every call; nothing is stored. *)
Definition getSession (sessionId projectPath : string) (this : t) (w : World)
    : loc * t * World :=
  let '(session, w1) :=
    alloc {| sess_id := sessionId; sess_startTime := clock w;
             sess_lastActivity := clock w; sess_projectPath := projectPath;
             sess_turns := []; sess_context := ∅ |} w in
  (session, this, w1).

(** [cleanupSessions]: a no-op. *)
Definition cleanupSessions (maxAge : option Z) (this : t) (w : World) : t := this.

(** [getAvailableTools] *)
Definition getAvailableTools (this : t) : list string := ["Claude Code Built-in Tools"].

(** [isReady] *)
Definition isReady (this : t) : bool := isInitializedFlag this.

End WithService.

(** [analyzeCodbase]: the wrapper inspects nothing. *)
Definition analyzeCodbase (projectPath : string) : ProjectAnalysis :=
  {| projectType := "unknown"; techStack := [];
     structure := {| directories := []; files := []; entryPoints := [] |};
     dependencies := ∅; scripts := JObject [];
     supportsTypeScript := false; hasTests := false; buildSystem := "unknown" |}.

End ClaudeCodeAgentWrapper.

(** *** The shared contract *)

(** The part of the interface [SuperDesignAgent] ([CodingAgent] and its
    extension) that the two classes implement over their own state. *)
Class SuperDesignAgent (S : Type) := {
  agent_executeTaskWithStreaming : ExecuteTask S;
  agent_query :
    string -> option AgentOptions -> option AbortController -> option Callback ->
    S -> World -> Outcome (list SDKMessage) * S * World;
  agent_continueConversation :
    string -> string -> option AgentOptions -> S -> World ->
    Outcome AgentResponse * S * World;
  agent_getSession : string -> string -> S -> World -> loc * S * World;
  agent_cleanupSessions : option Z -> S -> World -> S;
  agent_getAvailableTools : S -> list string;
  agent_isReady : S -> bool
}.

#[export] Instance customAgent `{sdk : ProviderSdk} `{adapter : MessageAdapter}
    `{channel : OutputChannel} : SuperDesignAgent Agent := {|
  agent_executeTaskWithStreaming := SuperDesignCodingAgent.executeTaskWithStreaming;
  agent_query := SuperDesignCodingAgent.query;
  agent_continueConversation := SuperDesignCodingAgent.continueConversation;
  agent_getSession := BaseAgent.getSession;
  agent_cleanupSessions := BaseAgent.cleanupSessions;
  agent_getAvailableTools := BaseAgent.getAvailableTools;
  agent_isReady := BaseAgent.isReady
|}.

#[export] Instance claudeCodeAgent `{service : ClaudeCodeService}
    `{channel : OutputChannel} : SuperDesignAgent ClaudeCodeAgentWrapper.t := {|
  agent_executeTaskWithStreaming := ClaudeCodeAgentWrapper.executeTaskWithStreaming;
  agent_query := ClaudeCodeAgentWrapper.query;
  agent_continueConversation := ClaudeCodeAgentWrapper.continueConversation;
  agent_getSession := ClaudeCodeAgentWrapper.getSession;
  agent_cleanupSessions := ClaudeCodeAgentWrapper.cleanupSessions;
  agent_getAvailableTools := ClaudeCodeAgentWrapper.getAvailableTools;
  agent_isReady := ClaudeCodeAgentWrapper.isReady
|}.

(** Session retrieval is idempotent for an implementation when a second
    [getSession] with the same arguments returns the object the first one
    returned and leaves that object as it was. *)
Definition getSession_idempotent (S : Type) (A : SuperDesignAgent S) : Prop :=
  forall (sessionId projectPath : string) (this : S) (w : World),
    let '(first, this1, w1) := agent_getSession sessionId projectPath this w in
    let '(second, this2, w2) := agent_getSession sessionId projectPath this1 w1 in
    second = first /\ heap w2 !! second = heap w1 !! first.

(** ** Vocabulary of the specification *)

(** A channel that accepts every line. *)
Definition accepting (channel : OutputChannel) : Prop :=
  forall line, appendLine line = None.

(** A provider descriptor with a non-empty credential and a non-empty model
    id. *)
Definition validDescriptor (p : LLMProvider) : Prop :=
  (exists key, prov_apiKey p = Some key /\ key <> "") /\
  (exists model, prov_model p = Some model /\ model <> "").

(** A configuration error naming a provider: an [Error] whose message
    contains the provider's name. *)
Definition configurationError (provider : string) (e : Thrown) : Prop :=
  exists before after, e = new_Error (before +:+ provider +:+ after).

(** The number of tool calls and of tool results a step carries. *)
Definition toolCallCount (step : Step) : nat :=
  length (default [] (step_toolCalls step)).

Definition toolResultCount (step : Step) : nat :=
  length (default [] (step_toolResults step)).

(** The environment slot [getModel] uses for a provider. *)
Definition credentialSlot (provider : string) : option string :=
  if String.eqb provider "openai" then Some "OPENAI_API_KEY"
  else if String.eqb provider "anthropic" then Some "ANTHROPIC_API_KEY"
  else if String.eqb provider "google" then Some "GOOGLE_GENERATIVE_AI_API_KEY"
  else None.

(** The session stored under an id, if any. *)
Definition sessionOf (this : Agent) (w : World) (sessionId : string)
    : option AgentSession :=
  sessions this !! sessionId ≫= fun session => heap w !! session.

(** Every stored reference points to an object of the heap. *)
Definition sessionsAllocated (this : Agent) (w : World) : Prop :=
  forall sessionId session,
    sessions this !! sessionId = Some session -> is_Some (heap w !! session).

(** The entries of a tool set. *)
Definition toolEntries (tools : ToolSet) : list string :=
  match tools with
  | ToolArray items => items
  | ToolObject keys => keys
  end.

(** The providers [getModel] knows. *)
Definition supportedProvider (name : string) : Prop :=
  name = "openai" \/ name = "anthropic" \/ name = "google" \/ name = "openrouter".

(** The messages a callback hears of those pushed by the tool loops: all of
    them when a callback is supplied. *)
Definition heard (onMessage : option Callback) (pushed : list SDKMessage)
    : list SDKMessage :=
  match onMessage with
  | Some _ => pushed
  | None => []
  end.

(** The user message a task adds to the history. *)
Definition userTurn (request : string) (w : World) : ConversationMessage :=
  {| cm_role := RoleUser; cm_content := request; cm_timestamp := Some (clock w) |}.

(** The provider descriptor an agent configuration gives. *)
Definition descriptorOf (cfg : AgentConfig) : LLMProvider :=
  {| prov_name := ls_provider (llmConfig cfg);
     prov_model := ls_model (llmConfig cfg);
     prov_apiKey := ls_apiKey (llmConfig cfg) |}.

(** A store entry that the sweep removes from under the id [id]. *)
Definition evicts (now maxAge : Z) (w : World) (id : string) (entry : string * loc)
    : bool :=
  bool_decide (entry.1 = id) && BaseAgent.expired now maxAge w entry.2.

(** The history a task hands to the service: the session's history so far,
    and the request. *)
Definition historyOf (request : string) (options : option AgentOptions)
    (this : Agent) (w : World) : list ConversationMessage :=
  default [] (conversationHistory this !! SuperDesignCodingAgent.sessionIdOf options w) ++
  [userTurn request w].

(** The options a task hands to the service. *)
Definition serviceOptions (options : option AgentOptions) (this : Agent) (w : World)
    : GenerateOptions :=
  {| go_maxTokens := options ≫= ao_maxTokens;
     go_temperature := options ≫= ao_temperature;
     go_tools :=
       Some (SuperDesignCodingAgent.createToolSchemas this
               (SuperDesignCodingAgent.sessionIdOf options w));
     go_maxSteps := Some (or_default (options ≫= ao_maxSteps) 25) |}.

(** The messages a task sends to the provider: the configured system
    prompt, the session's history so far, and the request. *)
Definition promptOf (request : string) (options : option AgentOptions)
    (this : Agent) (w : World) : list CoreMessage :=
  LLMService.withSystemPrompt (llmService this)
    (LLMService.formatMessages
       (default [] (conversationHistory this !!
                      SuperDesignCodingAgent.sessionIdOf options w) ++
        [{| cm_role := RoleUser; cm_content := request;
            cm_timestamp := Some (clock w) |}])).

(** The tool calls and the tool results of a list of steps. *)
Inductive Event :=
| ToolCalled (toolCall : ToolCall)
| ToolReturned (toolResult : ToolResult).

(** The events of a step, in the order in which the loops of
    [executeTaskWithStreaming] visit them: its tool calls, then its tool
    results. *)
Definition stepEvents (step : Step) : list Event :=
  map ToolCalled (default [] (step_toolCalls step)) ++
  map ToolReturned (default [] (step_toolResults step)).

Definition eventsOf (steps : list Step) : list Event :=
  concat (map stepEvents steps).

(** The tool name an event contributes to [toolsUsed]. *)
Definition eventNames (event : Event) : list string :=
  match event with
  | ToolCalled toolCall => [SuperDesignCodingAgent.resolveToolName toolCall]
  | ToolReturned _ => []
  end.

(** The line written before an event is handled. *)
Definition eventLine (event : Event) : option string :=
  match event with
  | ToolCalled toolCall => Some (SuperDesignCodingAgent.toolCallLine toolCall)
  | ToolReturned _ => None
  end.

Section MessageOrder.
Context `{adapter : MessageAdapter}.

(** The messages of one step: its tool calls, then its tool results. *)
Definition stepMessages (sessionId : string) (step : Step) : list SDKMessage :=
  map (SuperDesignCodingAgent.toolCallMessage sessionId) (default [] (step_toolCalls step)) ++
  map (fun toolResult => createToolResultMessage toolResult sessionId)
      (default [] (step_toolResults step)).

(** The order the specification gives for the messages of a task: the user
    message, the assistant text if there is one, then the steps in turn. *)
Definition orderedMessages (request sessionId content : string) (duration : Z)
    (steps : list Step) : list SDKMessage :=
  createUserMessage request sessionId ::
  (if truthy content then [createAssistantMessage content sessionId duration] else []) ++
  concat (map (stepMessages sessionId) steps).

(** The tool names of the calls of a list of steps, in order. *)
Definition stepToolNames (steps : list Step) : list string :=
  concat (map (fun step =>
                 map SuperDesignCodingAgent.resolveToolName
                     (default [] (step_toolCalls step))) steps).

(** The message of an event. *)
Definition eventMessage (sessionId : string) (event : Event) : SDKMessage :=
  match event with
  | ToolCalled toolCall => SuperDesignCodingAgent.toolCallMessage sessionId toolCall
  | ToolReturned toolResult => createToolResultMessage toolResult sessionId
  end.

(** The assistant message of a task, present when the text is not empty. *)
Definition assistantPart (sessionId content : string) (duration : Z) : list SDKMessage :=
  if truthy content then [createAssistantMessage content sessionId duration] else [].

Context `{channel : OutputChannel}.

(** How far the loops over the steps get, told from what the channel and
    the callback do. An event is handled when its line (for a tool call) has
    been accepted and its message has been pushed; the callback, if there is
    one, is then called with that message. The result is the list of the
    events handled and the exception that stopped the loops, if any: the
    one of the channel, thrown before the event is handled, or the one of
    the callback, thrown on the message of the last event handled. [heard]
    are the messages delivered to callbacks before. *)
Fixpoint progress (onMessage : option Callback) (sessionId : string)
    (heard : list SDKMessage) (events : list Event) : list Event * option Thrown :=
  match events with
  | [] => ([], None)
  | event :: rest =>
      match eventLine event ≫= appendLine with
      | Some error => ([], Some error)
      | None =>
          match onMessage with
          | Some callback =>
              match callback heard (eventMessage sessionId event) with
              | Some error => ([event], Some error)
              | None =>
                  let '(handled, thrown) :=
                    progress onMessage sessionId
                      (heard ++ [eventMessage sessionId event]) rest in
                  (event :: handled, thrown)
              end
          | None =>
              let '(handled, thrown) := progress onMessage sessionId heard rest in
              (event :: handled, thrown)
          end
      end
  end.

End MessageOrder.

(** The call of the service a task makes. *)
Definition serviceCall `{sdk : ProviderSdk} `{channel : OutputChannel}
    (request : string) (options : option AgentOptions) (this : Agent) (w : World)
    : Outcome LLMResponse * World :=
  LLMService.generateResponse (llmService this) (historyOf request options this w)
    (Some (serviceOptions options this w)) w.

(** A task result that reports a failure with the text [text], after the
    messages [built] and the tool names [used]. *)
Definition reportsFailure `{adapter : MessageAdapter} (sessionId text : string)
    (built : list SDKMessage) (used : list string) (result : TaskResult) : Prop :=
  task_success result = false /\
  task_error result = Some text /\
  task_finalMessage result = Some text /\
  task_messages result = built ++ [createErrorMessage (ThrownValue text) sessionId] /\
  task_toolsUsed result = set_of_list used.

(** ** Concrete collaborators, to run the model on examples *)

Module Fixtures.

(** A channel that accepts every line, and one that has been disposed of. *)
Definition quietChannel : OutputChannel :=
  {| appendLine := fun _ => None |}.

Definition closedChannel : OutputChannel :=
  {| appendLine := fun _ => Some (new_Error "Channel has been closed") |}.

(** A provider factory that records the credential it finds in its slot. *)
Definition clientFor (provider slot : string) (e : Env) (model : option string)
    : Outcome LanguageModel :=
  Returned {| lm_provider := provider; lm_modelId := model;
              lm_credential := e !! slot |}.

(** An SDK whose [generateText] gives one scripted answer. *)
Definition scriptedSdk (answer : Outcome GenerateTextResult) (elapsed : Z)
    : ProviderSdk :=
  {| openai := clientFor "openai" "OPENAI_API_KEY";
     anthropic := clientFor "anthropic" "ANTHROPIC_API_KEY";
     google := clientFor "google" "GOOGLE_GENERATIVE_AI_API_KEY";
     openrouter_chat := fun key model =>
       Returned {| lm_provider := "openrouter"; lm_modelId := model;
                   lm_credential := key |};
     generateText := fun _ => (answer, elapsed);
     streamText := fun _ => Returned [] |}.

Definition tagged (type : MessageType) (subtype : option string)
    (content : option string) (parent : option string) (duration : option Z)
    (sessionId : string) : SDKMessage :=
  {| sdk_type := type; sdk_subtype := subtype; sdk_message := None;
     sdk_content := content; sdk_session_id := Some sessionId;
     sdk_parent_tool_use_id := parent; sdk_duration_ms := duration;
     sdk_total_cost_usd := None |}.

(** The sum of the cost figures of the result-typed messages. *)
Definition sumCosts (messages : list SDKMessage) : option Q :=
  foldl (fun total m =>
           match sdk_type m, sdk_total_cost_usd m with
           | TypeResult, Some cost =>
               Some (match total with Some t => Qplus t cost | None => cost end)
           | _, _ => total
           end) None messages.

(** An adapter that satisfies the interface. *)
Definition plainAdapter : MessageAdapter :=
  {| createUserMessage := fun content sessionId =>
       tagged TypeUser None (Some content) None None sessionId;
     createAssistantMessage := fun content sessionId duration =>
       tagged TypeAssistant None (Some content) None (Some duration) sessionId;
     createErrorMessage := fun error sessionId =>
       tagged TypeResult (Some "error") (Some (message_of error)) None None sessionId;
     createToolCallMessage := fun info sessionId =>
       tagged TypeAssistant (Some "tool_call") (Some (tci_toolName info))
         (tci_toolCallId info) None sessionId;
     createToolResultMessage := fun toolResult sessionId =>
       tagged TypeResult (Some "tool_result") (Some (tr_result toolResult))
         (tr_toolCallId toolResult) None sessionId;
     calculateTotalCost := sumCosts;
     createErrorMessage_result := fun _ _ => conj eq_refl eq_refl |}.

Definition registry : ToolRegistry :=
  {| getAllTools := ["read"; "write"];
     getVercelAITools := fun _ => ToolObject ["read"; "write"] |}.

Definition agentConfig : AgentConfig :=
  {| workingDirectory := "/workspace";
     toolRegistry := registry;
     llmConfig := {| ls_provider := "openai"; ls_model := Some "gpt-4o-mini";
                     ls_apiKey := Some "sk-test"; ls_maxTokens := None;
                     ls_temperature := None |};
     systemPrompts := {| sp_default := "default"; sp_design := "design";
                         sp_coding := "coding" |};
     security := {| allowedPaths := []; restrictToWorkspace := true |} |}.

Definition serviceConfig (provider : string) : LLMServiceConfig :=
  {| cfg_provider := Some {| prov_name := provider; prov_model := Some "model-1";
                             prov_apiKey := Some "sk-test" |};
     cfg_maxTokens := None; cfg_temperature := None; cfg_tools := None;
     cfg_systemPrompt := Some "You are a helpful coding assistant." |}.

(** A configuration whose provider has an empty key. *)
Definition keylessConfig (provider : string) : LLMServiceConfig :=
  {| cfg_provider := Some {| prov_name := provider; prov_model := Some "model-1";
                             prov_apiKey := Some "" |};
     cfg_maxTokens := None; cfg_temperature := None; cfg_tools := None;
     cfg_systemPrompt := None |}.

(** A reconfiguration to a provider descriptor without a model. *)
Definition dropModel : PartialConfig :=
  {| pc_provider := Some (Some {| prov_name := "anthropic"; prov_model := None;
                                  prov_apiKey := Some "sk-test" |});
     pc_maxTokens := None; pc_temperature := None; pc_tools := None;
     pc_systemPrompt := None |}.

(** The agent a successful construction yields for [agentConfig]. *)
Definition agent : Agent :=
  {| config := agentConfig; sessions := ∅; isInitializedFlag := true;
     llmService := {| LLMService.config :=
                        {| cfg_provider :=
                             Some {| prov_name := "openai";
                                     prov_model := Some "gpt-4o-mini";
                                     prov_apiKey := Some "sk-test" |};
                           cfg_maxTokens := Some 4000;
                           cfg_temperature := Some (7 # 10);
                           cfg_tools := Some (ToolArray []);
                           cfg_systemPrompt := Some "design" |} |};
     conversationHistory := ∅ |}.

Definition world (now : Z) : World :=
  {| clock := now; env := ∅; heap := []; delivered := [] |}.

(** A text between double quotes (the character 34). *)
Definition quoted (s : string) : string :=
  String (Ascii.ascii_of_nat 34) (s +:+ String (Ascii.ascii_of_nat 34) EmptyString).

Definition writeCall : ToolCall :=
  {| tc_toolName := Some "write"; tc_function := None; tc_name := None;
     tc_toolCallId := Some "call-1"; tc_id := None; tc_args := Some "{}";
     tc_json := "{
  " +:+ quoted "toolCallId" +:+ ": " +:+ quoted "call-1" +:+ ",
  " +:+ quoted "toolName" +:+ ": " +:+ quoted "write" +:+ ",
  " +:+ quoted "args" +:+ ": {}
}" |}.

Definition writeResult : ToolResult :=
  {| tr_toolCallId := Some "call-1"; tr_toolName := Some "write";
     tr_result := "ok" |}.

(** A resolved generation: a text and one step with one call and its result. *)
Definition oneToolAnswer : GenerateTextResult :=
  {| gt_text := "done"; gt_usage := None; gt_finishReason := Some "stop";
     gt_steps := Some [{| step_toolCalls := Some [writeCall];
                          step_toolResults := Some [writeResult] |}] |}.

(** A callback that throws on every message. *)
Definition failingCallback : Callback :=
  fun _ _ => Some (new_Error "listener failed").

Definition optionsWith (onMessage : option Callback) (sessionId : option string)
    : AgentOptions :=
  {| ao_maxTurns := None; ao_temperature := None; ao_maxTokens := None;
     ao_maxSteps := None; ao_systemPrompt := None; ao_abortController := None;
     ao_onMessage := onMessage; ao_sessionId := sessionId |}.

(** The wrapper the constructor builds when no directory is given. *)
Definition wrapper : ClaudeCodeAgentWrapper.t :=
  {| ClaudeCodeAgentWrapper.workingDirectory := "";
     ClaudeCodeAgentWrapper.isInitializedFlag := true |}.

(** A Claude Code service that answers every query with one error message. *)
Definition failingService : ClaudeCodeService :=
  {| service_query := fun _ _ _ _ w =>
       (Returned [tagged TypeResult (Some "error") (Some "failed") None None "s"], w) |}.

Definition sessionAt (id : string) (lastActivity : Z) : AgentSession :=
  {| sess_id := id; sess_startTime := 0; sess_lastActivity := lastActivity;
     sess_projectPath := "/workspace"; sess_turns := []; sess_context := ∅ |}.

(** At time 5000, one session last active at [5000 - (1000 + 1)] and one at
    [5000 - (1000 - 1)]. *)
Definition agedWorld : World :=
  {| clock := 5000; env := ∅;
     heap := [sessionAt "old" 3999; sessionAt "recent" 4001]; delivered := [] |}.

Definition agedAgent : Agent :=
  set_sessions {[ "old" := 0%nat; "recent" := 1%nat ]} agent.

(** An SDK whose provider factories all throw. *)
Definition brokenSdk : ProviderSdk :=
  {| openai := fun _ _ => Raised (new_Error "cannot build client");
     anthropic := fun _ _ => Raised (new_Error "cannot build client");
     google := fun _ _ => Raised (new_Error "cannot build client");
     openrouter_chat := fun _ _ => Raised (new_Error "cannot build client");
     generateText := fun _ => (Raised (new_Error "unreachable"), 0);
     streamText := fun _ => Raised (new_Error "unreachable") |}.

(** An environment with a key for another provider. *)
Definition hostEnv : Env := {[ "ANTHROPIC_API_KEY" := "host-key" ]}.

Definition userMessage (content : string) : ConversationMessage :=
  {| cm_role := RoleUser; cm_content := content; cm_timestamp := None |}.

(** Options asking for zero tokens, temperature zero, zero steps and an
    empty tool set. *)
Definition zeroOptions : GenerateOptions :=
  {| go_maxTokens := Some 0; go_temperature := Some (0 # 1);
     go_tools := Some (ToolArray []); go_maxSteps := Some 0 |}.

(** A reconfiguration whose [provider] key is present with the value
    [undefined]. *)
Definition dropProvider : PartialConfig :=
  {| pc_provider := Some None; pc_maxTokens := None; pc_temperature := None;
     pc_tools := None; pc_systemPrompt := None |}.

(** A reconfiguration of the temperature only. *)
Definition cooler : PartialConfig :=
  {| pc_provider := None; pc_maxTokens := None;
     pc_temperature := Some (Some (1 # 10)); pc_tools := None;
     pc_systemPrompt := None |}.

(** A file system with a project [/app] (a package file and a [tests]
    directory) and a project [/broken] (a package file that does not parse,
    and a [tests] directory). *)
Definition appPackage : Json :=
  JObject [("dependencies",
            JObject [("react", JString "^18.2.0"); ("typescript", JString "^4.9.0")]);
           ("devDependencies", JObject [("typescript", JString "^5.4.0")])].

Definition projectFs : NodeFs :=
  {| path_join := fun directory name => directory +:+ "/" +:+ name;
     existsSync := fun path =>
       String.eqb path "/app/package.json" || String.eqb path "/app/tests" ||
       String.eqb path "/broken/package.json" || String.eqb path "/broken/tests";
     readFileSync := fun path =>
       if String.eqb path "/app/package.json" then Returned "app"
       else if String.eqb path "/broken/package.json" then Returned "{"
       else Raised (new_Error "ENOENT");
     JSON_parse := fun text =>
       if String.eqb text "app" then Returned appPackage
       else Raised (ThrownError "SyntaxError" "Unexpected end of JSON input") |}.

End Fixtures.

(** * Properties *)

(** ** Truthiness *)

Lemma truthy_string_nonempty (s : string) : truthy s = true <-> s <> "".
Proof.
  unfold truthy, truthy_string.
  destruct (String.eqb_spec s ""); simpl; split; congruence.
Qed.

Lemma truthy_opt_string (o : option string) :
  truthy_opt o = true <-> exists s, o = Some s /\ s <> "".
Proof.
  destruct o as [s|]; simpl.
  - rewrite truthy_string_nonempty. split.
    + intros Hs. exists s. split; [reflexivity | exact Hs].
    + intros (s' & Heq & Hs). injection Heq as ->. exact Hs.
  - split; [discriminate | intros (s & Heq & _); discriminate].
Qed.

(** ** The output channel *)

(** On a channel that accepts every line, a statement that writes a line
    has no effect on the control flow. *)
Lemma logged_accepting `{channel : OutputChannel} {R : Type} (line : string)
    (raise : Thrown -> R) (next : R) :
  accepting channel -> logged line raise next = next.
Proof. intros Haccepts. unfold logged. rewrite Haccepts. reflexivity. Qed.

(** ** [LLMService]: configuration *)

Section LLMServiceFacts.
Context `{channel : OutputChannel}.

Lemma validateConfig_invalid (this : LLMService.t) (provider : LLMProvider) :
  cfg_provider (LLMService.config this) = Some provider ->
  ~ validDescriptor provider ->
  exists e, LLMService.validateConfig this = Raised e /\
            configurationError (prov_name provider) e.
Proof.
  intros Hprovider Hinvalid. unfold LLMService.validateConfig. rewrite Hprovider.
  destruct (truthy_opt (prov_apiKey _)) eqn:Hkey; simpl.
  - destruct (truthy_opt (prov_model _)) eqn:Hmodel; simpl.
    + exfalso. apply Hinvalid. split; apply truthy_opt_string; assumption.
    + eexists. split; [reflexivity |].
      exists "Model is required for ", " provider". reflexivity.
  - eexists. split; [reflexivity |].
    exists "API key is required for ", " provider". reflexivity.
Qed.

(** A service without a provider descriptor fails validation with a
    [TypeError]. *)
Lemma validateConfig_undefined (this : LLMService.t) :
  cfg_provider (LLMService.config this) = None ->
  LLMService.validateConfig this = Raised (reading_undefined "apiKey").
Proof. intros Hnone. unfold LLMService.validateConfig. rewrite Hnone. reflexivity. Qed.

(** The validation of a valid descriptor ends with the line it writes. *)
Lemma validateConfig_line (this : LLMService.t) (provider : LLMProvider) :
  cfg_provider (LLMService.config this) = Some provider ->
  validDescriptor provider ->
  LLMService.validateConfig this =
    match appendLine ("LLMService initialized with " +:+ prov_name provider +:+ "/" +:+
                      show (prov_model provider)) with
    | Some thrown => Raised thrown
    | None => Returned tt
    end.
Proof.
  intros Hprovider [Hkey Hmodel]. unfold LLMService.validateConfig. rewrite Hprovider.
  apply truthy_opt_string in Hkey. apply truthy_opt_string in Hmodel.
  rewrite Hkey, Hmodel. reflexivity.
Qed.

Hypothesis accepts : accepting channel.

Lemma validateConfig_valid (this : LLMService.t) (provider : LLMProvider) :
  cfg_provider (LLMService.config this) = Some provider ->
  validDescriptor provider ->
  LLMService.validateConfig this = Returned tt.
Proof.
  intros Hprovider Hvalid.
  rewrite (validateConfig_line this provider Hprovider Hvalid), accepts. reflexivity.
Qed.


End LLMServiceFacts.

(** A descriptor is valid or not, decidably; so one of the two cases of
    [construction_validates_descriptor] always applies. *)
Lemma validDescriptor_dec (p : LLMProvider) :
  validDescriptor p \/ ~ validDescriptor p.
Proof.
  destruct (truthy_opt (prov_apiKey p)) eqn:Hkey.
  - destruct (truthy_opt (prov_model p)) eqn:Hmodel.
    + left. split; apply truthy_opt_string; assumption.
    + right. intros [_ H]. apply truthy_opt_string in H. congruence.
  - right. intros [H _]. apply truthy_opt_string in H. congruence.
Qed.


(** ** [LLMService]: the credential slot *)

Section CredentialSlot.
Context `{sdk : ProviderSdk}.

(** When the slot was absent, or held a non-empty value, it is back to what
    it was once the client has been built. *)
Lemma with_env_key_restores (slot : string)
    (factory : Env -> option string -> Outcome LanguageModel)
    (provider : LLMProvider) (e : Env) (model : LanguageModel) :
  factory (<[slot := env_coerce (prov_apiKey provider)]> e) (prov_model provider)
    = Returned model ->
  (e !! slot = None \/ exists key, e !! slot = Some key /\ key <> "") ->
  LLMService.with_env_key slot factory provider e = (Returned model, e).
Proof.
  intros Hfactory Hslot. unfold LLMService.with_env_key. rewrite Hfactory.
  f_equal. destruct Hslot as [Hnone | (key & Hsome & Hne)].
  - rewrite Hnone. rewrite delete_insert_eq. apply delete_id. exact Hnone.
  - rewrite Hsome. apply truthy_string_nonempty in Hne. rewrite Hne.
    rewrite insert_insert_eq. apply insert_id. exact Hsome.
Qed.

(** When the slot held the empty string, it is gone afterwards. *)
Lemma with_env_key_drops_empty (slot : string)
    (factory : Env -> option string -> Outcome LanguageModel)
    (provider : LLMProvider) (e : Env) (model : LanguageModel) :
  factory (<[slot := env_coerce (prov_apiKey provider)]> e) (prov_model provider)
    = Returned model ->
  e !! slot = Some "" ->
  exists e', LLMService.with_env_key slot factory provider e = (Returned model, e') /\
             e' !! slot = None.
Proof.
  intros Hfactory Hslot. unfold LLMService.with_env_key.
  rewrite Hfactory, Hslot. simpl. eexists. split; [reflexivity |].
  apply lookup_delete_eq.
Qed.

(** [getModel] for openai, anthropic and google is [with_env_key] on the
    provider's slot. *)
Lemma getModel_slot (this : LLMService.t) (provider : LLMProvider) (slot : string) :
  cfg_provider (LLMService.config this) = Some provider ->
  credentialSlot (prov_name provider) = Some slot ->
  exists factory, forall e,
    LLMService.getModel this e = LLMService.with_env_key slot factory provider e.
Proof.
  intros Hprovider. unfold credentialSlot, LLMService.getModel, LLMService.modelFor.
  rewrite Hprovider.
  destruct (String.eqb (prov_name provider) "openai").
  { intros [= <-]. exists openai. reflexivity. }
  destruct (String.eqb (prov_name provider) "anthropic").
  { intros [= <-]. exists anthropic. reflexivity. }
  destruct (String.eqb (prov_name provider) "google").
  { intros [= <-]. exists google. reflexivity. }
  discriminate.
Qed.

(** After [getModel] has returned, the environment is the one before the
    call, provided the slot was absent or held a non-empty value. *)
Lemma getModel_restores (this : LLMService.t) (provider : LLMProvider) (slot : string)
    (e e' : Env) (model : LanguageModel) :
  cfg_provider (LLMService.config this) = Some provider ->
  credentialSlot (prov_name provider) = Some slot ->
  LLMService.getModel this e = (Returned model, e') ->
  (e !! slot = None \/ exists key, e !! slot = Some key /\ key <> "") ->
  e' = e.
Proof.
  intros Hprovider Hslot Hget Hbefore.
  destruct (getModel_slot this provider slot Hprovider Hslot) as [factory Hfactory].
  rewrite Hfactory in Hget.
  destruct (factory (<[slot := env_coerce (prov_apiKey provider)]> e) (prov_model provider))
    as [built | error] eqn:Hbuilt.
  - rewrite (with_env_key_restores _ _ _ _ _ Hbuilt Hbefore) in Hget. congruence.
  - unfold LLMService.with_env_key in Hget. rewrite Hbuilt in Hget. discriminate.
Qed.

(** After [getModel] has returned, a slot that held the empty string is
    absent. *)
Lemma getModel_drops_empty (this : LLMService.t) (provider : LLMProvider) (slot : string)
    (e e' : Env) (model : LanguageModel) :
  cfg_provider (LLMService.config this) = Some provider ->
  credentialSlot (prov_name provider) = Some slot ->
  LLMService.getModel this e = (Returned model, e') ->
  e !! slot = Some "" ->
  e' !! slot = None.
Proof.
  intros Hprovider Hslot Hget Hbefore.
  destruct (getModel_slot this provider slot Hprovider Hslot) as [factory Hfactory].
  rewrite Hfactory in Hget.
  destruct (factory (<[slot := env_coerce (prov_apiKey provider)]> e) (prov_model provider))
    as [built | error] eqn:Hbuilt.
  - destruct (with_env_key_drops_empty _ _ _ _ _ Hbuilt Hbefore) as (e1 & Hrun & Hgone).
    rewrite Hrun in Hget. congruence.
  - unfold LLMService.with_env_key in Hget. rewrite Hbuilt in Hget. discriminate.
Qed.

End CredentialSlot.

(** C9. With the provider [openai] configured and the slot [OPENAI_API_KEY]
    holding the empty string, [getModel] returns a client and leaves the slot
    deleted: the environment after the call differs from the one before. *)
Theorem getModel_deletes_empty_slot :
  let sdk := Fixtures.scriptedSdk (Returned Fixtures.oneToolAnswer) 0 in
  let this := {| LLMService.config := Fixtures.serviceConfig "openai" |} in
  let e : Env := {[ "OPENAI_API_KEY" := "" ]} in
  exists model e',
    LLMService.getModel (sdk := sdk) this e = (Returned model, e') /\
    e !! "OPENAI_API_KEY" = Some "" /\
    e' !! "OPENAI_API_KEY" = None /\
    e' <> e.
Proof.
  intros sdk this e.
  assert (Hbefore : e !! "OPENAI_API_KEY" = Some "") by apply lookup_singleton_eq.
  destruct (with_env_key_drops_empty "OPENAI_API_KEY" openai
              {| prov_name := "openai"; prov_model := Some "model-1";
                 prov_apiKey := Some "sk-test" |} e
              {| lm_provider := "openai"; lm_modelId := Some "model-1";
                 lm_credential := Some "sk-test" |}) as (e' & Hget & Hafter).
  - simpl. unfold Fixtures.clientFor. rewrite lookup_insert_eq. reflexivity.
  - exact Hbefore.
  - exists {| lm_provider := "openai"; lm_modelId := Some "model-1";
              lm_credential := Some "sk-test" |}, e'.
    split; [exact Hget |]. split; [exact Hbefore |]. split; [exact Hafter |].
    intros ->. congruence.
Qed.

(** ** [LLMService]: flattening of the steps *)

Section Flattening.
Context `{sdk : ProviderSdk} `{channel : OutputChannel}.

Lemma foldl_collectStep (steps : list Step) (acc : list ToolCall * list ToolResult) :
  foldl LLMService.collectStep acc steps =
    (acc.1 ++ concat (map (fun step => default [] (step_toolCalls step)) steps),
     acc.2 ++ concat (map (fun step => default [] (step_toolResults step)) steps)).
Proof.
  revert acc. induction steps as [| step steps IH]; intros [calls results]; simpl.
  - rewrite !app_nil_r. reflexivity.
  - rewrite IH. unfold LLMService.collectStep. simpl.
    destruct (step_toolCalls step), (step_toolResults step); simpl;
      rewrite <- ?app_assoc; reflexivity.
Qed.

Lemma length_concat_sum {A B} (f : A -> list B) (l : list A) :
  length (concat (map f l)) = sum_list_with (fun a => length (f a)) l.
Proof.
  induction l as [| a l IH]; simpl; [reflexivity |].
  rewrite length_app, IH. reflexivity.
Qed.

Lemma elem_of_concat_map {A B} (f : A -> list B) (l : list A) (a : A) (b : B) :
  a ∈ l -> b ∈ f a -> b ∈ concat (map f l).
Proof.
  intros Ha Hb. apply list_elem_of_In, in_concat. exists (f a). split.
  - apply in_map, list_elem_of_In. exact Ha.
  - apply list_elem_of_In. exact Hb.
Qed.

(** The flat lists hold every call and every result of every step, in
    order. *)
Lemma toResponse_flat (result : GenerateTextResult) :
  let steps := default [] (gt_steps result) in
  resp_steps (LLMService.toResponse result) = Some steps /\
  resp_toolCalls (LLMService.toResponse result) =
    Some (concat (map (fun step => default [] (step_toolCalls step)) steps)) /\
  resp_toolResults (LLMService.toResponse result) =
    Some (concat (map (fun step => default [] (step_toolResults step)) steps)).
Proof.
  unfold LLMService.toResponse, LLMService.collectSteps. simpl.
  destruct (gt_steps result) as [steps |]; simpl.
  - rewrite foldl_collectStep. simpl. auto.
  - auto.
Qed.

(** A response of [generateResponse] is the conversion of what the provider
    resolved to, for the parameters built from the arguments. *)
Lemma generateResponse_returned (this : LLMService.t)
    (messages : list ConversationMessage) (options : option GenerateOptions)
    (w w' : World) (response : LLMResponse) :
  LLMService.generateResponse this messages options w = (Returned response, w') ->
  exists model e1 result elapsed,
    LLMService.getModel this (env w) = (Returned model, e1) /\
    generateText (LLMService.buildParams this model messages options)
      = (Returned result, elapsed) /\
    response = LLMService.toResponse result /\
    w' = advance elapsed (set_env e1 w).
Proof.
  unfold LLMService.generateResponse, LLMService.generateBody, logged. intros H.
  destruct (LLMService.providerLabel this) as [label | error];
    [| destruct (appendLine _); discriminate].
  destruct (appendLine ("Generating response with " +:+ label));
    [destruct (appendLine _); discriminate |].
  destruct (LLMService.getModel this (env w)) as [[model | error] e1];
    [| destruct (appendLine _); discriminate].
  destruct (appendLine (LLMService.toolsLine _));
    [destruct (appendLine _); discriminate |].
  destruct (appendLine ("[DEBUG] MaxSteps: " +:+ _));
    [destruct (appendLine _); discriminate |].
  destruct (generateText (LLMService.buildParams this model messages options))
    as [[result | error] elapsed] eqn:Hgen;
    [| destruct (appendLine _); discriminate].
  destruct (appendLine ("Response generated: " +:+ _));
    [destruct (appendLine _); discriminate |].
  destruct (appendLine ("Tools executed: " +:+ _));
    [destruct (appendLine _); discriminate |].
  injection H as <- <-. eauto 10.
Qed.

(** C3. Whatever the history and the options (hence the tool set), a result
    returned by [generateResponse] carries as [steps] the steps of the
    answer the provider gave to this request, and its [toolCalls] (resp.
    [toolResults]) has as many entries as those steps have tool calls
    (resp. tool results) in total; every call and every result of every
    step is in the flat list. *)
Theorem generateResponse_flattening (this : LLMService.t)
    (H : list ConversationMessage) (options : option GenerateOptions)
    (w w' : World) (response : LLMResponse) :
  LLMService.generateResponse this H options w = (Returned response, w') ->
  exists model e1 answer elapsed toolCalls toolResults,
    LLMService.getModel this (env w) = (Returned model, e1) /\
    generateText (LLMService.buildParams this model H options)
      = (Returned answer, elapsed) /\
    let steps := default [] (gt_steps answer) in
    resp_steps response = Some steps /\
    resp_toolCalls response = Some toolCalls /\
    resp_toolResults response = Some toolResults /\
    length toolCalls = sum_list_with toolCallCount steps /\
    length toolResults = sum_list_with toolResultCount steps /\
    (forall step toolCall,
       step ∈ steps -> toolCall ∈ default [] (step_toolCalls step) ->
       toolCall ∈ toolCalls) /\
    (forall step toolResult,
       step ∈ steps -> toolResult ∈ default [] (step_toolResults step) ->
       toolResult ∈ toolResults).
Proof.
  intros Hreturned.
  apply generateResponse_returned in Hreturned
    as (model & e1 & answer & elapsed & Hmodel & Hanswer & -> & _).
  destruct (toResponse_flat answer) as (Hsteps & Hcalls & Hresults).
  exists model, e1, answer, elapsed. do 2 eexists.
  split; [exact Hmodel |]. split; [exact Hanswer |]. intros steps.
  split; [exact Hsteps |]. split; [exact Hcalls |]. split; [exact Hresults |].
  split; [apply length_concat_sum |]. split; [apply length_concat_sum |].
  split; intros step item Hstep Hitem.
  - exact (elem_of_concat_map _ _ _ _ Hstep Hitem).
  - exact (elem_of_concat_map _ _ _ _ Hstep Hitem).
Qed.

(** [generateResponse] does return whenever the client can be built, the
    provider resolves and the channel accepts the lines. *)
Lemma generateResponse_resolves (this : LLMService.t)
    (messages : list ConversationMessage) (options : option GenerateOptions)
    (w : World) (model : LanguageModel) (e1 : Env) (result : GenerateTextResult)
    (elapsed : Z) :
  accepting channel ->
  LLMService.getModel this (env w) = (Returned model, e1) ->
  generateText (LLMService.buildParams this model messages options)
    = (Returned result, elapsed) ->
  LLMService.generateResponse this messages options w =
    (Returned (LLMService.toResponse result), advance elapsed (set_env e1 w)).
Proof.
  intros Haccepts Hmodel Hgen.
  unfold LLMService.generateResponse, LLMService.generateBody,
    LLMService.providerLabel.
  destruct (cfg_provider (LLMService.config this)) as [provider |] eqn:Hprovider.
  - rewrite logged_accepting, Hmodel by exact Haccepts. simpl.
    rewrite !logged_accepting, Hgen by exact Haccepts. simpl.
    rewrite !logged_accepting by exact Haccepts. reflexivity.
  - unfold LLMService.getModel in Hmodel. rewrite Hprovider in Hmodel.
    discriminate Hmodel.
Qed.

End Flattening.

(** One step with one call and one result: one entry in each flat list, the
    call and the result of the step. *)
Lemma generateResponse_flattening_witness :
  let sdk := Fixtures.scriptedSdk (Returned Fixtures.oneToolAnswer) 40 in
  let channel := Fixtures.quietChannel in
  exists response w' toolCalls toolResults,
    LLMService.generateResponse
      {| LLMService.config := Fixtures.serviceConfig "anthropic" |}
      [Fixtures.userMessage "hello"]
      (Some {| go_maxTokens := None; go_temperature := None;
               go_tools := Some (ToolObject ["write"]); go_maxSteps := Some 10 |})
      (Fixtures.world 1000) = (Returned response, w') /\
    resp_steps response = gt_steps Fixtures.oneToolAnswer /\
    resp_toolCalls response = Some toolCalls /\
    resp_toolResults response = Some toolResults /\
    length toolCalls = 1%nat /\ length toolResults = 1%nat /\
    Fixtures.writeCall ∈ toolCalls /\ Fixtures.writeResult ∈ toolResults.
Proof.
  intros sdk channel.
  destruct (LLMService.generateResponse
              {| LLMService.config := Fixtures.serviceConfig "anthropic" |}
              [Fixtures.userMessage "hello"]
              (Some {| go_maxTokens := None; go_temperature := None;
                       go_tools := Some (ToolObject ["write"]);
                       go_maxSteps := Some 10 |})
              (Fixtures.world 1000)) as [[response | error] w'] eqn:Hrun;
    [| vm_compute in Hrun; discriminate Hrun].
  destruct (generateResponse_flattening _ _ _ _ _ _ Hrun)
    as (model & e1 & answer & elapsed & toolCalls & toolResults &
        _ & Hanswer & Hsteps & Hcalls & Hresults & Hn & Hm & Hin & Hin').
  injection Hanswer as <- _.
  exists response, w', toolCalls, toolResults.
  split; [reflexivity |]. split; [exact Hsteps |].
  split; [exact Hcalls |]. split; [exact Hresults |].
  split; [exact Hn |]. split; [exact Hm |]. split.
  - apply (Hin {| step_toolCalls := Some [Fixtures.writeCall];
                  step_toolResults := Some [Fixtures.writeResult] |});
      apply list_elem_of_singleton; reflexivity.
  - apply (Hin' {| step_toolCalls := Some [Fixtures.writeCall];
                   step_toolResults := Some [Fixtures.writeResult] |});
      apply list_elem_of_singleton; reflexivity.
Defined.

(** ** [BaseAgent]: the session store *)

Section SessionStore.
Variable execute : ExecuteTask Agent.

(** C5. For a conversation id that is not in the session store,
    [continueConversation] fails with the error "Session <id> not found";
    the agent (hence its session store) and the world are exactly as before,
    so no session has been created under that id. *)
Theorem continueConversation_unknown_session (message conversationId : string)
    (options : option AgentOptions) (this : Agent) (w : World) :
  sessions this !! conversationId = None ->
  exists this' w',
    BaseAgent.continueConversation execute message conversationId options this w =
      (Raised (new_Error ("Session " +:+ conversationId +:+ " not found")), this', w') /\
    this' = this /\ w' = w /\
    sessions this' = sessions this /\
    sessions this' !! conversationId = None.
Proof.
  intros Hunknown. exists this, w.
  unfold BaseAgent.continueConversation. rewrite Hunknown. auto.
Qed.

(** A known session is touched and the task is started. *)
Lemma continueConversation_known_session (message conversationId : string)
    (options : option AgentOptions) (this : Agent) (w : World) (session : loc) :
  sessions this !! conversationId = Some session ->
  forall error this' w',
    BaseAgent.continueConversation execute message conversationId options this w =
      (Raised error, this', w') ->
    execute message (Some (withSessionId options conversationId)) this
      (BaseAgent.update session (BaseAgent.touch (clock w)) w) =
      (Raised error, this', w').
Proof.
  intros Hknown error this' w'. unfold BaseAgent.continueConversation.
  rewrite Hknown.
  destruct (execute _ _ _ _) as [[[result | error'] this2] w2]; congruence.
Qed.

End SessionStore.

Lemma getSession_stored (sessionId projectPath : string) (this : Agent) (w : World) :
  forall session this1 w1,
    BaseAgent.getSession sessionId projectPath this w = (session, this1, w1) ->
    sessions this1 !! sessionId = Some session.
Proof.
  intros session this1 w1. unfold BaseAgent.getSession.
  destruct (sessions this !! sessionId) as [found |] eqn:Hlookup.
  - intros [= <- <- <-]. exact Hlookup.
  - simpl. intros [= <- <- <-]. simpl. apply lookup_insert_eq.
Qed.

(** A second retrieval returns the stored object and changes nothing at
    all. *)
Lemma getSession_twice (sessionId projectPath projectPath' : string)
    (this : Agent) (w : World) :
  forall session this1 w1,
    BaseAgent.getSession sessionId projectPath this w = (session, this1, w1) ->
    BaseAgent.getSession sessionId projectPath' this1 w1 = (session, this1, w1).
Proof.
  intros session this1 w1 Hfirst.
  apply getSession_stored in Hfirst.
  unfold BaseAgent.getSession. rewrite Hfirst. reflexivity.
Qed.

(** C6, for the agents built on [BaseAgent]. Two successive calls of
    [getSession] with the same id return the same session object, and the
    second call leaves the object (its turns and every other field), the
    store and the world untouched. The wrapper keeps no store: each call of
    its [getSession] allocates a new session object. *)
Theorem getSession_idempotent_BaseAgent `{sdk : ProviderSdk} `{adapter : MessageAdapter}
    `{channel : OutputChannel} :
  getSession_idempotent Agent customAgent /\
  (forall (sessionId projectPath : string) (this : Agent) (w : World),
     let '(first, this1, w1) := BaseAgent.getSession sessionId projectPath this w in
     BaseAgent.getSession sessionId projectPath this1 w1 = (first, this1, w1)) /\
  (forall (sessionId projectPath : string) (this : ClaudeCodeAgentWrapper.t) (w : World),
     let '(first, this1, w1) :=
       ClaudeCodeAgentWrapper.getSession sessionId projectPath this w in
     let '(second, this2, w2) :=
       ClaudeCodeAgentWrapper.getSession sessionId projectPath this1 w1 in
     this2 = this /\ first = length (heap w) /\ second = S first).
Proof.
  assert (Htwice : forall (sessionId projectPath : string) (this : Agent) (w : World),
    let '(first, this1, w1) := BaseAgent.getSession sessionId projectPath this w in
    BaseAgent.getSession sessionId projectPath this1 w1 = (first, this1, w1)).
  { intros sessionId projectPath this w.
    destruct (BaseAgent.getSession sessionId projectPath this w)
      as [[first this1] w1] eqn:Hfirst.
    exact (getSession_twice _ _ _ _ _ _ _ _ Hfirst). }
  split; [| split].
  - intros sessionId projectPath this w. simpl.
    specialize (Htwice sessionId projectPath this w).
    destruct (BaseAgent.getSession sessionId projectPath this w) as [[first this1] w1].
    rewrite Htwice. split; reflexivity.
  - exact Htwice.
  - intros sessionId projectPath this w. simpl.
    rewrite length_app. simpl. split_and!; [reflexivity | reflexivity | lia].
Qed.

(** C6, as stated for every implementation, fails for the wrapper: its
    [getSession] builds a new session object at each call. *)
Lemma getSession_not_idempotent_wrapper :
  ~ getSession_idempotent ClaudeCodeAgentWrapper.t
      (claudeCodeAgent (service := Fixtures.failingService)
         (channel := Fixtures.quietChannel)).
Proof.
  intros Hidem.
  specialize (Hidem "session-1" "/workspace" Fixtures.wrapper (Fixtures.world 1000)).
  simpl in Hidem. destruct Hidem as [Hsame _]. discriminate Hsame.
Qed.

(** *** Eviction *)

Section Eviction.
Variables (now maxAge : Z) (w : World).

Lemma foldl_sweep_lookup (entries : list (string * loc)) (store : gmap string loc)
    (id : string) :
  foldl (BaseAgent.sweep now maxAge w) store entries !! id =
    if existsb (evicts now maxAge w id) entries then None else store !! id.
Proof.
  revert store. induction entries as [| entry entries IH]; intros store; simpl.
  - reflexivity.
  - rewrite IH. unfold evicts at 2. unfold BaseAgent.sweep.
    destruct (existsb (evicts now maxAge w id) entries).
    + rewrite orb_true_r. reflexivity.
    + rewrite orb_false_r.
      destruct (bool_decide (entry.1 = id)) eqn:Hkey;
        destruct (BaseAgent.expired now maxAge w entry.2); simpl; try reflexivity.
      * apply bool_decide_eq_true in Hkey. subst id. apply lookup_delete_eq.
      * apply bool_decide_eq_false in Hkey. apply lookup_delete_ne. exact Hkey.
Qed.

Lemma existsb_evicts (store : gmap string loc) (id : string) :
  existsb (evicts now maxAge w id) (map_to_list store) =
    match store !! id with
    | Some session => BaseAgent.expired now maxAge w session
    | None => false
    end.
Proof.
  destruct (existsb (evicts now maxAge w id) (map_to_list store)) eqn:Hex.
  - apply existsb_exists in Hex as ([key session] & Hin & Hev).
    apply list_elem_of_In, elem_of_map_to_list in Hin.
    unfold evicts in Hev. simpl in Hev. apply andb_true_iff in Hev as [Hkey Hexp].
    apply bool_decide_eq_true in Hkey. subst key. rewrite Hin, Hexp. reflexivity.
  - destruct (store !! id) as [session |] eqn:Hlookup; [| reflexivity].
    destruct (BaseAgent.expired now maxAge w session) eqn:Hexp; [| reflexivity].
    rewrite <- Hex. apply existsb_exists. exists (id, session). split.
    + apply list_elem_of_In, elem_of_map_to_list. exact Hlookup.
    + unfold evicts. simpl. rewrite Hexp, bool_decide_eq_true_2; reflexivity.
Qed.

End Eviction.

(** The store after a sweep: an entry stays exactly when its session has not
    expired. *)
Lemma cleanupSessions_lookup (maxAge : option Z) (this : Agent) (w : World)
    (id : string) :
  sessions (BaseAgent.cleanupSessions maxAge this w) !! id =
    match sessions this !! id with
    | Some session =>
        if BaseAgent.expired (clock w) (default 86400000 maxAge) w session
        then None else Some session
    | None => None
    end.
Proof.
  unfold BaseAgent.cleanupSessions. simpl.
  change (24 * 60 * 60 * 1000) with 86400000.
  rewrite foldl_sweep_lookup, existsb_evicts.
  destruct (sessions this !! id) as [session |]; [| reflexivity].
  destruct (BaseAgent.expired _ _ _ _); reflexivity.
Qed.

(** C7. [cleanupSessions(maxAge)] removes exactly the sessions whose last
    activity is more than [maxAge] milliseconds before the current time, the
    threshold being 24 hours when [maxAge] is not supplied: a stored session
    is removed when [now - lastActivity > maxAge] (so at
    [now - (maxAge + 1)]) and retained otherwise (so at [now - (maxAge - 1)]);
    an id that was not stored is not stored afterwards, and nothing but the
    store changes. *)
Theorem cleanupSessions_evicts_exactly (maxAge : option Z) (this : Agent) (w : World)
    (sessionId : string) (s : AgentSession) :
  sessionOf this w sessionId = Some s ->
  let limit := default (24 * 60 * 60 * 1000) maxAge in
  let this' := BaseAgent.cleanupSessions maxAge this w in
  (clock w - sess_lastActivity s > limit -> sessionOf this' w sessionId = None) /\
  (clock w - sess_lastActivity s <= limit -> sessionOf this' w sessionId = Some s) /\
  (sess_lastActivity s = clock w - (limit + 1) -> sessionOf this' w sessionId = None) /\
  (sess_lastActivity s = clock w - (limit - 1) ->
   sessionOf this' w sessionId = Some s) /\
  (forall other, sessions this !! other = None -> sessions this' !! other = None) /\
  (maxAge = None -> limit = 86400000) /\
  this' = set_sessions (sessions this') this.
Proof.
  intros Hstored limit this'. unfold sessionOf in *.
  destruct (sessions this !! sessionId) as [session |] eqn:Hentry; [| discriminate].
  simpl in Hstored.
  assert (Hlookup : sessions this' !! sessionId =
                    if limit <? clock w - sess_lastActivity s then None else Some session).
  { unfold this'. rewrite cleanupSessions_lookup, Hentry.
    unfold BaseAgent.expired. rewrite Hstored. reflexivity. }
  assert (Hremoved : clock w - sess_lastActivity s > limit ->
                     sessions this' !! sessionId ≫= (fun l => heap w !! l) = None).
  { intros Hold. rewrite Hlookup.
    destruct (Z.ltb_spec limit (clock w - sess_lastActivity s)); [reflexivity | lia]. }
  assert (Hretained : clock w - sess_lastActivity s <= limit ->
                      sessions this' !! sessionId ≫= (fun l => heap w !! l) = Some s).
  { intros Hrecent. rewrite Hlookup.
    destruct (Z.ltb_spec limit (clock w - sess_lastActivity s)); [lia | exact Hstored]. }
  split_and!.
  - exact Hremoved.
  - exact Hretained.
  - intros Hat. apply Hremoved. lia.
  - intros Hat. apply Hretained. lia.
  - intros other Habsent. unfold this'.
    rewrite cleanupSessions_lookup, Habsent. reflexivity.
  - intros ->. reflexivity.
  - reflexivity.
Qed.

(** *** The stored references stay valid *)

Lemma sessionsAllocated_getSession (sessionId projectPath : string)
    (this : Agent) (w : World) :
  sessionsAllocated this w ->
  forall session this1 w1,
    BaseAgent.getSession sessionId projectPath this w = (session, this1, w1) ->
    sessionsAllocated this1 w1 /\ is_Some (sessionOf this1 w1 sessionId).
Proof.
  intros Hwf session this1 w1. unfold BaseAgent.getSession, sessionOf.
  destruct (sessions this !! sessionId) as [found |] eqn:Hlookup.
  - intros [= <- <- <-]. split; [exact Hwf |].
    rewrite Hlookup. simpl. exact (Hwf _ _ Hlookup).
  - simpl. intros [= <- <- <-]. simpl. split.
    + intros id l. unfold set_sessions, set_heap; simpl.
      rewrite lookup_insert. case_decide as Hid.
      * intros [= <-]. rewrite lookup_app_r, Nat.sub_diag by lia. eauto.
      * intros Hl. destruct (Hwf _ _ Hl) as [s Hs].
        exists s. apply lookup_app_l_Some. exact Hs.
    + unfold set_sessions, set_heap; simpl. rewrite lookup_insert_eq. simpl.
      rewrite lookup_app_r, Nat.sub_diag by lia. eauto.
Qed.

Lemma sessionsAllocated_cleanupSessions (maxAge : option Z) (this : Agent) (w : World) :
  sessionsAllocated this w ->
  sessionsAllocated (BaseAgent.cleanupSessions maxAge this w) w.
Proof.
  intros Hwf id l. rewrite cleanupSessions_lookup.
  destruct (sessions this !! id) as [session |] eqn:Hlookup; [| discriminate].
  destruct (BaseAgent.expired _ _ _ _); [discriminate |].
  intros [= <-]. exact (Hwf _ _ Hlookup).
Qed.

Lemma sessionsAllocated_update (session : loc) (f : AgentSession -> AgentSession)
    (this : Agent) (w : World) :
  sessionsAllocated this w -> sessionsAllocated this (BaseAgent.update session f w).
Proof.
  intros Hwf id l Hl. unfold BaseAgent.update. simpl.
  destruct (Hwf _ _ Hl) as [s Hs].
  rewrite list_lookup_alter. case_decide as Hsame; [subst l |];
    rewrite Hs; simpl; eauto.
Qed.

(** ** [SuperDesignCodingAgent]: the loops over the steps *)

Section Progress.
Context `{adapter : MessageAdapter} `{channel : OutputChannel}.

Import SuperDesignCodingAgent.

Lemma hears_nil (w : World) : hears [] w = w.
Proof. destruct w. unfold hears. simpl. rewrite app_nil_r. reflexivity. Qed.

Lemma hears_app (first second : list SDKMessage) (w : World) :
  hears (first ++ second) w = hears second (hears first w).
Proof. unfold hears. simpl. rewrite app_assoc. reflexivity. Qed.

Lemma heard_app (onMessage : option Callback) (first second : list SDKMessage) :
  heard onMessage (first ++ second) = heard onMessage first ++ heard onMessage second.
Proof. destruct onMessage; reflexivity. Qed.

Lemma heard_nil (onMessage : option Callback) : heard onMessage [] = [].
Proof. destruct onMessage; reflexivity. Qed.

(** The two arrays after the events [handled] have been handled. *)
Local Abbreviation pushed sessionId l handled :=
  {| messages := messages l ++ map (eventMessage sessionId) handled;
     toolsUsed := toolsUsed l ++ concat (map eventNames handled) |}.

Lemma pushed_nil (l : Locals) :
  {| messages := messages l ++ []; toolsUsed := toolsUsed l ++ [] |} = l.
Proof. destruct l. simpl. rewrite !app_nil_r. reflexivity. Qed.

(** The events handled are an initial part of the events, and all of them
    when nothing is thrown. *)
Lemma progress_prefix (onMessage : option Callback) (sessionId : string)
    (events : list Event) (heard : list SDKMessage) :
  (progress onMessage sessionId heard events).1 `prefix_of` events /\
  ((progress onMessage sessionId heard events).2 = None ->
   (progress onMessage sessionId heard events).1 = events).
Proof.
  revert heard. induction events as [| event rest IH]; intros heard; simpl.
  - split; [reflexivity | reflexivity].
  - destruct (eventLine event ≫= appendLine) as [error |]; simpl.
    { split; [apply prefix_nil | discriminate]. }
    destruct onMessage as [callback |].
    + destruct (callback heard (eventMessage sessionId event)) as [error |]; simpl.
      { split; [apply prefix_cons, prefix_nil | discriminate]. }
      specialize (IH (heard ++ [eventMessage sessionId event])).
      destruct (progress (Some callback) sessionId _ rest) as [handled thrown].
      simpl in *. destruct IH as [Hprefix Hall]. split.
      * apply prefix_cons. exact Hprefix.
      * intros Hnone. rewrite (Hall Hnone). reflexivity.
    + specialize (IH heard).
      destruct (progress None sessionId heard rest) as [handled thrown].
      simpl in *. destruct IH as [Hprefix Hall]. split.
      * apply prefix_cons. exact Hprefix.
      * intros Hnone. rewrite (Hall Hnone). reflexivity.
Qed.

(** The progress through two lists of events, one after the other. *)
Lemma progress_app (onMessage : option Callback) (sessionId : string)
    (first second : list Event) (heard0 : list SDKMessage) :
  progress onMessage sessionId heard0 (first ++ second) =
    match (progress onMessage sessionId heard0 first).2 with
    | Some error => progress onMessage sessionId heard0 first
    | None =>
        let after :=
          progress onMessage sessionId
            (heard0 ++ heard onMessage
                         (map (eventMessage sessionId)
                              (progress onMessage sessionId heard0 first).1))
            second in
        ((progress onMessage sessionId heard0 first).1 ++ after.1, after.2)
    end.
Proof.
  revert heard0. induction first as [| event rest IH]; intros heard0; simpl.
  - rewrite heard_nil, app_nil_r.
    destruct (progress onMessage sessionId heard0 second); reflexivity.
  - destruct (eventLine event ≫= appendLine) as [error |]; simpl; [reflexivity |].
    destruct onMessage as [callback |].
    + destruct (callback heard0 (eventMessage sessionId event)) as [error |]; simpl;
        [reflexivity |].
      rewrite IH.
      destruct (progress (Some callback) sessionId
                  (heard0 ++ [eventMessage sessionId event]) rest)
        as [handled [error |]]; simpl; [reflexivity |].
      rewrite <- app_assoc. reflexivity.
    + rewrite IH.
      destruct (progress None sessionId heard0 rest) as [handled [error |]]; simpl;
        reflexivity.
Qed.

(** The loop over the tool calls of a step. *)
Lemma forEach_onToolCall (onMessage : option Callback) (sessionId : string)
    (toolCalls : list ToolCall) (l : Locals) (w : World) :
  let run := progress onMessage sessionId (delivered w) (map ToolCalled toolCalls) in
  forEach (onToolCall onMessage sessionId) toolCalls l w =
    (run.2, pushed sessionId l run.1,
     hears (heard onMessage (map (eventMessage sessionId) run.1)) w).
Proof.
  revert l w. induction toolCalls as [| toolCall rest IH]; intros l w; simpl.
  - rewrite heard_nil, hears_nil, pushed_nil. reflexivity.
  - unfold onToolCall, logged, notify.
    destruct (appendLine (toolCallLine toolCall)) as [error |]; simpl.
    { rewrite heard_nil, hears_nil, pushed_nil. reflexivity. }
    destruct onMessage as [callback |].
    + destruct (callback (delivered w) (toolCallMessage sessionId toolCall))
        as [error |]; simpl.
      { rewrite ?app_nil_r. reflexivity. }
      rewrite IH. simpl.
      destruct (progress (Some callback) sessionId
                  (delivered w ++ [toolCallMessage sessionId toolCall])
                  (map ToolCalled rest)) as [handled thrown]; simpl.
      rewrite <- !app_assoc. unfold hears, deliver. simpl.
      rewrite <- !app_assoc. reflexivity.
    + rewrite IH. simpl.
      destruct (progress None sessionId (delivered w) (map ToolCalled rest))
        as [handled thrown]; simpl.
      rewrite <- !app_assoc. reflexivity.
Qed.

(** The loop over the tool results of a step. *)
Lemma forEach_onToolResult (onMessage : option Callback) (sessionId : string)
    (toolResults : list ToolResult) (l : Locals) (w : World) :
  let run := progress onMessage sessionId (delivered w) (map ToolReturned toolResults) in
  forEach (onToolResult onMessage sessionId) toolResults l w =
    (run.2, pushed sessionId l run.1,
     hears (heard onMessage (map (eventMessage sessionId) run.1)) w).
Proof.
  revert l w. induction toolResults as [| toolResult rest IH]; intros l w; simpl.
  - rewrite heard_nil, hears_nil, pushed_nil. reflexivity.
  - unfold onToolResult, notify.
    destruct onMessage as [callback |].
    + destruct (callback (delivered w) (createToolResultMessage toolResult sessionId))
        as [error |]; simpl.
      { rewrite ?app_nil_r. reflexivity. }
      rewrite IH. simpl.
      destruct (progress (Some callback) sessionId
                  (delivered w ++ [createToolResultMessage toolResult sessionId])
                  (map ToolReturned rest)) as [handled thrown]; simpl.
      rewrite <- ?app_assoc, ?app_nil_r. unfold hears, deliver. simpl.
      rewrite <- !app_assoc. reflexivity.
    + rewrite IH. simpl.
      destruct (progress None sessionId (delivered w) (map ToolReturned rest))
        as [handled thrown]; simpl.
      rewrite <- !app_assoc. reflexivity.
Qed.

(** The body of the loop over the steps. *)
Lemma onStep_progress (onMessage : option Callback) (sessionId : string)
    (step : Step) (l : Locals) (w : World) :
  let run := progress onMessage sessionId (delivered w) (stepEvents step) in
  onStep onMessage sessionId step l w =
    (run.2, pushed sessionId l run.1,
     hears (heard onMessage (map (eventMessage sessionId) run.1)) w).
Proof.
  unfold onStep, stepEvents. simpl. rewrite forEach_onToolCall, progress_app. simpl.
  destruct (progress onMessage sessionId (delivered w)
              (map ToolCalled (default [] (step_toolCalls step))))
    as [handled [error |]]; simpl; [reflexivity |].
  rewrite forEach_onToolResult. simpl.
  destruct (progress onMessage sessionId _
              (map ToolReturned (default [] (step_toolResults step))))
    as [handled' thrown]; simpl.
  rewrite !map_app, !concat_app, !heard_app, hears_app, <- !app_assoc. reflexivity.
Qed.

(** The loop over the steps handles the events of the steps in order, as
    far as [progress] says. *)
Lemma processSteps_progress (onMessage : option Callback) (sessionId : string)
    (steps : list Step) (l : Locals) (w : World) :
  let run := progress onMessage sessionId (delivered w) (eventsOf steps) in
  processSteps onMessage sessionId steps l w =
    (run.2, pushed sessionId l run.1,
     hears (heard onMessage (map (eventMessage sessionId) run.1)) w).
Proof.
  unfold processSteps, eventsOf.
  revert l w. induction steps as [| step rest IH]; intros l w; simpl.
  - rewrite heard_nil, hears_nil, pushed_nil. reflexivity.
  - rewrite onStep_progress, progress_app. simpl.
    destruct (progress onMessage sessionId (delivered w) (stepEvents step))
      as [handled [error |]]; simpl; [reflexivity |].
    rewrite IH. simpl.
    destruct (progress onMessage sessionId _ (concat (map stepEvents rest)))
      as [handled' thrown]; simpl.
    rewrite !map_app, !concat_app, !heard_app, hears_app, <- !app_assoc. reflexivity.
Qed.

(** The messages and the tool names of the events of a list of steps. *)
Lemma eventsOf_messages (sessionId : string) (steps : list Step) :
  map (eventMessage sessionId) (eventsOf steps) =
    concat (map (stepMessages sessionId) steps).
Proof.
  unfold eventsOf. induction steps as [| step rest IH]; simpl; [reflexivity |].
  rewrite map_app, IH. f_equal.
  unfold stepEvents, stepMessages. rewrite map_app, !map_map. reflexivity.
Qed.

Lemma eventsOf_names (steps : list Step) :
  concat (map eventNames (eventsOf steps)) = stepToolNames steps.
Proof.
  unfold eventsOf, stepToolNames. induction steps as [| step rest IH]; simpl;
    [reflexivity |].
  rewrite map_app, concat_app, IH. f_equal.
  unfold stepEvents. rewrite map_app, concat_app, !map_map.
  replace (concat (map (fun toolResult => eventNames (ToolReturned toolResult))
                       (default [] (step_toolResults step)))) with (@nil string).
  - rewrite app_nil_r. simpl.
    induction (default [] (step_toolCalls step)) as [| toolCall calls IHc]; simpl;
      [reflexivity | rewrite IHc; reflexivity].
  - induction (default [] (step_toolResults step)) as [| toolResult results IHr];
      simpl; [reflexivity | exact IHr].
Qed.

End Progress.

(** ** [SuperDesignCodingAgent]: the messages of a task *)

Section TaskMessages.
Context `{sdk : ProviderSdk} `{adapter : MessageAdapter} `{channel : OutputChannel}.

Import SuperDesignCodingAgent.

(** [generateResponse] changes nothing of the world but the environment and
    the clock. *)
Lemma generateResponse_world (this : LLMService.t)
    (messages : list ConversationMessage) (options : option GenerateOptions)
    (w : World) :
  delivered (LLMService.generateResponse this messages options w).2 = delivered w /\
  heap (LLMService.generateResponse this messages options w).2 = heap w.
Proof.
  unfold LLMService.generateResponse, LLMService.generateBody, logged.
  destruct (LLMService.providerLabel this) as [label | error];
    [| destruct (appendLine _); auto].
  destruct (appendLine ("Generating response with " +:+ label));
    [destruct (appendLine _); auto |].
  destruct (LLMService.getModel this (env w)) as [[model | error] e1];
    [| destruct (appendLine _); auto].
  destruct (appendLine (LLMService.toolsLine _));
    [destruct (appendLine _); auto |].
  destruct (appendLine ("[DEBUG] MaxSteps: " +:+ _));
    [destruct (appendLine _); auto |].
  destruct (generateText (LLMService.buildParams this model messages options))
    as [[result | error] elapsed];
    [| destruct (appendLine _); auto].
  destruct (appendLine ("Response generated: " +:+ _));
    [destruct (appendLine _); auto |].
  destruct (appendLine ("Tools executed: " +:+ _));
    [destruct (appendLine _); auto |].
  auto.
Qed.

Lemma or_default_again (a : option Z) (d : Z) :
  d <> 0 -> or_default (Some (or_default a d)) d = or_default a d.
Proof.
  intros Hd. unfold or_default, truthy, truthy_Z.
  destruct a as [v |].
  - destruct (Z.eqb_spec v 0) as [-> | Hv]; simpl.
    + destruct (Z.eqb_spec d 0); [contradiction | reflexivity].
    + destruct (Z.eqb_spec v 0); [contradiction | reflexivity].
  - destruct (Z.eqb_spec d 0); [contradiction | reflexivity].
Qed.

(** [generateWithTools], as a task calls it, in terms of the call of the
    service. *)
Lemma generateWithTools_serviceCall (request : string) (options : option AgentOptions)
    (this : Agent) (w : World) :
  let sid := sessionIdOf options w in
  let history := historyOf request options this w in
  generateWithTools
    (set_history (<[sid := history]> (conversationHistory this)) this) history
    (options ≫= ao_maxTokens) (options ≫= ao_temperature)
    (Some (or_default (options ≫= ao_maxSteps) 25)) sid w =
    match serviceCall request options this w with
    | (Returned response, w1) =>
        (Returned {| tr_content := resp_content response;
                     tr_toolCalls := default [] (resp_toolCalls response);
                     tr_toolResults := default [] (resp_toolResults response);
                     tr_steps := default [] (resp_steps response) |}, w1)
    | (Raised error, w1) =>
        logged ("[SuperDesignAgent] Error generating response: " +:+ to_string error)
          (fun thrown => (Raised thrown, w1)) (Raised error, w1)
    end.
Proof.
  intros sid history. unfold generateWithTools, serviceCall, serviceOptions.
  rewrite or_default_again by discriminate. reflexivity.
Qed.

(** The [try] block of a task, in terms of the call of the service and of
    the progress through the events of the response. *)
Lemma taskBody_unfolded (request : string) (options : option AgentOptions)
    (this : Agent) (w : World) :
  let sid := sessionIdOf options w in
  let history := historyOf request options this w in
  let this1 := set_history (<[sid := history]> (conversationHistory this)) this in
  taskBody request options this w =
    match serviceCall request options this w with
    | (Raised error, w1) =>
        (Raised match appendLine ("[SuperDesignAgent] Error generating response: " +:+
                                  to_string error) with
                | Some thrown => thrown
                | None => error
                end,
         {| messages := [createUserMessage request sid]; toolsUsed := [] |}, this1, w1)
    | (Returned response, w1) =>
        let content := resp_content response in
        let run :=
          progress (options ≫= ao_onMessage) sid (delivered w)
            (eventsOf (default [] (resp_steps response))) in
        let l :=
          {| messages :=
               createUserMessage request sid ::
               assistantPart sid content (clock w1 - clock w) ++
               map (eventMessage sid) run.1;
             toolsUsed := concat (map eventNames run.1) |} in
        let this2 :=
          if truthy content then
            set_history
              (<[sid := history ++ [{| cm_role := RoleAssistant; cm_content := content;
                                       cm_timestamp := Some (clock w1) |}]]>
                 (conversationHistory this1)) this1
          else this1 in
        let w2 :=
          hears (heard (options ≫= ao_onMessage) (map (eventMessage sid) run.1)) w1 in
        match run.2 with
        | Some error => (Raised error, l, this2, w2)
        | None =>
            logged (completedLine (clock w1 - clock w) (toolsUsed l))
              (fun error => (Raised error, l, this2, w2))
              (Returned {| tr_content := content;
                           tr_toolCalls := default [] (resp_toolCalls response);
                           tr_toolResults := default [] (resp_toolResults response);
                           tr_steps := default [] (resp_steps response) |},
               l, this2, w2)
        end
    end.
Proof.
  intros sid history this1. unfold taskBody.
  change (default [] (conversationHistory this !! sessionIdOf options w) ++
          [{| cm_role := RoleUser; cm_content := request;
              cm_timestamp := Some (clock w) |}]) with history.
  fold sid. fold this1.
  pose proof (generateWithTools_serviceCall request options this w) as Hservice.
  cbv zeta in Hservice. fold sid history this1 in Hservice. rewrite Hservice.
  clear Hservice.
  assert (Hdelivered : delivered (serviceCall request options this w).2 = delivered w)
    by apply generateResponse_world.
  destruct (serviceCall request options this w) as [[response | error] w1];
    simpl in Hdelivered.
  - cbn [tr_content tr_steps]. rewrite <- Hdelivered.
    unfold assistantPart.
    destruct (truthy (resp_content response)); rewrite processSteps_progress;
      cbn [fst snd messages toolsUsed app];
      destruct (progress _ sid (delivered w1) _) as [handled [error |]];
      cbn [fst snd]; reflexivity.
  - unfold logged. destruct (appendLine _); reflexivity.
Qed.

(** A response of the service, as a task calls it, is the conversion of the
    answer of the provider to the messages of the task. *)
Lemma serviceCall_returned (request : string) (options : option AgentOptions)
    (this : Agent) (w w1 : World) (response : LLMResponse) :
  serviceCall request options this w = (Returned response, w1) ->
  exists params answer elapsed,
    generateText params = (Returned answer, elapsed) /\
    gp_messages params = promptOf request options this w /\
    response = LLMService.toResponse answer /\
    clock w1 = clock w + elapsed /\ heap w1 = heap w /\ delivered w1 = delivered w.
Proof.
  unfold serviceCall. intros Hcall.
  apply generateResponse_returned in Hcall
    as (model & e1 & answer & elapsed & _ & Hgen & -> & ->).
  eexists _, answer, elapsed. split; [exact Hgen |].
  split_and!; reflexivity.
Qed.

(** C2. The messages of a successful [executeTaskWithStreaming] are, in this
    order: the user message; the assistant message, present exactly when the
    text the provider resolved to is non-empty; then for each step, in the
    order of the provider's [steps], the messages of the step's tool calls
    followed by those of its tool results, each in their order within the
    step. The provider's answer is the one to the session's history extended
    with the request. *)
Theorem executeTaskWithStreaming_message_order (request : string)
    (options : option AgentOptions) (this this' : Agent) (w w' : World)
    (result : TaskResult) :
  executeTaskWithStreaming request options this w = (Returned result, this', w') ->
  task_success result = true ->
  exists params answer elapsed,
    generateText params = (Returned answer, elapsed) /\
    gp_messages params = promptOf request options this w /\
    task_messages result =
      createUserMessage request (sessionIdOf options w) ::
      (if truthy (gt_text answer)
       then [createAssistantMessage (gt_text answer) (sessionIdOf options w) elapsed]
       else []) ++
      concat (map (stepMessages (sessionIdOf options w)) (default [] (gt_steps answer))) /\
    task_messages result =
      orderedMessages request (sessionIdOf options w) (gt_text answer) elapsed
        (default [] (gt_steps answer)) /\
    task_toolsUsed result = set_of_list (stepToolNames (default [] (gt_steps answer))).
Proof.
  unfold executeTaskWithStreaming. rewrite taskBody_unfolded. cbv zeta.
  intros Hrun Hsuccess.
  destruct (serviceCall request options this w) as [[response | error] w1] eqn:Hcall.
  - apply serviceCall_returned in Hcall
      as (params & answer & elapsed & Hanswer & Hprompt & -> & Hclock & _ & _).
    exists params, answer, elapsed.
    pose proof (progress_prefix (options ≫= ao_onMessage) (sessionIdOf options w)
                  (eventsOf (default [] (resp_steps (LLMService.toResponse answer))))
                  (delivered w)) as [_ Hall].
    destruct (progress _ _ _ _) as [handled [error |]]; cbn [fst snd] in *.
    + unfold logged in Hrun. destruct (appendLine _); [discriminate |].
      injection Hrun as <- _ _. discriminate Hsuccess.
    + rewrite (Hall eq_refl) in Hrun. unfold logged in Hrun.
      destruct (appendLine (completedLine _ _)).
      * destruct (appendLine _); [discriminate |].
        injection Hrun as <- _ _. discriminate Hsuccess.
      * injection Hrun as <- _ _. cbn [task_messages task_toolsUsed messages toolsUsed].
        rewrite eventsOf_messages, eventsOf_names.
        replace (clock w1 - clock w) with elapsed by lia.
        unfold orderedMessages, assistantPart. cbn [LLMService.toResponse resp_content resp_steps default].
        split_and!; try reflexivity; assumption.
  - destruct (appendLine _); unfold logged in Hrun;
      (destruct (appendLine _); [discriminate |]);
      injection Hrun as <- _ _; discriminate Hsuccess.
Qed.

(** A task touches neither the session store nor the session objects, nor
    the configuration of the agent, its service or its readiness flag. *)
Lemma executeTaskWithStreaming_frame (request : string) (options : option AgentOptions)
    (this : Agent) (w : World) :
  forall outcome this' w',
    executeTaskWithStreaming request options this w = (outcome, this', w') ->
    sessions this' = sessions this /\ heap w' = heap w /\ config this' = config this /\
    llmService this' = llmService this /\
    isInitializedFlag this' = isInitializedFlag this.
Proof.
  intros outcome this' w'.
  unfold executeTaskWithStreaming. rewrite taskBody_unfolded. cbv zeta.
  assert (Hheap : heap (serviceCall request options this w).2 = heap w)
    by apply generateResponse_world.
  destruct (serviceCall request options this w) as [[response | error] w1];
    cbn [snd] in Hheap.
  - destruct (progress _ _ _ _) as [handled [error |]]; cbn [fst snd];
      unfold logged; repeat destruct (appendLine _);
      destruct (truthy (resp_content response));
      intros [= _ <- <-]; cbn; auto.
  - unfold logged; repeat destruct (appendLine _); intros [= _ <- <-]; cbn; auto.
Qed.

(** C1, with the output channel taken into account. An exception thrown
    inside the [try] block of [executeTaskWithStreaming] is not propagated,
    provided the output channel accepts the line the [catch] clause writes:
    the method rejects only with what the channel threw on that line. When
    the service fails
    (the error is then the one of the service, or what the channel threw on
    the line [generateWithTools] writes about it), when the channel or the
    callback throws while the steps are processed, or when the channel
    throws on the line that reports the completion, and the channel accepts
    the line of the [catch] clause, the result has [success = false], the
    error text in [error], the messages built up to the exception (the user
    message, the assistant message and those of the events handled so far)
    followed by one error message, and as [toolsUsed] the distinct tool
    names of the calls handled so far. *)
Theorem executeTaskWithStreaming_catches (request : string)
    (options : option AgentOptions) (this : Agent) (w : World) :
  let sid := sessionIdOf options w in
  let user := createUserMessage request sid in
  let outcome := (executeTaskWithStreaming request options this w).1.1 in
  (forall thrown,
     outcome = Raised thrown -> exists text, appendLine (failedLine text) = Some thrown) /\
  (forall error w1,
     serviceCall request options this w = (Raised error, w1) ->
     let reported :=
       match appendLine ("[SuperDesignAgent] Error generating response: " +:+
                         to_string error) with
       | Some thrown => thrown
       | None => error
       end in
     appendLine (failedLine (message_of reported)) = None ->
     exists result,
       outcome = Returned result /\
       reportsFailure sid (message_of reported) [user] [] result) /\
  (forall response w1 handled thrown,
     serviceCall request options this w = (Returned response, w1) ->
     progress (options ≫= ao_onMessage) sid (delivered w)
       (eventsOf (default [] (resp_steps response))) = (handled, thrown) ->
     let built :=
       user :: assistantPart sid (resp_content response) (clock w1 - clock w) ++
       map (eventMessage sid) handled in
     let used := concat (map eventNames handled) in
     forall error,
       thrown = Some error \/
       (thrown = None /\
        appendLine (completedLine (clock w1 - clock w) used) = Some error) ->
       appendLine (failedLine (message_of error)) = None ->
       exists result,
         outcome = Returned result /\
         reportsFailure sid (message_of error) built used result).
Proof.
  intros sid user outcome. subst outcome.
  unfold executeTaskWithStreaming. rewrite taskBody_unfolded. cbv zeta.
  fold sid. fold user. split_and!.
  - intros thrown.
    destruct (serviceCall request options this w) as [[response | error] w1].
    + destruct (progress _ _ _ _) as [handled [error |]]; cbn [fst snd]; unfold logged.
      * destruct (appendLine (failedLine (message_of error))) eqn:Hline;
          intros [= <-]. eauto.
      * destruct (appendLine (completedLine _ _)) as [error |]; [| discriminate].
        destruct (appendLine (failedLine (message_of error))) eqn:Hline;
          intros [= <-]. eauto.
    + cbn [fst snd]. unfold logged.
      match goal with
      | |- context [failedLine ?text] =>
          destruct (appendLine (failedLine text)) eqn:Hline
      end; intros [= <-]. eauto.
  - intros error w1 -> Haccepted. cbn [fst snd].
    unfold logged. rewrite Haccepted. eexists. split; [reflexivity |].
    unfold reportsFailure. cbn. split_and!; reflexivity.
  - intros response w1 handled thrown -> -> error Hthrown Haccepted.
    cbn [fst snd messages toolsUsed] in *.
    destruct Hthrown as [-> | [-> Hline]]; unfold logged.
    + rewrite Haccepted. eexists. split; [reflexivity |].
      unfold reportsFailure. cbn. split_and!; reflexivity.
    + rewrite Hline, Haccepted. eexists. split; [reflexivity |].
      unfold reportsFailure. cbn. split_and!; reflexivity.
Qed.

(** On a channel that accepts every line, [executeTaskWithStreaming] always
    resolves to a task result. *)
Lemma executeTaskWithStreaming_returns (request : string)
    (options : option AgentOptions) (this : Agent) (w : World) :
  accepting channel ->
  exists result this' w',
    executeTaskWithStreaming request options this w = (Returned result, this', w').
Proof.
  intros Haccepts. unfold executeTaskWithStreaming.
  destruct (taskBody request options this w) as [[[[response | error] l] this'] w'];
    rewrite ?logged_accepting by exact Haccepts; eauto.
Qed.

(** A task result reports a failure exactly when the [try] block threw. *)
Lemma executeTaskWithStreaming_success (request : string)
    (options : option AgentOptions) (this this' : Agent) (w w' : World)
    (result : TaskResult) :
  executeTaskWithStreaming request options this w = (Returned result, this', w') ->
  match taskBody request options this w with
  | (Returned _, _, _, _) => task_success result = true
  | (Raised _, _, _, _) => task_success result = false
  end.
Proof.
  unfold executeTaskWithStreaming, logged.
  destruct (taskBody request options this w) as [[[[response | error] l] this1] w1].
  - intros [= <- _ _]. reflexivity.
  - destruct (appendLine _); intros [= <- _ _]. reflexivity.
Qed.

(** Without a callback, on a channel that accepts every line, the loops
    handle every event. *)
Lemma progress_silent (sessionId : string) (events : list Event)
    (heard : list SDKMessage) :
  accepting channel -> progress None sessionId heard events = (events, None).
Proof.
  intros Haccepts. induction events as [| event rest IH]; simpl; [reflexivity |].
  destruct event as [toolCall | toolResult]; simpl.
  - rewrite Haccepts, IH. reflexivity.
  - rewrite IH. reflexivity.
Qed.

(** A task does succeed when the client can be built, the provider resolves,
    no callback is supplied and the channel accepts every line. *)
Lemma executeTaskWithStreaming_succeeds (request : string)
    (options : option AgentOptions) (this : Agent) (w : World)
    (model : LanguageModel) (e1 : Env) :
  accepting channel ->
  options ≫= ao_onMessage = None ->
  LLMService.getModel (llmService this) (env w) = (Returned model, e1) ->
  (forall params, returns (generateText params).1) ->
  exists result this' w',
    executeTaskWithStreaming request options this w = (Returned result, this', w') /\
    task_success result = true.
Proof.
  intros Haccepts Hsilent Hmodel Hprovider.
  unfold executeTaskWithStreaming. rewrite taskBody_unfolded. cbv zeta.
  unfold serviceCall.
  match goal with
  | |- context [LLMService.generateResponse ?svc ?history ?opts w] =>
      specialize (Hprovider (LLMService.buildParams svc model history opts));
      destruct (generateText (LLMService.buildParams svc model history opts))
        as [[answer | error] elapsed] eqn:Hanswer; [| contradiction];
      rewrite (generateResponse_resolves svc history opts w model e1 answer elapsed
                 Haccepts Hmodel Hanswer)
  end.
  rewrite Hsilent, progress_silent by exact Haccepts. cbn [fst snd].
  rewrite logged_accepting by exact Haccepts. eauto.
Qed.

End TaskMessages.

(** ** [SuperDesignCodingAgent]: [query] *)

Section Query.
Context `{sdk : ProviderSdk} `{adapter : MessageAdapter} `{channel : OutputChannel}.

Import SuperDesignCodingAgent.

(** A failed task ends with an error message. *)
Lemma failed_task_ends_with_error (request : string) (options : option AgentOptions)
    (this this' : Agent) (w w' : World) (result : TaskResult) :
  executeTaskWithStreaming request options this w = (Returned result, this', w') ->
  task_success result = false ->
  exists m, last (task_messages result) = Some m /\ is_error_result m.
Proof.
  unfold executeTaskWithStreaming, logged.
  destruct (taskBody request options this w) as [[[[response | error] l] this1] w1].
  - intros [= <- _ _] Hfailed. discriminate Hfailed.
  - destruct (appendLine _); intros [= <- _ _] _. cbn [task_messages].
    eexists. split; [apply last_snoc | apply createErrorMessage_result].
Qed.

(** C4, with the output channel taken into account. [query] rejects only
    with what the output channel threw on the line its [catch] clause
    writes; with a channel that accepts that
    line it never throws. Whatever method [this.executeTaskWithStreaming]
    resolves to: when the first line is accepted and the method returns a
    task result, [query] returns that result's messages; when the channel
    throws on the first line or the method throws, and the channel accepts
    the line of the [catch] clause, [query] returns a list made of one error
    message (result-typed, with the error subtype). For the
    [SuperDesignCodingAgent] itself, the list [query] returns is the message
    list of a successful task or ends with an error message; on a channel
    that accepts every line [query] returns the messages of the task. *)
Theorem query_never_raises (prompt : string) (options : option AgentOptions)
    (abortController : option AbortController) (onMessage : option Callback)
    (this : Agent) (w : World) :
  let sessionId := sessionIdOf options w in
  let options' := Some (withQueryArguments options sessionId abortController onMessage) in
  (forall execute : ExecuteTask Agent,
     let run := queryVia execute prompt options abortController onMessage this w in
     (forall thrown,
        run.1.1 = Raised thrown ->
        exists error, appendLine (queryErrorLine error) = Some thrown) /\
     (forall result this' w',
        appendLine (queryLine prompt) = None ->
        execute prompt options' this w = (Returned result, this', w') ->
        run = (Returned (task_messages result), this', w')) /\
     (forall error this' w',
        (appendLine (queryLine prompt) = Some error /\ this' = this /\ w' = w) \/
        (appendLine (queryLine prompt) = None /\
         execute prompt options' this w = (Raised error, this', w')) ->
        appendLine (queryErrorLine error) = None ->
        exists m,
          run = (Returned [m], this', w') /\ last [m] = Some m /\ is_error_result m)) /\
  (forall messages,
     (query prompt options abortController onMessage this w).1.1 = Returned messages ->
     (exists result,
        (executeTaskWithStreaming prompt options' this w).1.1 = Returned result /\
        task_success result = true /\ messages = task_messages result) \/
     (exists m, last messages = Some m /\ is_error_result m)) /\
  (accepting channel ->
   exists result this' w',
     executeTaskWithStreaming prompt options' this w = (Returned result, this', w') /\
     query prompt options abortController onMessage this w =
       (Returned (task_messages result), this', w') /\
     (task_success result = false ->
      exists m, last (task_messages result) = Some m /\ is_error_result m)).
Proof.
  intros sessionId options'. split_and!.
  - intros execute run. subst run. unfold queryVia, queryCatch, logged.
    fold sessionId. fold options'. split_and!.
    + intros thrown.
      destruct (appendLine (queryLine prompt)) as [error |].
      * destruct (appendLine (queryErrorLine error)) eqn:Hline; intros [= <-]. eauto.
      * destruct (execute prompt options' this w) as [[[result | error] this'] w'];
          [discriminate |].
        destruct (appendLine (queryErrorLine error)) eqn:Hline; intros [= <-]. eauto.
    + intros result this' w' -> ->. reflexivity.
    + intros error this' w' [(-> & -> & ->) | (-> & ->)] ->;
        (eexists; split; [reflexivity |];
         split; [reflexivity | apply createErrorMessage_result]).
  - intros messages. unfold query, queryVia, queryCatch, logged.
    fold sessionId. fold options'.
    destruct (appendLine (queryLine prompt)) as [error |].
    + destruct (appendLine (queryErrorLine error)); intros [= <-].
      right. eexists. split; [reflexivity | apply createErrorMessage_result].
    + destruct (executeTaskWithStreaming prompt options' this w)
        as [[[result | error] this'] w'] eqn:Hrun; cbn [fst snd].
      * intros [= <-]. destruct (task_success result) eqn:Hsuccess.
        -- left. exists result. auto.
        -- right. exact (failed_task_ends_with_error _ _ _ _ _ _ _ Hrun Hsuccess).
      * destruct (appendLine (queryErrorLine error)); intros [= <-].
        right. eexists. split; [reflexivity | apply createErrorMessage_result].
  - intros Haccepts.
    destruct (executeTaskWithStreaming_returns prompt options' this w Haccepts)
      as (result & this' & w' & Hrun).
    exists result, this', w'. split; [exact Hrun |]. split.
    + unfold query, queryVia. fold sessionId. fold options'.
      rewrite logged_accepting, Hrun by exact Haccepts. reflexivity.
    + intros Hfailed. exact (failed_task_ends_with_error _ _ _ _ _ _ _ Hrun Hfailed).
Qed.

End Query.

(** ** [ClaudeCodeAgentWrapper] *)

Section Wrapper.
Context `{service : ClaudeCodeService} `{channel : OutputChannel}.
Hypothesis accepts : accepting channel.

(** On a channel that accepts every line, the [query] of the wrapper is the
    query of the service. *)
Lemma wrapper_query_accepting (prompt : string) (options : option AgentOptions)
    (abortController : option AbortController) (onMessage : option Callback)
    (this : ClaudeCodeAgentWrapper.t) (w : World) :
  ClaudeCodeAgentWrapper.query prompt options abortController onMessage this w =
    match service_query prompt options abortController onMessage w with
    | (Returned messages, w1) => (Returned messages, this, w1)
    | (Raised error, w1) => (Raised error, this, w1)
    end.
Proof.
  unfold ClaudeCodeAgentWrapper.query, ClaudeCodeAgentWrapper.queryCatch.
  rewrite logged_accepting by exact accepts.
  destruct (service_query _ _ _ _ w) as [[messages | error] w1]; [reflexivity |].
  rewrite logged_accepting by exact accepts. reflexivity.
Qed.


End Wrapper.

(** ** The stored references across a conversation *)

Section Frame.
Context `{sdk : ProviderSdk} `{adapter : MessageAdapter} `{channel : OutputChannel}.

Import SuperDesignCodingAgent.

(** The stored references stay valid across [continueConversation]. *)
Lemma sessionsAllocated_continueConversation (message conversationId : string)
    (options : option AgentOptions) (this : Agent) (w : World) :
  sessionsAllocated this w ->
  forall outcome this' w',
    continueConversation message conversationId options this w = (outcome, this', w') ->
    sessionsAllocated this' w'.
Proof.
  intros Hwf outcome this' w'.
  unfold continueConversation, BaseAgent.continueConversation.
  destruct (sessions this !! conversationId) as [session |];
    [| intros [= _ <- <-]; exact Hwf].
  pose proof (sessionsAllocated_update session (BaseAgent.touch (clock w)) this w Hwf)
    as Htouched.
  destruct (executeTaskWithStreaming _ _ this _) as [[[result | error] this2] w2] eqn:Hrun;
    apply executeTaskWithStreaming_frame in Hrun as (Hstore & Hheap & _);
    intros [= _ <- <-].
  - apply sessionsAllocated_update.
    intros id l. rewrite Hstore, Hheap. apply Htouched.
  - intros id l. rewrite Hstore, Hheap. apply Htouched.
Qed.

End Frame.

(** ** The properties on concrete runs *)

(** C1 fails for an output channel that has been disposed of: the
    service throws, and the [catch] clause of the task throws in turn when
    it writes its line, so the task rejects. *)
Lemma executeTaskWithStreaming_propagates :
  let sdk := Fixtures.scriptedSdk (Returned Fixtures.oneToolAnswer) 40 in
  let channel := Fixtures.closedChannel in
  (SuperDesignCodingAgent.executeTaskWithStreaming (adapter := Fixtures.plainAdapter)
     "do it" None Fixtures.agent (Fixtures.world 1000)).1.1 =
    Raised (new_Error "Channel has been closed").
Proof. vm_compute. reflexivity. Qed.

(** A callback that throws on the first tool-call message: the task result
    reports the failure after the three messages built so far. *)
Lemma executeTaskWithStreaming_catches_witness :
  let sdk := Fixtures.scriptedSdk (Returned Fixtures.oneToolAnswer) 40 in
  let channel := Fixtures.quietChannel in
  let options :=
    Some (Fixtures.optionsWith (Some Fixtures.failingCallback) (Some "s1")) in
  exists result,
    (SuperDesignCodingAgent.executeTaskWithStreaming (adapter := Fixtures.plainAdapter)
       "do it" options Fixtures.agent (Fixtures.world 1000)).1.1 = Returned result /\
    task_success result = false /\
    task_error result = Some "listener failed" /\
    map sdk_type (task_messages result) =
      [TypeUser; TypeAssistant; TypeAssistant; TypeResult] /\
    map sdk_subtype (task_messages result) =
      [None; None; Some "tool_call"; Some "error"] /\
    task_toolsUsed result = ["write"].
Proof.
  intros sdk channel options.
  destruct (executeTaskWithStreaming_catches (adapter := Fixtures.plainAdapter)
              "do it" options Fixtures.agent (Fixtures.world 1000))
    as (_ & _ & Hloops).
  destruct (Hloops (LLMService.toResponse Fixtures.oneToolAnswer)
              (advance 40 (set_env ∅ (Fixtures.world 1000)))
              [ToolCalled Fixtures.writeCall] (Some (new_Error "listener failed"))
              ltac:(vm_compute; reflexivity) ltac:(vm_compute; reflexivity)
              (new_Error "listener failed") (or_introl eq_refl) eq_refl)
    as (result & Hrun & Hfailed & Herror & _ & Hmessages & Htools).
  exists result. split; [exact Hrun |]. split; [exact Hfailed |].
  split; [exact Herror |]. rewrite Hmessages, Htools. split_and!; reflexivity.
Defined.

(** One tool call resolved in one step: user, assistant, tool call, tool
    result. *)
Lemma executeTaskWithStreaming_message_order_witness :
  let sdk := Fixtures.scriptedSdk (Returned Fixtures.oneToolAnswer) 40 in
  let channel := Fixtures.quietChannel in
  exists result this' w',
    SuperDesignCodingAgent.executeTaskWithStreaming (adapter := Fixtures.plainAdapter)
      "do it" None Fixtures.agent (Fixtures.world 1000) =
      (Returned result, this', w') /\
    map sdk_type (task_messages result) =
      [TypeUser; TypeAssistant; TypeAssistant; TypeResult] /\
    map sdk_subtype (task_messages result) =
      [None; None; Some "tool_call"; Some "tool_result"] /\
    task_toolsUsed result = ["write"].
Proof.
  intros sdk channel.
  destruct (SuperDesignCodingAgent.executeTaskWithStreaming
              (adapter := Fixtures.plainAdapter)
              "do it" None Fixtures.agent (Fixtures.world 1000))
    as [[[result | error] this'] w'] eqn:Hrun.
  - assert (Hsuccess : task_success result = true).
    { vm_compute in Hrun. injection Hrun as <- _ _. reflexivity. }
    destruct (executeTaskWithStreaming_message_order
                (adapter := Fixtures.plainAdapter)
                "do it" None Fixtures.agent this' (Fixtures.world 1000) w' result
                Hrun Hsuccess)
      as (params & answer & elapsed & Hanswer & _ & Hmessages & _ & Htools).
    simpl in Hanswer. injection Hanswer as <- <-.
    exists result, this', w'. split; [reflexivity |].
    rewrite Hmessages, Htools. split_and!; reflexivity.
  - vm_compute in Hrun. discriminate Hrun.
Defined.

(** C4 fails for an output channel that has been disposed of: the
    first line of [query] throws, and so does the line of its [catch]
    clause, so [query] rejects. *)
Lemma query_propagates :
  let sdk := Fixtures.scriptedSdk (Returned Fixtures.oneToolAnswer) 40 in
  let channel := Fixtures.closedChannel in
  SuperDesignCodingAgent.query (adapter := Fixtures.plainAdapter)
    "do it" None None None Fixtures.agent (Fixtures.world 1000) =
    (Raised (new_Error "Channel has been closed"), Fixtures.agent, Fixtures.world 1000).
Proof. vm_compute. reflexivity. Qed.

(** The provider rejects with "rate limited": [query] returns the user
    message followed by the error message. *)
Lemma query_never_raises_witness :
  let sdk := Fixtures.scriptedSdk (Raised (new_Error "rate limited")) 5 in
  let channel := Fixtures.quietChannel in
  exists result this' w',
    SuperDesignCodingAgent.query (adapter := Fixtures.plainAdapter)
      "do it" None None None Fixtures.agent (Fixtures.world 1000) =
      (Returned (task_messages result), this', w') /\
    task_success result = false /\
    exists m, last (task_messages result) = Some m /\ is_error_result m.
Proof.
  intros sdk channel.
  destruct (query_never_raises (adapter := Fixtures.plainAdapter)
              "do it" None None None Fixtures.agent (Fixtures.world 1000))
    as (_ & _ & Hreturns).
  destruct (Hreturns (fun line => eq_refl))
    as (result & this' & w' & Hrun & Hquery & Hlast).
  exists result, this', w'. split; [exact Hquery |].
  assert (Hfailed : task_success result = false).
  { vm_compute in Hrun. injection Hrun as <- _ _. reflexivity. }
  split; [exact Hfailed | exact (Hlast Hfailed)].
Defined.

(** An id that was never passed to [getSession]. *)
Lemma continueConversation_unknown_session_witness :
  let sdk := Fixtures.scriptedSdk (Returned Fixtures.oneToolAnswer) 40 in
  let channel := Fixtures.quietChannel in
  exists this' w',
    SuperDesignCodingAgent.continueConversation (adapter := Fixtures.plainAdapter)
      "hello" "missing" None Fixtures.agent (Fixtures.world 1000) =
      (Raised (new_Error "Session missing not found"), this', w') /\
    this' = Fixtures.agent /\ w' = Fixtures.world 1000 /\
    sessions this' = sessions Fixtures.agent /\
    sessions this' !! "missing" = None.
Proof.
  intros sdk channel.
  apply (continueConversation_unknown_session
           (SuperDesignCodingAgent.executeTaskWithStreaming
              (adapter := Fixtures.plainAdapter))
           "hello" "missing" None Fixtures.agent (Fixtures.world 1000)).
  reflexivity.
Defined.

(** With [maxAge = 1000] at time 5000: the session last active at 3999 is
    removed, the one last active at 4001 is retained. *)
Lemma cleanupSessions_evicts_exactly_witness :
  let this' := BaseAgent.cleanupSessions (Some 1000) Fixtures.agedAgent Fixtures.agedWorld in
  sessionOf Fixtures.agedAgent Fixtures.agedWorld "old" = Some (Fixtures.sessionAt "old" 3999) /\
  sessionOf this' Fixtures.agedWorld "old" = None /\
  sessionOf this' Fixtures.agedWorld "recent" = Some (Fixtures.sessionAt "recent" 4001).
Proof.
  intros this'.
  destruct (cleanupSessions_evicts_exactly (Some 1000) Fixtures.agedAgent
              Fixtures.agedWorld "old" (Fixtures.sessionAt "old" 3999) eq_refl)
    as (_ & _ & Hold & _).
  destruct (cleanupSessions_evicts_exactly (Some 1000) Fixtures.agedAgent
              Fixtures.agedWorld "recent" (Fixtures.sessionAt "recent" 4001) eq_refl)
    as (_ & _ & _ & Hrecent & _).
  split; [reflexivity |]. split; [apply Hold | apply Hrecent]; reflexivity.
Defined.


(** The constructors on the example configuration, and a first retrieval of
    a session followed by a second one. *)
Example new_agent :
  SuperDesignCodingAgent.new (channel := Fixtures.quietChannel) Fixtures.agentConfig =
    Returned Fixtures.agent.
Proof. reflexivity. Qed.

Example new_wrapper :
  ClaudeCodeAgentWrapper.new (channel := Fixtures.quietChannel) None =
    Returned Fixtures.wrapper.
Proof. reflexivity. Qed.

Example getSession_then_getSession :
  let '(first, this1, w1) :=
    BaseAgent.getSession "session-1" "/workspace" Fixtures.agent (Fixtures.world 1000) in
  let '(second, this2, w2) := BaseAgent.getSession "session-1" "/elsewhere" this1 w1 in
  first = 0%nat /\ second = 0%nat /\ length (heap w2) = 1%nat /\
  sess_projectPath <$> sessionOf this2 w2 "session-1" = Some "/workspace".
Proof. vm_compute. auto. Qed.

Example wrapper_getSession_then_getSession :
  let '(first, this1, w1) :=
    ClaudeCodeAgentWrapper.getSession "session-1" "/workspace"
      Fixtures.wrapper (Fixtures.world 1000) in
  let '(second, this2, w2) :=
    ClaudeCodeAgentWrapper.getSession "session-1" "/workspace" this1 w1 in
  first = 0%nat /\ second = 1%nat /\ length (heap w2) = 2%nat.
Proof. vm_compute. auto. Qed.

(** * Further properties of the code *)

(** ** [LLMService]: the environment and the errors of a generation *)

Section ServiceEdges.
Context `{sdk : ProviderSdk} `{channel : OutputChannel}.

Lemma with_env_key_other (slot key : string)
    (factory : Env -> option string -> Outcome LanguageModel)
    (provider : LLMProvider) (e : Env) :
  slot <> key ->
  (LLMService.with_env_key slot factory provider e).2 !! key = e !! key.
Proof.
  intros Hother. unfold LLMService.with_env_key.
  destruct (factory _ _) as [model | error]; simpl.
  - destruct (e !! slot) as [original |].
    + destruct (truthy original).
      * rewrite insert_insert_eq. apply lookup_insert_ne. exact Hother.
      * rewrite delete_insert_eq. apply lookup_delete_ne. exact Hother.
    + rewrite delete_insert_eq. apply lookup_delete_ne. exact Hother.
  - apply lookup_insert_ne. exact Hother.
Qed.

(** X1. Whatever it returns or throws, [getModel] leaves every environment
    variable other than the configured provider's own slot as it was; for
    openrouter, for an unknown provider and for a configuration without a
    provider that is the whole environment. *)
Theorem getModel_touches_only_its_slot (this : LLMService.t) (e : Env) (key : string) :
  (forall provider,
     cfg_provider (LLMService.config this) = Some provider ->
     credentialSlot (prov_name provider) <> Some key) ->
  (LLMService.getModel this e).2 !! key = e !! key.
Proof.
  unfold LLMService.getModel. intros Hother.
  destruct (cfg_provider (LLMService.config this)) as [provider |]; [| reflexivity].
  specialize (Hother provider eq_refl). revert Hother.
  unfold credentialSlot, LLMService.modelFor. intros Hother.
  destruct (String.eqb (prov_name provider) "openai").
  { apply with_env_key_other. congruence. }
  destruct (String.eqb (prov_name provider) "anthropic").
  { apply with_env_key_other. congruence. }
  destruct (String.eqb (prov_name provider) "google").
  { apply with_env_key_other. congruence. }
  destruct (String.eqb (prov_name provider) "openrouter"); reflexivity.
Qed.


Lemma getModel_unsupported (this : LLMService.t) (provider : LLMProvider) (e : Env) :
  cfg_provider (LLMService.config this) = Some provider ->
  ~ supportedProvider (prov_name provider) ->
  LLMService.getModel this e =
    (Raised (new_Error ("Unsupported provider: " +:+ prov_name provider)), e).
Proof.
  unfold supportedProvider, LLMService.getModel, LLMService.modelFor.
  intros -> Hunknown.
  destruct (String.eqb_spec (prov_name provider) "openai"); [tauto |].
  destruct (String.eqb_spec (prov_name provider) "anthropic"); [tauto |].
  destruct (String.eqb_spec (prov_name provider) "google"); [tauto |].
  destruct (String.eqb_spec (prov_name provider) "openrouter"); [tauto |].
  reflexivity.
Qed.

(** X3. The provider name is not checked at construction: a descriptor with
    a key and a model is accepted whatever its name. For a name outside
    openai, anthropic, google and openrouter every generation then fails
    with "Failed to generate response: Error: Unsupported provider: <name>"
    and leaves the world as it was. The output channel is one that accepts
    every line. *)
Theorem unsupported_provider_fails_at_generation (cfg : LLMServiceConfig)
    (provider : LLMProvider) (messages : list ConversationMessage)
    (options : option GenerateOptions) (w : World) :
  accepting channel ->
  cfg_provider cfg = Some provider ->
  validDescriptor provider ->
  ~ supportedProvider (prov_name provider) ->
  exists this,
    LLMService.new cfg = Returned this /\
    LLMService.generateResponse this messages options w =
      (Raised (new_Error ("Failed to generate response: Error: Unsupported provider: "
                          +:+ prov_name provider)), w).
Proof.
  intros Haccepts Hprovider Hvalid Hunknown. exists {| LLMService.config := cfg |}. split.
  - unfold LLMService.new.
    rewrite (validateConfig_valid Haccepts _ provider) by assumption. reflexivity.
  - unfold LLMService.generateResponse, LLMService.generateBody,
      LLMService.providerLabel.
    cbn [LLMService.config]. rewrite Hprovider.
    rewrite logged_accepting by exact Haccepts.
    rewrite (getModel_unsupported _ provider) by assumption.
    rewrite logged_accepting by exact Haccepts. destruct w; reflexivity.
Qed.

(** X4. What [generateResponse] throws is determined by the first exception
    of its [try] block, the cause: it is
    [Error("Failed to generate response: " + cause)] when the channel
    accepts the line the [catch] clause writes, and otherwise what the
    channel threw on that line. The cause is what [getModel] threw, or what
    the provider's [generateText] threw on the parameters built from the
    arguments, or what the channel threw on a line.
    [generateStreamingResponse] does the same with "Failed to start
    streaming response: " and [streamText]. *)
Theorem generation_errors_are_wrapped (this : LLMService.t)
    (messages : list ConversationMessage) (options : option GenerateOptions)
    (w w' : World) (error : Thrown) :
  (LLMService.generateResponse this messages options w = (Raised error, w') ->
   exists cause,
     error =
       match appendLine ("Error generating response: " +:+ to_string cause) with
       | Some thrown => thrown
       | None => new_Error ("Failed to generate response: " +:+ to_string cause)
       end /\
     ((LLMService.getModel this (env w)).1 = Raised cause \/
      (exists model e1,
         LLMService.getModel this (env w) = (Returned model, e1) /\
         (generateText (LLMService.buildParams this model messages options)).1
           = Raised cause) \/
      (exists line, appendLine line = Some cause))) /\
  (LLMService.generateStreamingResponse this messages options w = (Raised error, w') ->
   exists cause,
     error =
       match appendLine ("Error starting streaming response: " +:+ to_string cause) with
       | Some thrown => thrown
       | None => new_Error ("Failed to start streaming response: " +:+ to_string cause)
       end /\
     ((LLMService.getModel this (env w)).1 = Raised cause \/
      (exists model e1,
         LLMService.getModel this (env w) = (Returned model, e1) /\
         streamText (LLMService.buildParams this model messages options) = Raised cause) \/
      (exists line, appendLine line = Some cause))).
Proof.
  split.
  - unfold LLMService.generateResponse. intros Hrun.
    assert (Hbody : exists cause w1,
              LLMService.generateBody this messages options w = (Raised cause, w1)).
    { destruct (LLMService.generateBody this messages options w) as [[r | cause] w1];
        [discriminate | eauto]. }
    destruct Hbody as (cause & w1 & Hbody). rewrite Hbody in Hrun.
    exists cause. split.
    { unfold logged in Hrun. destruct (appendLine _); congruence. }
    clear Hrun. revert Hbody.
    unfold LLMService.generateBody, LLMService.providerLabel, LLMService.getModel, logged.
    destruct (cfg_provider (LLMService.config this)) as [provider |];
      [| intros [= <- _]; left; reflexivity].
    destruct (appendLine ("Generating response with " +:+ _)) eqn:Hline1;
      [intros [= <- _]; right; right; eauto |].
    destruct (LLMService.modelFor provider (env w)) as [[model | error'] e1];
      [| intros [= <- _]; left; reflexivity].
    destruct (appendLine (LLMService.toolsLine _)) eqn:Hline2;
      [intros [= <- _]; right; right; eauto |].
    destruct (appendLine ("[DEBUG] MaxSteps: " +:+ _)) eqn:Hline3;
      [intros [= <- _]; right; right; eauto |].
    destruct (generateText _) as [[result | error'] elapsed] eqn:Hgen.
    + destruct (appendLine ("Response generated: " +:+ _)) eqn:Hline4;
        [intros [= <- _]; right; right; eauto |].
      destruct (appendLine ("Tools executed: " +:+ _)) eqn:Hline5;
        [intros [= <- _]; right; right; eauto | discriminate].
    + intros [= <- _]. right. left. exists model, e1.
      split; [reflexivity |]. rewrite Hgen. reflexivity.
  - unfold LLMService.generateStreamingResponse. intros Hrun.
    assert (Hbody : exists cause w1,
              LLMService.streamingBody this messages options w = (Raised cause, w1)).
    { destruct (LLMService.streamingBody this messages options w) as [[r | cause] w1];
        [discriminate | eauto]. }
    destruct Hbody as (cause & w1 & Hbody). rewrite Hbody in Hrun.
    exists cause. split.
    { unfold logged in Hrun. destruct (appendLine _); congruence. }
    clear Hrun. revert Hbody.
    unfold LLMService.streamingBody, LLMService.providerLabel, LLMService.getModel, logged.
    destruct (cfg_provider (LLMService.config this)) as [provider |];
      [| intros [= <- _]; left; reflexivity].
    destruct (appendLine ("Starting streaming response with " +:+ _)) eqn:Hline1;
      [intros [= <- _]; right; right; eauto |].
    destruct (LLMService.modelFor provider (env w)) as [[model | error'] e1];
      [| intros [= <- _]; left; reflexivity].
    destruct (streamText _) as [fragments | error'] eqn:Hstream; [discriminate |].
    intros [= <- _]. right. left. exists model, e1. split; [reflexivity | exact Hstream].
Qed.

(** ** [LLMService]: the parameters of a generation *)

Lemma or_default_truthy {A} `{Truthy A} (a : option A) (d : A) :
  truthy d = true -> truthy (or_default a d) = true.
Proof.
  intros Hd. unfold or_default. destruct a as [v |]; [| exact Hd].
  destruct (truthy v) eqn:Hv; [exact Hv | exact Hd].
Qed.

Lemma or_default_nonzero (a : option Z) (d : Z) : d <> 0 -> or_default a d <> 0.
Proof.
  intros Hd Hzero.
  assert (Htruthy : truthy (or_default a d) = true).
  { apply or_default_truthy. unfold truthy, truthy_Z.
    destruct (Z.eqb_spec d 0); [contradiction | reflexivity]. }
  change (negb (Z.eqb (or_default a d) 0) = true) in Htruthy.
  rewrite Hzero in Htruthy. discriminate Htruthy.
Qed.

Lemma or_default_nonzero_Q (a : option Q) (d : Q) :
  ~ (d == 0)%Q -> ~ (or_default a d == 0)%Q.
Proof.
  intros Hd Hzero.
  assert (Htruthy : truthy (or_default a d) = true).
  { apply or_default_truthy. unfold truthy, truthy_Q.
    destruct (Qeq_bool d (0 # 1)) eqn:Hq; [| reflexivity].
    apply Qeq_bool_iff in Hq. contradiction. }
  change (negb (Qeq_bool (or_default a d) (0 # 1)) = true) in Htruthy.
  apply Qeq_bool_iff in Hzero. rewrite Hzero in Htruthy. discriminate Htruthy.
Qed.


(** X6. The provider never receives an empty tool set; and a tool set given
    in the options, even an empty one, takes the place of the configured
    tools. *)
Theorem generation_tools_never_empty (this : LLMService.t) (model : LanguageModel)
    (messages : list ConversationMessage) (options : option GenerateOptions) :
  let params := LLMService.buildParams this model messages options in
  (forall tools, gp_tools params = Some tools -> toolEntries tools <> []) /\
  (forall requested,
     options ≫= go_tools = Some requested ->
     gp_tools params = if decide (toolEntries requested = []) then None else Some requested).
Proof.
  simpl. unfold LLMService.requestedTools. split.
  - intros tools. destruct (options ≫= go_tools) as [[items | keys] |];
      [| | destruct (cfg_tools (LLMService.config this)) as [[items | keys] |]];
      simpl; try discriminate;
      (destruct items as [| ? ?] || destruct keys as [| ? ?]); simpl;
      try discriminate; intros [= <-]; discriminate.
  - intros requested ->. destruct requested as [[| ? ?] | [| ? ?]]; reflexivity.
Qed.

(** X7. The flat lists of a response are the tool calls and the tool
    results of the steps of the answer the provider gave to this request,
    themselves, in step order and in their order within each step: nothing
    is dropped, added or reordered; and [steps] are those steps. *)
Theorem generateResponse_flat_lists_in_order (this : LLMService.t)
    (messages : list ConversationMessage) (options : option GenerateOptions)
    (w w' : World) (response : LLMResponse) :
  LLMService.generateResponse this messages options w = (Returned response, w') ->
  exists model e1 answer elapsed,
    LLMService.getModel this (env w) = (Returned model, e1) /\
    generateText (LLMService.buildParams this model messages options)
      = (Returned answer, elapsed) /\
    let steps := default [] (gt_steps answer) in
    resp_steps response = Some steps /\
    resp_toolCalls response =
      Some (concat (map (fun step => default [] (step_toolCalls step)) steps)) /\
    resp_toolResults response =
      Some (concat (map (fun step => default [] (step_toolResults step)) steps)).
Proof.
  intros Hreturned.
  apply generateResponse_returned in Hreturned
    as (model & e1 & answer & elapsed & Hmodel & Hanswer & -> & _).
  exists model, e1, answer, elapsed.
  split; [exact Hmodel |]. split; [exact Hanswer |]. apply toResponse_flat.
Qed.

(** ** [LLMService]: reconfiguration *)

Lemma mergeConfig_twice (cfg : LLMServiceConfig) (newConfig : PartialConfig) :
  LLMService.mergeConfig (LLMService.mergeConfig cfg newConfig) newConfig =
  LLMService.mergeConfig cfg newConfig.
Proof.
  unfold LLMService.mergeConfig. simpl.
  destruct (pc_provider newConfig), (pc_maxTokens newConfig),
    (pc_temperature newConfig), (pc_tools newConfig), (pc_systemPrompt newConfig);
    reflexivity.
Qed.

(** X8. An [updateConfig] whose argument has no [provider] key keeps the
    provider descriptor; on a service whose descriptor is valid it fails
    only when the channel throws on the line the validation writes, with
    what the channel threw. An [updateConfig] whose argument has the key
    [provider] with the value [undefined] throws a [TypeError] and leaves
    the service without a descriptor, so that [getModel] throws a
    [TypeError] from then on. *)
Theorem updateConfig_without_provider (newConfig : PartialConfig) (this : LLMService.t) :
  (pc_provider newConfig = None ->
   cfg_provider (LLMService.getConfig (LLMService.updateConfig newConfig this).2) =
     cfg_provider (LLMService.getConfig this) /\
   forall provider,
     cfg_provider (LLMService.config this) = Some provider ->
     validDescriptor provider ->
     (LLMService.updateConfig newConfig this).1 =
       match appendLine ("LLMService initialized with " +:+ prov_name provider +:+ "/" +:+
                         show (prov_model provider)) with
       | Some thrown => Raised thrown
       | None => Returned tt
       end) /\
  (pc_provider newConfig = Some None ->
   (LLMService.updateConfig newConfig this).1 = Raised (reading_undefined "apiKey") /\
   cfg_provider (LLMService.getConfig (LLMService.updateConfig newConfig this).2) = None /\
   forall e,
     LLMService.getModel (LLMService.updateConfig newConfig this).2 e =
       (Raised (reading_undefined "name"), e)).
Proof.
  unfold LLMService.updateConfig, LLMService.getConfig. cbn [fst snd LLMService.config].
  split.
  - intros Habsent. split.
    + unfold LLMService.mergeConfig. cbn. rewrite Habsent. reflexivity.
    + intros provider Hprovider Hvalid.
      apply validateConfig_line; [| exact Hvalid].
      unfold LLMService.mergeConfig. cbn. rewrite Habsent. exact Hprovider.
  - intros Hundefined.
    assert (Hnone : cfg_provider
                      (LLMService.mergeConfig (LLMService.config this) newConfig) = None).
    { unfold LLMService.mergeConfig. cbn. rewrite Hundefined. reflexivity. }
    split_and!.
    + apply validateConfig_undefined. exact Hnone.
    + exact Hnone.
    + intros e. unfold LLMService.getModel. cbn [LLMService.config].
      rewrite Hnone. reflexivity.
Qed.

(** X9. Applying the same reconfiguration a second time changes nothing and
    has the same outcome as the first time. *)
Theorem updateConfig_idempotent (newConfig : PartialConfig) (this : LLMService.t) :
  LLMService.updateConfig newConfig (LLMService.updateConfig newConfig this).2 =
  LLMService.updateConfig newConfig this.
Proof.
  unfold LLMService.updateConfig. simpl. rewrite mergeConfig_twice. reflexivity.
Qed.

End ServiceEdges.

(** ** [SuperDesignCodingAgent]: construction *)

(** X10. The agent is built exactly when its provider descriptor has a
    non-empty key and model; otherwise the constructor throws the service's
    configuration error. A built agent is ready, has no session and no
    history, works in the configured directory, and its service is
    configured with a non-zero token limit and an empty tool list. The
    output channel is one that accepts the lines the constructors write. *)
Theorem agent_construction `{channel : OutputChannel} (cfg : AgentConfig) :
  accepting channel ->
  (validDescriptor (descriptorOf cfg) ->
   exists this,
     SuperDesignCodingAgent.new cfg = Returned this /\
     BaseAgent.isReady this = true /\
     sessions this = ∅ /\ conversationHistory this = ∅ /\
     BaseAgent.getWorkingDirectory this = workingDirectory cfg /\
     cfg_provider (LLMService.getConfig (llmService this)) = Some (descriptorOf cfg) /\
     cfg_maxTokens (LLMService.getConfig (llmService this)) <> Some 0 /\
     cfg_tools (LLMService.getConfig (llmService this)) = Some (ToolArray [])) /\
  (~ validDescriptor (descriptorOf cfg) ->
   exists e,
     SuperDesignCodingAgent.new cfg = Raised e /\
     configurationError (ls_provider (llmConfig cfg)) e).
Proof.
  intros Haccepts. unfold SuperDesignCodingAgent.new, LLMService.new. split.
  - intros Hvalid.
    match goal with
    | |- context [LLMService.validateConfig ?svc] =>
        rewrite (validateConfig_valid Haccepts svc (descriptorOf cfg) eq_refl Hvalid)
    end.
    rewrite logged_accepting by exact Haccepts.
    eexists. split; [reflexivity |]. simpl. split_and!; try reflexivity.
    intros [= Hzero]. exact (or_default_nonzero _ 4000 ltac:(discriminate) Hzero).
  - intros Hinvalid.
    match goal with
    | |- context [LLMService.validateConfig ?svc] =>
        destruct (validateConfig_invalid svc (descriptorOf cfg) eq_refl Hinvalid)
          as (e & -> & Herr)
    end.
    exists e. split; [reflexivity | exact Herr].
Qed.

(** ** [SuperDesignCodingAgent]: what a task changes *)

Section TaskEffects.
Context `{sdk : ProviderSdk} `{adapter : MessageAdapter} `{channel : OutputChannel}.

Import SuperDesignCodingAgent.

(** X11. A task appends to the history of its session, and only to that
    one: afterwards the session's history is what it was, followed by the
    request and, when the service returned a response, by the text the
    provider answered to this request if it is not empty, stamped with the
    time of the answer. When the call of the service fails, only the
    request is added. This holds whether or not the task then succeeds:
    the request of a failed task stays in the history. *)
Theorem task_appends_to_history (request : string) (options : option AgentOptions)
    (this : Agent) (w : World) :
  let sid := sessionIdOf options w in
  let history := historyOf request options this w in
  let '(outcome, this', w') := executeTaskWithStreaming request options this w in
  (forall other, other <> sid ->
     conversationHistory this' !! other = conversationHistory this !! other) /\
  match serviceCall request options this w with
  | (Raised _, _) => conversationHistory this' !! sid = Some history
  | (Returned response, w1) =>
      exists params answer elapsed,
        generateText params = (Returned answer, elapsed) /\
        gp_messages params = promptOf request options this w /\
        response = LLMService.toResponse answer /\
        conversationHistory this' !! sid =
          Some (history ++
                if truthy (gt_text answer)
                then [{| cm_role := RoleAssistant; cm_content := gt_text answer;
                         cm_timestamp := Some (clock w + elapsed) |}]
                else [])
  end.
Proof.
  intros sid history.
  unfold executeTaskWithStreaming. rewrite taskBody_unfolded. cbv zeta.
  fold sid. fold history.
  destruct (serviceCall request options this w) as [[response | error] w1] eqn:Hcall.
  - apply serviceCall_returned in Hcall
      as (params & answer & elapsed & Hanswer & Hprompt & -> & Hclock & _ & _).
    cbn [LLMService.toResponse resp_content]. rewrite Hclock.
    assert (Hstate :
      let this2 :=
        if truthy (gt_text answer) then
          set_history
            (<[sid := history ++ [{| cm_role := RoleAssistant;
                                     cm_content := gt_text answer;
                                     cm_timestamp := Some (clock w + elapsed) |}]]>
               (conversationHistory
                  (set_history (<[sid := history]> (conversationHistory this)) this)))
            (set_history (<[sid := history]> (conversationHistory this)) this)
        else set_history (<[sid := history]> (conversationHistory this)) this in
      (forall other, other <> sid ->
         conversationHistory this2 !! other = conversationHistory this !! other) /\
      conversationHistory this2 !! sid =
        Some (history ++
              if truthy (gt_text answer)
              then [{| cm_role := RoleAssistant; cm_content := gt_text answer;
                       cm_timestamp := Some (clock w + elapsed) |}]
              else [])).
    { destruct (truthy (gt_text answer)); cbn; split.
      - intros other Hother. rewrite !lookup_insert_ne by congruence. reflexivity.
      - apply lookup_insert_eq.
      - intros other Hother. rewrite lookup_insert_ne by congruence. reflexivity.
      - rewrite app_nil_r. apply lookup_insert_eq. }
    cbv zeta in Hstate. destruct Hstate as [Hothers Hsession].
    destruct (progress _ _ _ _) as [handled [error |]]; cbn [fst snd];
      unfold logged; repeat destruct (appendLine _);
      (split; [exact Hothers | exists params, answer, elapsed; auto]).
  - unfold logged; repeat destruct (appendLine _); cbn; split;
      try (intros other Hother; apply lookup_insert_ne; congruence);
      apply lookup_insert_eq.
Qed.

(** X12. A task changes nothing of the agent but the conversation history:
    the session store, the configuration (hence the working directory), the
    service and the readiness flag are as before, and so are the session
    objects. *)
Theorem task_leaves_agent_alone (request : string) (options : option AgentOptions)
    (this : Agent) (w : World) :
  let '(outcome, this', w') := executeTaskWithStreaming request options this w in
  sessions this' = sessions this /\ config this' = config this /\
  llmService this' = llmService this /\
  isInitializedFlag this' = isInitializedFlag this /\
  heap w' = heap w.
Proof.
  destruct (executeTaskWithStreaming request options this w)
    as [[outcome this'] w'] eqn:Hrun.
  apply executeTaskWithStreaming_frame in Hrun
    as (Hsessions & Hheap & Hconfig & Hservice & Hflag).
  auto.
Qed.

(** X13. The callback of a task hears exactly the messages of the tool
    calls and tool results that the loops handle, each once and in the
    order of the steps of the provider's answer (including the one on which
    it throws); it never hears the user message, the assistant message or
    the final error message, and nothing when the call of the service
    fails. The messages of the result are the user message, the assistant
    message (when the provider's text is not empty), the messages of the
    events handled and, for a failure, the error message. Without a
    callback nothing is delivered. *)
Theorem callback_hears_the_tool_messages (request : string)
    (options : option AgentOptions) (this : Agent) (w : World) :
  let sid := sessionIdOf options w in
  let onMessage := options ≫= ao_onMessage in
  let '(outcome, this', w') := executeTaskWithStreaming request options this w in
  match serviceCall request options this w with
  | (Raised _, _) =>
      delivered w' = delivered w /\
      forall result,
        outcome = Returned result ->
        task_messages result =
          [createUserMessage request sid;
           createErrorMessage (ThrownValue (default "" (task_error result))) sid]
  | (Returned response, w1) =>
      exists params answer elapsed,
        generateText params = (Returned answer, elapsed) /\
        gp_messages params = promptOf request options this w /\
        response = LLMService.toResponse answer /\
        let '(handled, thrown) :=
          progress onMessage sid (delivered w) (eventsOf (default [] (gt_steps answer))) in
        delivered w' = delivered w ++ heard onMessage (map (eventMessage sid) handled) /\
        forall result,
          outcome = Returned result ->
          task_messages result =
            createUserMessage request sid ::
            assistantPart sid (gt_text answer) elapsed ++
            map (eventMessage sid) handled ++
            (if task_success result then []
             else [createErrorMessage (ThrownValue (default "" (task_error result))) sid])
  end.
Proof.
  intros sid onMessage.
  unfold executeTaskWithStreaming. rewrite taskBody_unfolded. cbv zeta.
  fold sid. fold onMessage.
  destruct (serviceCall request options this w) as [[response | error] w1] eqn:Hcall.
  - apply serviceCall_returned in Hcall
      as (params & answer & elapsed & Hanswer & Hprompt & -> & Hclock & _ & Hdelivered).
    cbn [LLMService.toResponse resp_content resp_steps default from_option id].
    replace (clock w1 - clock w) with elapsed by lia.
    destruct (progress onMessage sid (delivered w) _) as [handled thrown] eqn:Hprogress.
    cbn [fst snd].
    destruct thrown as [error |]; unfold logged; repeat destruct (appendLine _);
      exists params, answer, elapsed;
      (split; [exact Hanswer |]); (split; [exact Hprompt |]);
      (split; [reflexivity |]);
      rewrite Hprogress; cbn [hears delivered]; rewrite Hdelivered;
      (split; [reflexivity |]);
      intros result [= <-]; cbn; rewrite <- ?app_assoc, ?app_nil_r; reflexivity.
  - assert (Hdelivered : delivered w1 = delivered w).
    { pose proof (generateResponse_world (llmService this)
                    (historyOf request options this w)
                    (Some (serviceOptions options this w)) w) as [H _].
      unfold serviceCall in Hcall. rewrite Hcall in H. exact H. }
    unfold logged; repeat destruct (appendLine _); cbn [fst snd];
      (split; [exact Hdelivered |]); intros result [= <-]; reflexivity.
Qed.

End TaskEffects.

(** ** [SuperDesignCodingAgent]: the tools used and the failure of the provider *)

Lemma elem_of_set_insert (x y : string) (seen : list string) :
  y ∈ set_insert x seen <-> y = x \/ y ∈ seen.
Proof.
  induction seen as [| z seen IH]; simpl.
  - rewrite list_elem_of_singleton, elem_of_nil. tauto.
  - destruct (String.eqb_spec x z) as [-> | Hne].
    + rewrite elem_of_cons. tauto.
    + rewrite !elem_of_cons, IH. tauto.
Qed.

Lemma NoDup_set_insert (x : string) (seen : list string) :
  NoDup seen -> NoDup (set_insert x seen).
Proof.
  induction seen as [| z seen IH]; simpl; intros Hnodup.
  - apply NoDup_singleton.
  - destruct (String.eqb_spec x z) as [-> | Hne]; [exact Hnodup |].
    apply NoDup_cons in Hnodup as [Hfresh Hrest].
    apply NoDup_cons. split; [| exact (IH Hrest)].
    rewrite elem_of_set_insert. intros [-> | Hin]; [congruence | contradiction].
Qed.

Lemma foldl_set_insert (l seen : list string) :
  NoDup seen ->
  NoDup (foldl (fun seen x => set_insert x seen) seen l) /\
  forall y, y ∈ foldl (fun seen x => set_insert x seen) seen l <-> y ∈ seen \/ y ∈ l.
Proof.
  revert seen. induction l as [| x l IH]; intros seen Hnodup; simpl.
  - split; [exact Hnodup | intros y; rewrite elem_of_nil; tauto].
  - destruct (IH (set_insert x seen) (NoDup_set_insert x seen Hnodup)) as [Hn Hin].
    split; [exact Hn |]. intros y. rewrite Hin, elem_of_set_insert, elem_of_cons. tauto.
Qed.

(** The list made from a set has no duplicates and the elements of the
    list it was made from. *)
Lemma set_of_list_spec (l : list string) :
  NoDup (set_of_list l) /\ forall y, y ∈ set_of_list l <-> y ∈ l.
Proof.
  destruct (foldl_set_insert l [] ltac:(constructor)) as [Hn Hin].
  split; [exact Hn |]. intros y. unfold set_of_list. rewrite Hin, elem_of_nil. tauto.
Qed.

Lemma resolveToolName_nonempty (toolCall : ToolCall) :
  SuperDesignCodingAgent.resolveToolName toolCall <> "".
Proof.
  apply truthy_string_nonempty. unfold SuperDesignCodingAgent.resolveToolName.
  apply or_default_truthy. reflexivity.
Qed.

Lemma stepToolNames_nonempty (steps : list Step) (name : string) :
  name ∈ stepToolNames steps -> name <> "".
Proof.
  unfold stepToolNames. intros Hin.
  apply list_elem_of_In, in_concat in Hin as (names & Hnames & Hname).
  apply in_map_iff in Hnames as (step & <- & _).
  apply in_map_iff in Hname as (toolCall & <- & _).
  apply resolveToolName_nonempty.
Qed.

Lemma eventNames_nonempty (events : list Event) (name : string) :
  name ∈ concat (map eventNames events) -> name <> "".
Proof.
  intros Hin. apply list_elem_of_In, in_concat in Hin as (names & Hnames & Hname).
  apply in_map_iff in Hnames as ([toolCall | toolResult] & <- & _); simpl in Hname.
  - destruct Hname as [<- | []]. apply resolveToolName_nonempty.
  - destruct Hname.
Qed.

Section ToolsUsed.
Context `{sdk : ProviderSdk} `{adapter : MessageAdapter} `{channel : OutputChannel}.

Import SuperDesignCodingAgent.

(** X14. The [toolsUsed] of a task result has no duplicates and no empty
    name (a call without a usable name counts as "unknown"); for a
    successful task its elements are exactly the names of the tool calls of
    the provider's steps. The output channel is one that accepts every
    line. *)
Theorem toolsUsed_are_the_distinct_tool_names (request : string)
    (options : option AgentOptions) (this : Agent) (w : World) :
  accepting channel ->
  let '(outcome, this', w') := executeTaskWithStreaming request options this w in
  exists result,
    outcome = Returned result /\
    NoDup (task_toolsUsed result) /\
    (forall name, name ∈ task_toolsUsed result -> name <> "") /\
    (task_success result = true ->
     exists params answer elapsed,
       generateText params = (Returned answer, elapsed) /\
       forall name,
         name ∈ task_toolsUsed result <->
         name ∈ stepToolNames (default [] (gt_steps answer))).
Proof.
  intros Haccepts.
  unfold executeTaskWithStreaming. rewrite taskBody_unfolded. cbv zeta.
  destruct (serviceCall request options this w) as [[response | error] w1] eqn:Hcall.
  - apply serviceCall_returned in Hcall
      as (params & answer & elapsed & Hanswer & _ & -> & _).
    pose proof (progress_prefix (options ≫= ao_onMessage) (sessionIdOf options w)
                  (eventsOf (default [] (resp_steps (LLMService.toResponse answer))))
                  (delivered w)) as [_ Hall].
    destruct (progress _ _ _ _) as [handled [error |]]; cbn [fst snd] in *;
      rewrite ?logged_accepting by exact Haccepts;
      (eexists; split; [reflexivity |]); cbn [task_toolsUsed task_success toolsUsed];
      destruct (set_of_list_spec (concat (map eventNames handled))) as [Hnodup Hin];
      (split; [exact Hnodup |]); split;
      try (intros name Hname; apply Hin in Hname;
           exact (eventNames_nonempty _ _ Hname));
      try discriminate.
    intros _. exists params, answer, elapsed. split; [exact Hanswer |].
    intros name. rewrite Hin, (Hall eq_refl), eventsOf_names. reflexivity.
  - rewrite logged_accepting by exact Haccepts.
    eexists. split; [reflexivity |]. cbn. split; [constructor |].
    split; [| discriminate]. intros name Hname. inversion Hname.
Qed.

(** When the client is built and the provider rejects, the service throws
    the wrapped error, on a channel that accepts every line. *)
Lemma generateResponse_rejects (this : LLMService.t)
    (messages : list ConversationMessage) (options : option GenerateOptions)
    (w : World) (model : LanguageModel) (e1 : Env) (cause : Thrown) (elapsed : Z) :
  accepting channel ->
  LLMService.getModel this (env w) = (Returned model, e1) ->
  generateText (LLMService.buildParams this model messages options)
    = (Raised cause, elapsed) ->
  LLMService.generateResponse this messages options w =
    (Raised (new_Error ("Failed to generate response: " +:+ to_string cause)),
     advance elapsed (set_env e1 w)).
Proof.
  intros Haccepts Hmodel Hgen.
  unfold LLMService.generateResponse, LLMService.generateBody,
    LLMService.providerLabel.
  destruct (cfg_provider (LLMService.config this)) as [provider |] eqn:Hprovider.
  - rewrite logged_accepting, Hmodel by exact Haccepts. cbv zeta.
    rewrite !logged_accepting, Hgen by exact Haccepts.
    rewrite logged_accepting by exact Haccepts. reflexivity.
  - unfold LLMService.getModel in Hmodel. rewrite Hprovider in Hmodel.
    discriminate Hmodel.
Qed.

(** X15. When the client is built and the provider rejects the request of
    the task, the task result reports it: [success] is false, [error] (and
    [finalMessage]) is "Failed to generate response: " followed by the text
    of the rejection, no tool is used, and the messages are the user
    message followed by the error message. The output channel is one that
    accepts every line. *)
Theorem provider_failure_is_reported (request : string) (options : option AgentOptions)
    (this : Agent) (w : World) (model : LanguageModel) (e1 : Env) (cause : Thrown)
    (elapsed : Z) :
  accepting channel ->
  LLMService.getModel (llmService this) (env w) = (Returned model, e1) ->
  generateText
    (LLMService.buildParams (llmService this) model (historyOf request options this w)
       (Some (serviceOptions options this w))) = (Raised cause, elapsed) ->
  let text := "Failed to generate response: " +:+ to_string cause in
  exists result this' w',
    executeTaskWithStreaming request options this w = (Returned result, this', w') /\
    task_success result = false /\
    task_error result = Some text /\
    task_finalMessage result = Some text /\
    task_toolsUsed result = [] /\
    task_messages result =
      [createUserMessage request (sessionIdOf options w);
       createErrorMessage (ThrownValue text) (sessionIdOf options w)].
Proof.
  intros Haccepts Hmodel Hprovider text.
  unfold executeTaskWithStreaming. rewrite taskBody_unfolded. cbv zeta.
  unfold serviceCall.
  rewrite (generateResponse_rejects _ _ _ _ _ _ _ _ Haccepts Hmodel Hprovider).
  rewrite Haccepts, logged_accepting by exact Haccepts.
  eexists _, _, _. split; [reflexivity |]. cbn. split_and!; reflexivity.
Qed.

End ToolsUsed.

(** ** Sessions *)

Section Sessions.
Context `{sdk : ProviderSdk} `{adapter : MessageAdapter} `{channel : OutputChannel}.

(** A task rejects only with what the channel threw on the line of its
    [catch] clause. *)
Lemma executeTaskWithStreaming_rejects (request : string)
    (options : option AgentOptions) (this this' : Agent) (w w' : World)
    (thrown : Thrown) :
  SuperDesignCodingAgent.executeTaskWithStreaming request options this w =
    (Raised thrown, this', w') ->
  exists text, appendLine (SuperDesignCodingAgent.failedLine text) = Some thrown.
Proof.
  unfold SuperDesignCodingAgent.executeTaskWithStreaming, logged.
  destruct (SuperDesignCodingAgent.taskBody request options this w)
    as [[[[response | error] l] this1] w1]; [discriminate |].
  destruct (appendLine _) eqn:Hline; intros [= <- _ _]. eauto.
Qed.

(** X16. [continueConversation] on a stored session of a
    [SuperDesignCodingAgent] sets the session's last activity to the time
    of the call. When it returns, it has appended one turn, holding the
    message, the returned response and no tool results; the rest of the
    session and the store are unchanged, and the response suggests no
    action exactly when the task succeeded. It rejects only with what the
    output channel threw on the line the [catch] clause of the task writes;
    the session has then been touched and no turn has been appended. On a
    channel that accepts every line it always returns. *)
Theorem continueConversation_records_a_turn (message conversationId : string)
    (options : option AgentOptions) (this : Agent) (w : World) (s : AgentSession) :
  sessionOf this w conversationId = Some s ->
  match SuperDesignCodingAgent.continueConversation message conversationId options
          this w with
  | (Returned response, this', w') =>
      exists turn,
        sessions this' = sessions this /\
        sessionOf this' w' conversationId =
          Some {| sess_id := sess_id s; sess_startTime := sess_startTime s;
                  sess_lastActivity := clock w; sess_projectPath := sess_projectPath s;
                  sess_turns := sess_turns s ++ [turn];
                  sess_context := sess_context s |} /\
        turn_userMessage turn = message /\
        turn_agentResponse turn = response /\
        turn_toolResults turn = [] /\
        ar_context response = sess_context s /\
        (ar_suggestedActions response = Some [] <-> ar_isComplete response = true)
  | (Raised thrown, this', w') =>
      (exists text,
         appendLine (SuperDesignCodingAgent.failedLine text) = Some thrown) /\
      sessions this' = sessions this /\
      sessionOf this' w' conversationId =
        Some {| sess_id := sess_id s; sess_startTime := sess_startTime s;
                sess_lastActivity := clock w; sess_projectPath := sess_projectPath s;
                sess_turns := sess_turns s; sess_context := sess_context s |}
  end /\
  (accepting channel ->
   exists response this' w',
     SuperDesignCodingAgent.continueConversation message conversationId options this w =
       (Returned response, this', w')).
Proof.
  unfold sessionOf. intros Hstored.
  destruct (sessions this !! conversationId) as [session |] eqn:Hentry;
    [| discriminate]. simpl in Hstored.
  unfold SuperDesignCodingAgent.continueConversation, BaseAgent.continueConversation.
  rewrite Hentry.
  set (w1 := BaseAgent.update session (BaseAgent.touch (clock w)) w).
  assert (Htouched : heap w1 !! session = Some (BaseAgent.touch (clock w) s)).
  { unfold w1, BaseAgent.update. simpl.
    rewrite list_lookup_alter. case_decide; [| congruence]. rewrite Hstored. reflexivity. }
  split.
  - destruct (SuperDesignCodingAgent.executeTaskWithStreaming message
                (Some (withSessionId options conversationId)) this w1)
      as [[[result | thrown] this2] w2] eqn:Hrun;
      destruct (executeTaskWithStreaming_frame _ _ _ _ _ _ _ Hrun)
        as (Hstore & Hheap & _).
    + eexists. split; [exact Hstore |]. rewrite Hstore, Hentry. simpl.
      rewrite list_lookup_alter. case_decide; [| congruence].
      rewrite Hheap, Htouched. simpl. split_and!; try reflexivity.
      destruct (task_success result); split; intros Hactions; try reflexivity;
        discriminate Hactions.
    + split; [exact (executeTaskWithStreaming_rejects _ _ _ _ _ _ _ Hrun) |].
      split; [exact Hstore |]. rewrite Hstore, Hentry. simpl.
      rewrite Hheap, Htouched. reflexivity.
  - intros Haccepts.
    destruct (executeTaskWithStreaming_returns message
                (Some (withSessionId options conversationId)) this w1 Haccepts)
      as (result & this2 & w2 & Hrun).
    rewrite Hrun. eauto.
Qed.

End Sessions.

(** X17. [getSession] with an id that is not stored creates a session with
    no turns, started and last active now, for the given project path. The
    new object is none of the stored ones, and every other id still gives
    the session it gave before. *)
Theorem getSession_creates_a_fresh_session (sessionId projectPath : string)
    (this : Agent) (w : World) :
  sessions this !! sessionId = None ->
  sessionsAllocated this w ->
  let '(session, this1, w1) := BaseAgent.getSession sessionId projectPath this w in
  sessionOf this1 w1 sessionId =
    Some {| sess_id := sessionId; sess_startTime := clock w;
            sess_lastActivity := clock w; sess_projectPath := projectPath;
            sess_turns := []; sess_context := ∅ |} /\
  (forall other stored, sessions this !! other = Some stored -> stored <> session) /\
  (forall other, other <> sessionId ->
     sessionOf this1 w1 other = sessionOf this w other).
Proof.
  intros Hnew Hwf. unfold BaseAgent.getSession. rewrite Hnew. simpl.
  unfold sessionOf, set_sessions, set_heap. simpl. split_and!.
  - rewrite lookup_insert_eq. simpl.
    rewrite lookup_app_r, Nat.sub_diag by lia. reflexivity.
  - intros other stored Hstored ->.
    destruct (Hwf _ _ Hstored) as [s Hs].
    apply lookup_lt_Some in Hs. lia.
  - intros other Hother. rewrite lookup_insert_ne by congruence.
    destruct (sessions this !! other) as [stored |] eqn:Hstored; [| reflexivity].
    simpl. destruct (Hwf _ _ Hstored) as [s Hs].
    rewrite Hs. apply lookup_app_l_Some. exact Hs.
Qed.

(** X18. Sweeping twice (at the same time, with the same age) is the same
    as sweeping once. *)
Theorem cleanupSessions_idempotent (maxAge : option Z) (this : Agent) (w : World) :
  BaseAgent.cleanupSessions maxAge (BaseAgent.cleanupSessions maxAge this w) w =
  BaseAgent.cleanupSessions maxAge this w.
Proof.
  assert (Hstore :
    sessions (BaseAgent.cleanupSessions maxAge (BaseAgent.cleanupSessions maxAge this w) w)
    = sessions (BaseAgent.cleanupSessions maxAge this w)).
  { apply map_eq. intros id. rewrite cleanupSessions_lookup.
    destruct (sessions (BaseAgent.cleanupSessions maxAge this w) !! id)
      as [session |] eqn:Hkept; [| reflexivity].
    rewrite cleanupSessions_lookup in Hkept.
    destruct (sessions this !! id) as [stored |]; [| discriminate].
    destruct (BaseAgent.expired _ _ _ stored) eqn:Hexpired; [discriminate |].
    injection Hkept as <-. rewrite Hexpired. reflexivity. }
  change (set_sessions
            (sessions (BaseAgent.cleanupSessions maxAge
                         (BaseAgent.cleanupSessions maxAge this w) w))
            (BaseAgent.cleanupSessions maxAge this w)
          = BaseAgent.cleanupSessions maxAge this w).
  rewrite Hstore. reflexivity.
Qed.

(** X19. A sweep only removes entries, and a larger age keeps at least what
    a smaller one keeps. *)
Theorem cleanupSessions_monotone (small large : Z) (this : Agent) (w : World) :
  small <= large ->
  sessions (BaseAgent.cleanupSessions (Some small) this w) ⊆
    sessions (BaseAgent.cleanupSessions (Some large) this w) /\
  sessions (BaseAgent.cleanupSessions (Some large) this w) ⊆ sessions this.
Proof.
  intros Hle. split; apply map_subseteq_spec; intros id session;
    rewrite !cleanupSessions_lookup; simpl;
    destruct (sessions this !! id) as [stored |]; try discriminate.
  - unfold BaseAgent.expired. destruct (heap w !! stored) as [s |]; [| auto].
    destruct (Z.ltb_spec small (clock w - sess_lastActivity s)); [discriminate |].
    destruct (Z.ltb_spec large (clock w - sess_lastActivity s)); [lia | auto].
  - destruct (BaseAgent.expired _ _ _ _); [discriminate | auto].
Qed.

(** X20. Once a sweep has evicted a session, [getSession] with its id does
    not bring it back: it returns a different, new object without turns,
    while the evicted object is still what it was. *)
Theorem evicted_session_is_not_revived (maxAge : option Z) (sessionId projectPath : string)
    (this : Agent) (w : World) (old : loc) (s : AgentSession) :
  sessions this !! sessionId = Some old ->
  heap w !! old = Some s ->
  clock w - sess_lastActivity s > default 86400000 maxAge ->
  let '(session, this1, w1) :=
    BaseAgent.getSession sessionId projectPath
      (BaseAgent.cleanupSessions maxAge this w) w in
  session <> old /\
  sess_turns <$> sessionOf this1 w1 sessionId = Some [] /\
  heap w1 !! old = Some s.
Proof.
  intros Hstored Hobject Hexpired.
  assert (Hgone : sessions (BaseAgent.cleanupSessions maxAge this w) !! sessionId = None).
  { rewrite cleanupSessions_lookup, Hstored. unfold BaseAgent.expired. rewrite Hobject.
    destruct (Z.ltb_spec (default 86400000 maxAge) (clock w - sess_lastActivity s));
      [reflexivity | lia]. }
  unfold BaseAgent.getSession. rewrite Hgone. simpl.
  unfold sessionOf, set_sessions, set_heap. simpl. split_and!.
  - intros Hsame. apply lookup_lt_Some in Hobject. lia.
  - rewrite lookup_insert_eq. simpl.
    rewrite lookup_app_r, Nat.sub_diag by lia. reflexivity.
  - apply lookup_app_l_Some. exact Hobject.
Qed.

(** ** [executeTask] and the wrapper *)

Lemma setWorkingDirectory_same (this : Agent) :
  BaseAgent.setWorkingDirectory (workingDirectory (config this)) this = this.
Proof. destruct this as [[] ? ? ? ?]. reflexivity. Qed.

Section TaskEntryPoints.
Context `{sdk : ProviderSdk} `{adapter : MessageAdapter} `{service : ClaudeCodeService}
  `{channel : OutputChannel}.

(** The [query] of the wrapper leaves the wrapper as it is. *)
Lemma wrapper_query_this (prompt : string) (options : option AgentOptions)
    (abortController : option AbortController) (onMessage : option Callback)
    (this : ClaudeCodeAgentWrapper.t) (w : World) :
  (ClaudeCodeAgentWrapper.query prompt options abortController onMessage this w).1.2
    = this.
Proof.
  unfold ClaudeCodeAgentWrapper.query, ClaudeCodeAgentWrapper.queryCatch, logged.
  destruct (appendLine (ClaudeCodeAgentWrapper.queryLine prompt)).
  - destruct (appendLine _); reflexivity.
  - destruct (service_query _ _ _ _ w) as [[messages | error] w1]; [reflexivity |].
    destruct (appendLine _); reflexivity.
Qed.

(** X21. [executeTask] is [executeTaskWithStreaming] run after
    [setWorkingDirectory(projectPath)], whether or not the path differs from
    the current one; the agent's working directory is [projectPath] when it
    returns, and stays so. The same holds for the wrapper. *)
Theorem executeTask_sets_the_working_directory (request projectPath : string)
    (options : option AgentOptions) (this : Agent) (wrapper : ClaudeCodeAgentWrapper.t)
    (w : World) :
  SuperDesignCodingAgent.executeTask request projectPath options this w =
    SuperDesignCodingAgent.executeTaskWithStreaming request options
      (BaseAgent.setWorkingDirectory projectPath this) w /\
  BaseAgent.getWorkingDirectory
    (SuperDesignCodingAgent.executeTask request projectPath options this w).1.2
    = projectPath /\
  ClaudeCodeAgentWrapper.getWorkingDirectory
    (ClaudeCodeAgentWrapper.executeTask request projectPath options wrapper w).1.2
    = projectPath.
Proof.
  assert (Hsame : SuperDesignCodingAgent.executeTask request projectPath options this w =
                  SuperDesignCodingAgent.executeTaskWithStreaming request options
                    (BaseAgent.setWorkingDirectory projectPath this) w).
  { unfold SuperDesignCodingAgent.executeTask.
    destruct (String.eqb_spec projectPath (workingDirectory (config this))) as [-> |];
      [rewrite setWorkingDirectory_same |]; reflexivity. }
  split_and!.
  - exact Hsame.
  - rewrite Hsame.
    destruct (SuperDesignCodingAgent.executeTaskWithStreaming request options
                (BaseAgent.setWorkingDirectory projectPath this) w)
      as [[outcome this'] w'] eqn:Hrun.
    apply executeTaskWithStreaming_frame in Hrun as (_ & _ & Hconfig & _).
    unfold BaseAgent.getWorkingDirectory. simpl. rewrite Hconfig. reflexivity.
  - unfold ClaudeCodeAgentWrapper.executeTask,
      ClaudeCodeAgentWrapper.executeTaskWithStreaming.
    match goal with
    | |- context [ClaudeCodeAgentWrapper.query ?p ?o ?a ?m ?t w] =>
        pose proof (wrapper_query_this p o a m t w) as Hthis;
        destruct (ClaudeCodeAgentWrapper.query p o a m t w) as [[[messages | error] t'] w1]
    end; cbn [fst snd] in *; subst;
      destruct (String.eqb_spec projectPath
                  (ClaudeCodeAgentWrapper.workingDirectory wrapper)) as [-> |];
      reflexivity.
Qed.

(** X22. [continueConversation] of the wrapper needs no stored session: for
    any conversation id it forwards the message with that id as session id,
    and answers with the service's messages, marked complete, with no
    suggested action and an empty context. When the service throws, so does
    the wrapper. The output channel is one that accepts the lines [query]
    writes. *)
Theorem wrapper_continueConversation_forwards (message conversationId : string)
    (options : option AgentOptions) (this : ClaudeCodeAgentWrapper.t) (w : World) :
  accepting channel ->
  let forwarded := withSessionId options conversationId in
  ao_sessionId forwarded = Some conversationId /\
  match service_query message (Some forwarded) (ao_abortController forwarded)
          (ao_onMessage forwarded) w with
  | (Returned messages, w1) =>
      ClaudeCodeAgentWrapper.continueConversation message conversationId options this w =
        (Returned {| ar_messages := messages; ar_isComplete := true;
                     ar_suggestedActions := Some []; ar_context := ∅ |}, this, w1)
  | (Raised error, w1) =>
      ClaudeCodeAgentWrapper.continueConversation message conversationId options this w =
        (Raised error, this, w1)
  end.
Proof.
  intros Haccepts forwarded. split; [reflexivity |].
  unfold ClaudeCodeAgentWrapper.continueConversation,
    ClaudeCodeAgentWrapper.executeTaskWithStreaming.
  rewrite (wrapper_query_accepting Haccepts).
  fold forwarded. simpl.
  match goal with
  | |- context [service_query ?a ?b ?c ?d ?e] =>
      destruct (service_query a b c d e) as [[messages | error] w1]
  end; reflexivity.
Qed.

End TaskEntryPoints.

(** ** [analyzeCodbase] *)

Lemma member_snoc (key key' : string) (value : Json) (members : list (string * Json)) :
  member key (members ++ [(key', value)]) =
    if String.eqb key' key then Some value else member key members.
Proof.
  unfold member. rewrite reverse_snoc. simpl.
  destruct (String.eqb key' key); reflexivity.
Qed.

(** Copying a list of properties: a key of the list gets its last value,
    any other key keeps what the target had. *)
Lemma assign_lookup (properties : list (string * Json)) (target : gmap string Json)
    (key : string) :
  assign target properties !! key =
    match member key properties with
    | Some value => Some value
    | None => target !! key
    end.
Proof.
  induction properties as [| [key' value] properties IH] using rev_ind.
  - reflexivity.
  - unfold assign in *. rewrite foldl_app. simpl. rewrite member_snoc.
    destruct (String.eqb_spec key' key) as [-> | Hne].
    + apply lookup_insert_eq.
    + rewrite lookup_insert_ne by exact Hne. exact IH.
Qed.

Section Analysis.
Context `{fs : NodeFs} `{channel : OutputChannel}.

(** On a channel that accepts every line, [analyzeCodbase] returns the
    analysis the [try] block has built. *)
Lemma analyzeCodbase_accepting (projectPath : string) :
  accepting channel ->
  BaseAgent.analyzeCodbase projectPath =
    Returned (BaseAgent.analysisBody projectPath BaseAgent.unknownProject).2.
Proof.
  intros Haccepts. unfold BaseAgent.analyzeCodbase.
  destruct (BaseAgent.analysisBody projectPath BaseAgent.unknownProject)
    as [[error |] analysis]; [| reflexivity].
  rewrite logged_accepting by exact Haccepts. reflexivity.
Qed.

(** Reading the package: [null] throws before anything is assigned, any
    other value makes the project a node project. *)
Lemma readPackage_cases (packageJson : Json) (analysis : ProjectAnalysis) :
  (packageJson = JNull /\
   exists error, BaseAgent.readPackage packageJson analysis = (Some error, analysis)) \/
  (packageJson <> JNull /\
   exists analysis',
     BaseAgent.readPackage packageJson analysis = (None, analysis') /\
     projectType analysis' = "node").
Proof.
  destruct packageJson; [left | right ..]; (split; [congruence |]);
    eexists; try (split; [reflexivity |]); reflexivity.
Qed.

(** X23. The analysis says [projectType = "node"] exactly when the project
    has a package file that can be read and parsed and is not [null];
    otherwise the type stays "unknown" and no stack, dependency or
    TypeScript support is reported. The output channel is one that accepts
    the line written when the analysis fails. *)
Theorem analysis_recognises_node_projects (projectPath : string) :
  accepting channel ->
  let packageJsonPath := path_join projectPath "package.json" in
  exists analysis,
    BaseAgent.analyzeCodbase projectPath = Returned analysis /\
    (projectType analysis = "node" <->
     existsSync packageJsonPath = true /\
     exists text packageJson,
       readFileSync packageJsonPath = Returned text /\
       JSON_parse text = Returned packageJson /\ packageJson <> JNull) /\
    (projectType analysis <> "node" ->
     projectType analysis = "unknown" /\ techStack analysis = [] /\
     dependencies analysis = ∅ /\ supportsTypeScript analysis = false).
Proof.
  intros Haccepts packageJsonPath. eexists.
  split; [exact (analyzeCodbase_accepting projectPath Haccepts) |].
  unfold BaseAgent.analysisBody. fold packageJsonPath.
  destruct (existsSync packageJsonPath) eqn:Hexists.
  2: { cbn. split; [| auto].
       split; [discriminate | intros [Hfalse _]; discriminate Hfalse]. }
  destruct (readFileSync packageJsonPath) as [text | error] eqn:Hread.
  2: { cbn. split; [| auto].
       split; [discriminate | intros (_ & t & j & Ht & _); discriminate Ht]. }
  destruct (JSON_parse text) as [packageJson | error] eqn:Hparse.
  2: { cbn. split; [| auto].
       split; [discriminate |].
       intros (_ & t & j & [= <-] & Hj & _). rewrite Hparse in Hj. discriminate Hj. }
  destruct (readPackage_cases packageJson BaseAgent.unknownProject)
    as [[-> (error & Hrun)] | (Hvalue & analysis' & Hrun & Htype)]; rewrite Hrun; cbn.
  - split; [| auto]. split; [discriminate |].
    intros (_ & t & j & [= <-] & Hj & Hnull). rewrite Hparse in Hj.
    injection Hj as <-. contradiction.
  - rewrite Htype. split; [| intros Hnot; contradiction].
    split; [| reflexivity]. intros _. split; [reflexivity |].
    exists text, packageJson. auto.
Qed.

(** X24. When the package file exists but cannot be read or parsed, or is
    [null], the analysis is returned untouched: in particular the test
    directories are not looked at and [hasTests] is false, whatever the
    project contains. The output channel is one that accepts the line
    written about the failure. *)
Theorem analysis_failure_skips_the_tests (projectPath : string) :
  accepting channel ->
  let packageJsonPath := path_join projectPath "package.json" in
  existsSync packageJsonPath = true ->
  ((exists error, readFileSync packageJsonPath = Raised error) \/
   (exists text,
      readFileSync packageJsonPath = Returned text /\
      ((exists error, JSON_parse text = Raised error) \/
       JSON_parse text = Returned JNull))) ->
  exists analysis,
    BaseAgent.analyzeCodbase projectPath = Returned analysis /\
    analysis = BaseAgent.unknownProject /\
    hasTests analysis = false.
Proof.
  intros Haccepts packageJsonPath Hexists Hfailure.
  exists BaseAgent.unknownProject. split; [| split; reflexivity].
  rewrite (analyzeCodbase_accepting projectPath Haccepts). f_equal.
  unfold BaseAgent.analysisBody. fold packageJsonPath. rewrite Hexists.
  destruct Hfailure as [[error ->] | (text & -> & [[error ->] | ->])]; reflexivity.
Qed.

(** The analysis of a project whose package file parses to an object: the
    [try] block does not throw. *)
Lemma analyzeCodbase_object (projectPath text : string)
    (members : list (string * Json)) :
  existsSync (path_join projectPath "package.json") = true ->
  readFileSync (path_join projectPath "package.json") = Returned text ->
  JSON_parse text = Returned (JObject members) ->
  exists analysis,
    BaseAgent.analyzeCodbase projectPath = Returned analysis /\
    dependencies analysis =
      assign (assign ∅ (spread (member "dependencies" members)))
        (spread (member "devDependencies" members)).
Proof.
  intros Hexists Hread Hparse.
  unfold BaseAgent.analyzeCodbase, BaseAgent.analysisBody.
  rewrite Hexists, Hread, Hparse. cbn. eexists. split; reflexivity.
Qed.

Lemma detect_appends (key name : string) (deps : gmap string Json)
    (stack : list string) :
  BaseAgent.detect key name deps stack =
    stack ++ (if truthy_opt (deps !! key) then [name] else []).
Proof.
  unfold BaseAgent.detect. destruct (truthy_opt (deps !! key));
    [reflexivity | symmetry; apply app_nil_r].
Qed.

(** The stack made of the four names, each present or not. *)
Lemma stack_of_flags (react vue angular typescript : bool) :
  let stack :=
    (if react then ["React"] else []) ++ (if vue then ["Vue"] else []) ++
    (if angular then ["Angular"] else []) ++
    (if typescript then ["TypeScript"] else []) in
  stack `sublist_of` ["React"; "Vue"; "Angular"; "TypeScript"] /\
  ("React" ∈ stack <-> react = true) /\ ("Vue" ∈ stack <-> vue = true) /\
  ("Angular" ∈ stack <-> angular = true) /\
  ("TypeScript" ∈ stack <-> typescript = true).
Proof.
  destruct react, vue, angular, typescript; cbn;
    (split; [repeat first [apply sublist_nil | apply sublist_skip | apply sublist_cons]
            | split_and!; compute_done]).
Qed.

(** X25. The technology stack lists React, Vue, Angular and TypeScript, in
    this order, each at most once and exactly when the merged dependencies
    have a truthy entry [react], [vue], [angular], [typescript];
    [supportsTypeScript] holds exactly when TypeScript is in the stack. The
    output channel is one that accepts the line written when the analysis
    fails. *)
Theorem analysis_stack_follows_the_dependencies (projectPath : string) :
  accepting channel ->
  exists analysis,
    BaseAgent.analyzeCodbase projectPath = Returned analysis /\
    techStack analysis `sublist_of` ["React"; "Vue"; "Angular"; "TypeScript"] /\
    (supportsTypeScript analysis = true <-> "TypeScript" ∈ techStack analysis) /\
    (forall key name,
       (key, name) ∈ [("react", "React"); ("vue", "Vue"); ("angular", "Angular");
                      ("typescript", "TypeScript")] ->
       (name ∈ techStack analysis <->
        truthy_opt (dependencies analysis !! key) = true)).
Proof.
  intros Haccepts. eexists.
  split; [exact (analyzeCodbase_accepting projectPath Haccepts) |].
  assert (Hflags : forall deps : gmap string Json,
    let stack :=
      BaseAgent.detect "typescript" "TypeScript" deps
        (BaseAgent.detect "angular" "Angular" deps
           (BaseAgent.detect "vue" "Vue" deps
              (BaseAgent.detect "react" "React" deps []))) in
    stack `sublist_of` ["React"; "Vue"; "Angular"; "TypeScript"] /\
    ((if truthy_opt (deps !! "typescript") then true else false) = true <->
     "TypeScript" ∈ stack) /\
    (forall key name,
       (key, name) ∈ [("react", "React"); ("vue", "Vue"); ("angular", "Angular");
                      ("typescript", "TypeScript")] ->
       (name ∈ stack <-> truthy_opt (deps !! key) = true))).
  { intros deps stack. subst stack. rewrite !detect_appends, <- !app_assoc, app_nil_l.
    destruct (stack_of_flags (truthy_opt (deps !! "react")) (truthy_opt (deps !! "vue"))
                (truthy_opt (deps !! "angular")) (truthy_opt (deps !! "typescript")))
      as (Hsub & Hreact & Hvue & Hangular & Htypescript).
    split; [exact Hsub |]. split.
    - rewrite Htypescript. destruct (truthy_opt (deps !! "typescript")); tauto.
    - intros key name Hpair.
      repeat (apply elem_of_cons in Hpair as [[= -> ->] | Hpair]);
        [assumption .. | apply elem_of_nil in Hpair; contradiction]. }
  specialize (Hflags ∅) as Hdefault. cbn in Hdefault.
  unfold BaseAgent.analysisBody.
  destruct (existsSync (path_join projectPath "package.json")); [| exact Hdefault].
  destruct (readFileSync _) as [text | error]; [| exact Hdefault].
  destruct (JSON_parse text) as [packageJson | error]; [| exact Hdefault].
  unfold BaseAgent.readPackage.
  destruct (property packageJson "dependencies") as [deps | error] eqn:Hdeps;
    [| exact Hdefault].
  assert (Hnext : forall key, exists value, property packageJson key = Returned value).
  { intros key. destruct packageJson; simpl in *; try discriminate; eauto. }
  destruct (Hnext "devDependencies") as [devDeps ->].
  destruct (Hnext "scripts") as [declared ->].
  exact (Hflags (assign (assign ∅ (spread deps)) (spread devDeps))).
Qed.

(** X26. In the merged dependencies a development dependency replaces the
    dependency of the same name, and a dependency without such a namesake
    is kept. *)
Theorem analysis_devDependencies_win (projectPath text key : string)
    (members deps devDeps : list (string * Json)) :
  existsSync (path_join projectPath "package.json") = true ->
  readFileSync (path_join projectPath "package.json") = Returned text ->
  JSON_parse text = Returned (JObject members) ->
  member "dependencies" members = Some (JObject deps) ->
  member "devDependencies" members = Some (JObject devDeps) ->
  exists analysis,
    BaseAgent.analyzeCodbase projectPath = Returned analysis /\
    dependencies analysis !! key =
      match member key devDeps with
      | Some value => Some value
      | None => member key deps
      end.
Proof.
  intros Hexists Hread Hparse Hdeps HdevDeps.
  destruct (analyzeCodbase_object projectPath text members Hexists Hread Hparse)
    as (analysis & Hrun & Hmerged).
  exists analysis. split; [exact Hrun |].
  rewrite Hmerged, Hdeps, HdevDeps. simpl. rewrite !assign_lookup, lookup_empty.
  destruct (member key devDeps); [reflexivity |].
  destruct (member key deps); reflexivity.
Qed.

End Analysis.

(** ** The further properties on concrete runs *)

(** Building an openai client leaves a key of another provider alone. *)
Lemma getModel_touches_only_its_slot_witness :
  let sdk := Fixtures.scriptedSdk (Returned Fixtures.oneToolAnswer) 40 in
  (LLMService.getModel (sdk := sdk)
     {| LLMService.config := Fixtures.serviceConfig "openai" |} Fixtures.hostEnv).2
    !! "ANTHROPIC_API_KEY" = Some "host-key".
Proof.
  intros sdk.
  rewrite (getModel_touches_only_its_slot (sdk := sdk)
             {| LLMService.config := Fixtures.serviceConfig "openai" |}
             Fixtures.hostEnv "ANTHROPIC_API_KEY").
  - reflexivity.
  - intros provider [= <-]. discriminate.
Defined.


(** A provider called "mistral" is accepted by the constructor and refused
    by the first generation. *)
Lemma unsupported_provider_fails_at_generation_witness :
  let sdk := Fixtures.scriptedSdk (Returned Fixtures.oneToolAnswer) 40 in
  let channel := Fixtures.quietChannel in
  exists this,
    LLMService.new (Fixtures.serviceConfig "mistral") = Returned this /\
    (LLMService.generateResponse this [Fixtures.userMessage "hello"] None
       (Fixtures.world 1000)).1 =
      Raised (new_Error
                "Failed to generate response: Error: Unsupported provider: mistral").
Proof.
  intros sdk channel.
  destruct (unsupported_provider_fails_at_generation (sdk := sdk) (channel := channel)
              (Fixtures.serviceConfig "mistral")
              {| prov_name := "mistral"; prov_model := Some "model-1";
                 prov_apiKey := Some "sk-test" |}
              [Fixtures.userMessage "hello"] None
              (Fixtures.world 1000)) as (this & Hnew & Hrun).
  - intros line. reflexivity.
  - reflexivity.
  - split; eexists; (split; [reflexivity | discriminate]).
  - intros [H | [H | [H | H]]]; discriminate H.
  - exists this. split; [exact Hnew |]. rewrite Hrun. reflexivity.
Defined.

(** The provider rejects with "rate limited": on a channel that accepts
    the lines the service throws the wrapped error; on a closed channel it
    throws what the channel threw. *)
Lemma generation_errors_are_wrapped_witness :
  let sdk := Fixtures.scriptedSdk (Raised (new_Error "rate limited")) 5 in
  let this := {| LLMService.config := Fixtures.serviceConfig "openai" |} in
  (LLMService.generateResponse (channel := Fixtures.quietChannel) this
     [Fixtures.userMessage "hello"] None (Fixtures.world 1000)).1 =
    Raised (new_Error "Failed to generate response: Error: rate limited") /\
  (LLMService.generateResponse (channel := Fixtures.closedChannel) this
     [Fixtures.userMessage "hello"] None (Fixtures.world 1000)).1 =
    Raised (new_Error "Channel has been closed").
Proof.
  intros sdk this. split.
  - destruct (LLMService.generateResponse (channel := Fixtures.quietChannel) this
                [Fixtures.userMessage "hello"] None (Fixtures.world 1000))
      as [[response | error] w'] eqn:Hrun; [vm_compute in Hrun; discriminate Hrun |].
    destruct (generation_errors_are_wrapped (channel := Fixtures.quietChannel) this
                [Fixtures.userMessage "hello"] None (Fixtures.world 1000) w' error)
      as [Hwrapped _].
    destruct (Hwrapped Hrun) as (cause & -> & [Hcause | [Hcause | Hcause]]).
    + vm_compute in Hcause. discriminate Hcause.
    + destruct Hcause as (model & e1 & _ & Hcause). simpl in Hcause.
      injection Hcause as <-. reflexivity.
    + destruct Hcause as (line & Hline). discriminate Hline.
  - destruct (LLMService.generateResponse (channel := Fixtures.closedChannel) this
                [Fixtures.userMessage "hello"] None (Fixtures.world 1000))
      as [[response | error] w'] eqn:Hrun; [vm_compute in Hrun; discriminate Hrun |].
    destruct (generation_errors_are_wrapped (channel := Fixtures.closedChannel) this
                [Fixtures.userMessage "hello"] None (Fixtures.world 1000) w' error)
      as [Hwrapped _].
    destruct (Hwrapped Hrun) as (cause & -> & _). reflexivity.
Defined.

(** One step with one call and one result: the flat lists of the response
    are those of the provider's answer. *)
Lemma generateResponse_flat_lists_in_order_witness :
  let sdk := Fixtures.scriptedSdk (Returned Fixtures.oneToolAnswer) 40 in
  let channel := Fixtures.quietChannel in
  exists response w',
    LLMService.generateResponse
      {| LLMService.config := Fixtures.serviceConfig "anthropic" |}
      [Fixtures.userMessage "hello"] None (Fixtures.world 1000) =
      (Returned response, w') /\
    resp_steps response = gt_steps Fixtures.oneToolAnswer /\
    resp_toolCalls response = Some [Fixtures.writeCall] /\
    resp_toolResults response = Some [Fixtures.writeResult].
Proof.
  intros sdk channel.
  destruct (LLMService.generateResponse
              {| LLMService.config := Fixtures.serviceConfig "anthropic" |}
              [Fixtures.userMessage "hello"] None (Fixtures.world 1000))
    as [[response | error] w'] eqn:Hrun;
    [| vm_compute in Hrun; discriminate Hrun].
  destruct (generateResponse_flat_lists_in_order _ _ _ _ _ _ Hrun)
    as (model & e1 & answer & elapsed & _ & Hanswer & Hsteps & Hcalls & Hresults).
  injection Hanswer as <- _.
  exists response, w'. split_and!; [reflexivity | assumption ..].
Defined.

(** Lowering the temperature of a valid service keeps its provider; a
    [provider] key that is present and undefined loses it, and the next
    generation cannot read the provider's name. *)
Lemma updateConfig_without_provider_witness :
  let sdk := Fixtures.scriptedSdk (Returned Fixtures.oneToolAnswer) 40 in
  let channel := Fixtures.quietChannel in
  let this := {| LLMService.config := Fixtures.serviceConfig "openai" |} in
  (LLMService.updateConfig Fixtures.cooler this).1 = Returned tt /\
  cfg_provider (LLMService.getConfig (LLMService.updateConfig Fixtures.cooler this).2) =
    cfg_provider (Fixtures.serviceConfig "openai") /\
  (LLMService.updateConfig Fixtures.dropProvider this).1 =
    Raised (ThrownError "TypeError"
              "Cannot read properties of undefined (reading 'apiKey')") /\
  cfg_provider
    (LLMService.getConfig (LLMService.updateConfig Fixtures.dropProvider this).2) = None.
Proof.
  intros sdk channel this.
  destruct (updateConfig_without_provider (sdk := sdk) (channel := channel)
              Fixtures.cooler this) as [Habsent _].
  destruct (Habsent eq_refl) as [Hkept Hvalid].
  destruct (updateConfig_without_provider (sdk := sdk) (channel := channel)
              Fixtures.dropProvider this) as [_ Hundefined].
  destruct (Hundefined eq_refl) as (Hthrows & Hlost & _).
  split_and!.
  - rewrite (Hvalid _ eq_refl); [reflexivity |].
    split; eexists; (split; [reflexivity | discriminate]).
  - exact Hkept.
  - exact Hthrows.
  - exact Hlost.
Defined.

(** The agent built from the fixture configuration. *)
Lemma agent_construction_witness :
  let channel := Fixtures.quietChannel in
  exists this,
    SuperDesignCodingAgent.new Fixtures.agentConfig = Returned this /\
    BaseAgent.isReady this = true /\
    BaseAgent.getWorkingDirectory this = "/workspace".
Proof.
  intros channel.
  destruct (agent_construction (channel := channel) Fixtures.agentConfig
              (fun line => eq_refl))
    as [Hvalid _].
  destruct Hvalid as (this & Hnew & Hready & _ & _ & Hdirectory & _).
  - split; eexists; (split; [reflexivity | discriminate]).
  - exists this. auto.
Defined.

(** A first task in the session "s": its history holds the request and the
    provider's text, stamped 40 ms after the start. *)
Lemma task_appends_to_history_witness :
  let sdk := Fixtures.scriptedSdk (Returned Fixtures.oneToolAnswer) 40 in
  let channel := Fixtures.quietChannel in
  let options := Some (Fixtures.optionsWith None (Some "s")) in
  conversationHistory
    (SuperDesignCodingAgent.executeTaskWithStreaming (adapter := Fixtures.plainAdapter)
       "do it" options Fixtures.agent (Fixtures.world 1000)).1.2 !! "s" =
    Some [{| cm_role := RoleUser; cm_content := "do it"; cm_timestamp := Some 1000 |};
          {| cm_role := RoleAssistant; cm_content := "done";
             cm_timestamp := Some 1040 |}].
Proof.
  intros sdk channel options.
  pose proof (task_appends_to_history (adapter := Fixtures.plainAdapter)
                "do it" options Fixtures.agent (Fixtures.world 1000)) as Hhistory.
  cbv zeta in Hhistory.
  destruct (SuperDesignCodingAgent.executeTaskWithStreaming
              (adapter := Fixtures.plainAdapter)
              "do it" options Fixtures.agent (Fixtures.world 1000))
    as [[outcome this'] w'].
  destruct Hhistory as [_ Hsession].
  destruct (serviceCall "do it" options Fixtures.agent (Fixtures.world 1000))
    as [[response | error] w1] eqn:Hcall; [| vm_compute in Hcall; discriminate Hcall].
  destruct Hsession as (params & answer & elapsed & Hanswer & _ & _ & Hsession).
  simpl in Hanswer. injection Hanswer as <- <-.
  cbn [fst snd]. exact Hsession.
Defined.

(** A callback that throws on every message hears the first tool-call
    message and nothing else; the result holds the user message, the
    assistant message, that tool-call message and the error message. *)
Lemma callback_hears_the_tool_messages_witness :
  let sdk := Fixtures.scriptedSdk (Returned Fixtures.oneToolAnswer) 40 in
  let channel := Fixtures.quietChannel in
  let options := Some (Fixtures.optionsWith (Some Fixtures.failingCallback) (Some "s")) in
  let run :=
    SuperDesignCodingAgent.executeTaskWithStreaming (adapter := Fixtures.plainAdapter)
      "do it" options Fixtures.agent (Fixtures.world 1000) in
  map sdk_subtype (delivered run.2) = [Some "tool_call"] /\
  exists result,
    run.1.1 = Returned result /\
    map sdk_type (task_messages result) =
      [TypeUser; TypeAssistant; TypeAssistant; TypeResult].
Proof.
  intros sdk channel options run. subst run.
  pose proof (callback_hears_the_tool_messages (adapter := Fixtures.plainAdapter)
                "do it" options Fixtures.agent (Fixtures.world 1000)) as Hheard.
  cbv zeta in Hheard.
  destruct (SuperDesignCodingAgent.executeTaskWithStreaming
              (adapter := Fixtures.plainAdapter)
              "do it" options Fixtures.agent (Fixtures.world 1000))
    as [[outcome this'] w'] eqn:Hrun.
  destruct (serviceCall "do it" options Fixtures.agent (Fixtures.world 1000))
    as [[response | error] w1] eqn:Hcall; [| vm_compute in Hcall; discriminate Hcall].
  destruct Hheard as (params & answer & elapsed & Hanswer & _ & _ & Hheard).
  simpl in Hanswer. injection Hanswer as <- <-.
  destruct (progress _ _ _ _) as [handled thrown] eqn:Hprogress.
  vm_compute in Hprogress. injection Hprogress as <- <-.
  destruct Hheard as [Hdelivered Hmessages].
  cbn [fst snd]. rewrite Hdelivered. split; [reflexivity |].
  destruct outcome as [result | thrown]; [| vm_compute in Hrun; discriminate Hrun].
  exists result. split; [reflexivity |]. rewrite (Hmessages result eq_refl).
  assert (Hfailed : task_success result = false).
  { vm_compute in Hrun. injection Hrun as <- _ _. reflexivity. }
  rewrite Hfailed. reflexivity.
Defined.

(** One call of the tool "write". *)
Lemma toolsUsed_are_the_distinct_tool_names_witness :
  let sdk := Fixtures.scriptedSdk (Returned Fixtures.oneToolAnswer) 40 in
  let channel := Fixtures.quietChannel in
  exists result,
    (SuperDesignCodingAgent.executeTaskWithStreaming (adapter := Fixtures.plainAdapter)
       "do it" None Fixtures.agent (Fixtures.world 1000)).1.1 = Returned result /\
    task_toolsUsed result = ["write"] /\
    NoDup (task_toolsUsed result).
Proof.
  intros sdk channel.
  pose proof (toolsUsed_are_the_distinct_tool_names
                (sdk := sdk) (adapter := Fixtures.plainAdapter) (channel := channel)
                "do it" None Fixtures.agent (Fixtures.world 1000) (fun line => eq_refl))
    as Hnames.
  destruct (SuperDesignCodingAgent.executeTaskWithStreaming
              (adapter := Fixtures.plainAdapter)
              "do it" None Fixtures.agent (Fixtures.world 1000))
    as [[outcome this'] w'] eqn:Hrun.
  destruct Hnames as (result & -> & Hdistinct & _).
  exists result. split; [reflexivity |]. split; [| exact Hdistinct].
  vm_compute in Hrun. injection Hrun as <- _ _. reflexivity.
Defined.

(** The provider rejects with "rate limited". *)
Lemma provider_failure_is_reported_witness :
  let sdk := Fixtures.scriptedSdk (Raised (new_Error "rate limited")) 5 in
  let channel := Fixtures.quietChannel in
  exists result this' w',
    SuperDesignCodingAgent.executeTaskWithStreaming (adapter := Fixtures.plainAdapter)
      "do it" None Fixtures.agent (Fixtures.world 1000) = (Returned result, this', w') /\
    task_success result = false /\
    task_error result = Some "Failed to generate response: Error: rate limited" /\
    task_toolsUsed result = [] /\
    map sdk_type (task_messages result) = [TypeUser; TypeResult].
Proof.
  intros sdk channel.
  destruct (provider_failure_is_reported
              (sdk := sdk) (adapter := Fixtures.plainAdapter) (channel := channel)
              "do it" None Fixtures.agent (Fixtures.world 1000)
              {| lm_provider := "openai"; lm_modelId := Some "gpt-4o-mini";
                 lm_credential := Some "sk-test" |} ∅ (new_Error "rate limited") 5)
    as (result & this' & w' & Hrun & Hfailed & Herror & _ & Htools & Hmessages).
  - intros line. reflexivity.
  - vm_compute. reflexivity.
  - reflexivity.
  - exists result, this', w'. rewrite Hmessages.
    split_and!; try assumption; reflexivity.
Defined.

Lemma agedAgent_allocated : sessionsAllocated Fixtures.agedAgent Fixtures.agedWorld.
Proof.
  intros id session. unfold Fixtures.agedAgent. simpl.
  rewrite lookup_insert. case_decide; [intros [= <-]; eexists; reflexivity |].
  rewrite lookup_singleton. case_decide; [intros [= <-]; eexists; reflexivity |].
  discriminate.
Qed.

(** A second message in the stored session "recent"; on a closed channel
    the call rejects, the session touched and without a new turn. *)
Lemma continueConversation_records_a_turn_witness :
  let sdk := Fixtures.scriptedSdk (Returned Fixtures.oneToolAnswer) 40 in
  (exists response this' w',
     SuperDesignCodingAgent.continueConversation
       (sdk := sdk) (adapter := Fixtures.plainAdapter) (channel := Fixtures.quietChannel)
       "next" "recent" None Fixtures.agedAgent Fixtures.agedWorld =
       (Returned response, this', w') /\
     length <$> (sess_turns <$> sessionOf this' w' "recent") = Some 1%nat /\
     sess_lastActivity <$> sessionOf this' w' "recent" = Some 5000 /\
     ar_isComplete response = true) /\
  (exists thrown this' w',
     SuperDesignCodingAgent.continueConversation
       (sdk := sdk) (adapter := Fixtures.plainAdapter) (channel := Fixtures.closedChannel)
       "next" "recent" None Fixtures.agedAgent Fixtures.agedWorld =
       (Raised thrown, this', w') /\
     sessionOf this' w' "recent" = Some (Fixtures.sessionAt "recent" 5000)).
Proof.
  intros sdk. split.
  - destruct (continueConversation_records_a_turn
                (sdk := sdk) (adapter := Fixtures.plainAdapter)
                (channel := Fixtures.quietChannel)
                "next" "recent" None Fixtures.agedAgent Fixtures.agedWorld
                (Fixtures.sessionAt "recent" 4001) eq_refl) as [Hcases _].
    destruct (SuperDesignCodingAgent.continueConversation
                (sdk := sdk) (adapter := Fixtures.plainAdapter)
                (channel := Fixtures.quietChannel)
                "next" "recent" None Fixtures.agedAgent Fixtures.agedWorld)
      as [[[response | thrown] this'] w'] eqn:Hrun;
      [| vm_compute in Hrun; discriminate Hrun].
    destruct Hcases as (turn & _ & Hsession & _).
    exists response, this', w'. rewrite Hsession. simpl.
    split_and!; try reflexivity.
    vm_compute in Hrun. injection Hrun as <- _ _. reflexivity.
  - destruct (continueConversation_records_a_turn
                (sdk := sdk) (adapter := Fixtures.plainAdapter)
                (channel := Fixtures.closedChannel)
                "next" "recent" None Fixtures.agedAgent Fixtures.agedWorld
                (Fixtures.sessionAt "recent" 4001) eq_refl) as [Hcases _].
    destruct (SuperDesignCodingAgent.continueConversation
                (sdk := sdk) (adapter := Fixtures.plainAdapter)
                (channel := Fixtures.closedChannel)
                "next" "recent" None Fixtures.agedAgent Fixtures.agedWorld)
      as [[[response | thrown] this'] w'] eqn:Hrun;
      [vm_compute in Hrun; discriminate Hrun |].
    destruct Hcases as (_ & _ & Hsession).
    exists thrown, this', w'. split; [reflexivity | exact Hsession].
Defined.

(** A third session beside the two stored ones. *)
Lemma getSession_creates_a_fresh_session_witness :
  let '(session, this1, w1) :=
    BaseAgent.getSession "new" "/elsewhere" Fixtures.agedAgent Fixtures.agedWorld in
  session = 2%nat /\
  sess_projectPath <$> sessionOf this1 w1 "new" = Some "/elsewhere" /\
  sessionOf this1 w1 "old" = Some (Fixtures.sessionAt "old" 3999).
Proof.
  pose proof (getSession_creates_a_fresh_session "new" "/elsewhere"
                Fixtures.agedAgent Fixtures.agedWorld eq_refl agedAgent_allocated)
    as Hfresh.
  destruct (BaseAgent.getSession "new" "/elsewhere" Fixtures.agedAgent Fixtures.agedWorld)
    as [[session this1] w1] eqn:Hrun.
  destruct Hfresh as (Hnew & _ & Hothers).
  rewrite Hnew, (Hothers "old") by discriminate.
  split; [| split; reflexivity].
  vm_compute in Hrun. injection Hrun as <- _ _. reflexivity.
Defined.

(** Ages 500 and 1000 at time 5000. *)
Lemma cleanupSessions_monotone_witness :
  sessions (BaseAgent.cleanupSessions (Some 500) Fixtures.agedAgent Fixtures.agedWorld) ⊆
    sessions (BaseAgent.cleanupSessions (Some 1000) Fixtures.agedAgent Fixtures.agedWorld) /\
  sessions (BaseAgent.cleanupSessions (Some 1000) Fixtures.agedAgent Fixtures.agedWorld) ⊆
    sessions Fixtures.agedAgent.
Proof.
  apply (cleanupSessions_monotone 500 1000 Fixtures.agedAgent Fixtures.agedWorld).
  lia.
Defined.

(** The session "old" is swept, then asked for again. *)
Lemma evicted_session_is_not_revived_witness :
  let '(session, this1, w1) :=
    BaseAgent.getSession "old" "/workspace"
      (BaseAgent.cleanupSessions (Some 1000) Fixtures.agedAgent Fixtures.agedWorld)
      Fixtures.agedWorld in
  session <> 0%nat /\
  sess_turns <$> sessionOf this1 w1 "old" = Some [] /\
  heap w1 !! 0%nat = Some (Fixtures.sessionAt "old" 3999).
Proof.
  apply (evicted_session_is_not_revived (Some 1000) "old" "/workspace"
           Fixtures.agedAgent Fixtures.agedWorld 0%nat (Fixtures.sessionAt "old" 3999)).
  - reflexivity.
  - reflexivity.
  - simpl. lia.
Defined.

(** The failing service answers the forwarded message of any conversation. *)
Lemma wrapper_continueConversation_forwards_witness :
  let service := Fixtures.failingService in
  let channel := Fixtures.quietChannel in
  exists response,
    ClaudeCodeAgentWrapper.continueConversation "next" "never-seen" None
      Fixtures.wrapper (Fixtures.world 1000) =
      (Returned response, Fixtures.wrapper, Fixtures.world 1000) /\
    ar_isComplete response = true /\ length (ar_messages response) = 1%nat.
Proof.
  intros service channel.
  destruct (wrapper_continueConversation_forwards
              (service := service) (channel := channel)
              "next" "never-seen" None Fixtures.wrapper (Fixtures.world 1000)
              (fun line => eq_refl)) as [_ Hrun].
  simpl in Hrun. eexists. split; [exact Hrun |]. split; reflexivity.
Defined.

(** The project [/app] is a node project; [/broken] is not. *)
Lemma analysis_recognises_node_projects_witness :
  let fs := Fixtures.projectFs in
  let channel := Fixtures.quietChannel in
  (exists analysis,
     BaseAgent.analyzeCodbase "/app" = Returned analysis /\
     projectType analysis = "node") /\
  (exists analysis,
     BaseAgent.analyzeCodbase "/broken" = Returned analysis /\
     projectType analysis = "unknown" /\ techStack analysis = []).
Proof.
  intros fs channel. split.
  - destruct (analysis_recognises_node_projects (fs := fs) (channel := channel)
                "/app" (fun line => eq_refl)) as (analysis & Hrun & Hnode & _).
    exists analysis. split; [exact Hrun |]. apply Hnode.
    split; [reflexivity |]. exists "app", Fixtures.appPackage.
    split_and!; [reflexivity | reflexivity | discriminate].
  - destruct (analysis_recognises_node_projects (fs := fs) (channel := channel)
                "/broken" (fun line => eq_refl)) as (analysis & Hrun & _ & Hother).
    exists analysis. split; [exact Hrun |].
    destruct Hother as (Htype & Hstack & _); [| auto].
    vm_compute in Hrun. injection Hrun as <-. discriminate.
Defined.

(** The project [/broken] has a [tests] directory and a package file that
    does not parse. *)
Lemma analysis_failure_skips_the_tests_witness :
  let fs := Fixtures.projectFs in
  let channel := Fixtures.quietChannel in
  existsSync "/broken/tests" = true /\
  exists analysis,
    BaseAgent.analyzeCodbase "/broken" = Returned analysis /\
    analysis = BaseAgent.unknownProject /\
    hasTests analysis = false.
Proof.
  intros fs channel. split; [reflexivity |].
  apply (analysis_failure_skips_the_tests (fs := fs) (channel := channel) "/broken").
  - intros line. reflexivity.
  - reflexivity.
  - right. exists "{". split; [reflexivity |]. left. eexists. reflexivity.
Defined.

(** The stack of the project [/app]. *)
Lemma analysis_stack_follows_the_dependencies_witness :
  let fs := Fixtures.projectFs in
  let channel := Fixtures.quietChannel in
  exists analysis,
    BaseAgent.analyzeCodbase "/app" = Returned analysis /\
    ("TypeScript" ∈ techStack analysis <->
     truthy_opt (dependencies analysis !! "typescript") = true) /\
    techStack analysis `sublist_of` ["React"; "Vue"; "Angular"; "TypeScript"].
Proof.
  intros fs channel.
  destruct (analysis_stack_follows_the_dependencies (fs := fs) (channel := channel)
              "/app" (fun line => eq_refl)) as (analysis & Hrun & Hsub & _ & Hkeys).
  exists analysis. split; [exact Hrun |]. split; [| exact Hsub].
  apply Hkeys. set_solver.
Defined.

(** The project [/app] lists typescript twice. *)
Lemma analysis_devDependencies_win_witness :
  let fs := Fixtures.projectFs in
  let channel := Fixtures.quietChannel in
  exists analysis,
    BaseAgent.analyzeCodbase "/app" = Returned analysis /\
    dependencies analysis !! "typescript" = Some (JString "^5.4.0").
Proof.
  intros fs channel.
  destruct (analysis_devDependencies_win (fs := fs) (channel := channel)
              "/app" "app" "typescript"
              [("dependencies",
                JObject [("react", JString "^18.2.0"); ("typescript", JString "^4.9.0")]);
               ("devDependencies", JObject [("typescript", JString "^5.4.0")])]
              [("react", JString "^18.2.0"); ("typescript", JString "^4.9.0")]
              [("typescript", JString "^5.4.0")]
              eq_refl eq_refl eq_refl eq_refl eq_refl) as (analysis & Hrun & Hkey).
  exists analysis. split; [exact Hrun | exact Hkey].
Defined.

(** Zero tokens, temperature zero, zero steps and no tool are asked for:
    4000, 0.7, 25 and no tool set are sent. The project [/app] is a node
    project with React and TypeScript and with tests. *)
Example parameters_for_zero_options :
  let params :=
    LLMService.buildParams {| LLMService.config := Fixtures.serviceConfig "openai" |}
      {| lm_provider := "openai"; lm_modelId := None; lm_credential := None |}
      [Fixtures.userMessage "hello"] (Some Fixtures.zeroOptions) in
  gp_maxTokens params = 4000 /\ gp_temperature params = (7 # 10) /\
  gp_maxSteps params = 25 /\ gp_tools params = None /\
  length (gp_messages params) = 2%nat.
Proof. vm_compute. auto. Qed.

Example analysis_of_app :
  exists analysis,
    BaseAgent.analyzeCodbase (fs := Fixtures.projectFs)
      (channel := Fixtures.closedChannel) "/app" = Returned analysis /\
    projectType analysis = "node" /\ techStack analysis = ["React"; "TypeScript"] /\
    supportsTypeScript analysis = true /\ hasTests analysis = true /\
    scripts analysis = JObject [].
Proof. eexists. split; [vm_compute; reflexivity |]. vm_compute. auto. Qed.
